(** * wandb launch image builder: a Rocq model of [wandb/sdk/launch/builder/build.py]

    The development has two parts.  The first embeds the Python code: the
    values it works on, the library calls it makes, and then the functions of
    [build.py] themselves, each under the name it has in the source.  The
    second part states and proves the properties of those functions.

    Conventions of the embedding.
    - A Python [str] is the list of its code points (integers); a [bytes]
      value is a list of integers in [0, 256).  String literals of the source
      are written [py "..."].
    - A Python [int] is a [Z].
    - A call that may raise returns a [result]: [Ok v] or [Raise e].
    - What the code reads from its surroundings (the user name, the effective
      uid, the buildx probe, the files of the project directory, the loaders of
      the launch package) is passed in explicitly. *)

From Stdlib Require Import ZArith List String Ascii Lia Bool.
From stdpp Require Import base option list strings gmap.

Local Open Scope Z_scope.

(* ===================================================================== *)
(** * Part I: the embedding *)
(* ===================================================================== *)

(** ** Python values *)

Abbreviation str := (list Z) (only parsing).
Abbreviation bytes := (list Z) (only parsing).

(** The code points of a literal.  Every literal of the source is ASCII, where
    the character code is the code point. *)
Definition py (s : string) : str :=
  map (fun a => Z.of_N (N_of_ascii a)) (list_ascii_of_string s).

(** [a + b] on strings is list concatenation; [sep.join(parts)]: *)
Fixpoint str_join (sep : str) (parts : list str) : str :=
  match parts with
  | [] => []
  | [p] => p
  | p :: rest => p ++ sep ++ str_join sep rest
  end.

(** The exceptions that the modelled code raises or lets through. *)
Inductive exn : Type :=
| UnboundLocalError (variable : str)
| AssertionError (message : str)
| UnicodeEncodeError (codepoint : Z)
| IsADirectoryError (path : str)
| IndexError (message : str)
| LaunchError (message : str)
| ExternalError (message : str)
(** not a Python exception: the model does not follow the code further *)
| OutsideModel (what : str).

Inductive result (A : Type) : Type :=
| Ok (value : A)
| Raise (e : exn).
Arguments Ok {A} value.
Arguments Raise {A} e.

Definition bind {A B : Type} (c : result A) (k : A -> result B) : result B :=
  match c with
  | Ok a => k a
  | Raise e => Raise e
  end.

Notation "'let*' x ':=' c 'in' k" := (bind c (fun x => k))
  (at level 10, x pattern, c at level 100, k at level 200).

(** Reading a local variable that may not have been assigned yet. *)
Definition read_local {A : Type} (name : string) (slot : option A) : result A :=
  match slot with
  | Some v => Ok v
  | None => Raise (UnboundLocalError (py name))
  end.

(** Truthiness of an optional string, as [if x] and [not x] test it: [None]
    and the empty string are false. *)
Definition truthy_str (o : option str) : bool :=
  match o with
  | Some (_ :: _) => true
  | _ => false
  end.

(** ** [str.encode("utf-8")] *)

Module codecs.

Definition is_surrogate (c : Z) : bool := (0xD800 <=? c) && (c <=? 0xDFFF).

(** A code point is encodable when it is a Unicode scalar value. *)
Definition is_scalar (c : Z) : bool :=
  (0 <=? c) && (c <=? 0x10FFFF) && negb (is_surrogate c).

Definition continuation (c shift : Z) : Z :=
  Z.lor 0x80 (Z.land (Z.shiftr c shift) 0x3F).

(** The strict error handler: a surrogate is refused.  (An integer outside
    [0, 0x10FFFF] is no code point at all and is refused likewise.) *)
Definition encode_codepoint (c : Z) : result bytes :=
  if negb (is_scalar c) then Raise (UnicodeEncodeError c)
  else if c <? 0x80 then Ok [c]
  else if c <? 0x800 then
    Ok [Z.lor 0xC0 (Z.shiftr c 6); continuation c 0]
  else if c <? 0x10000 then
    Ok [Z.lor 0xE0 (Z.shiftr c 12); continuation c 6; continuation c 0]
  else
    Ok [Z.lor 0xF0 (Z.shiftr c 18); continuation c 12; continuation c 6;
        continuation c 0].

Fixpoint utf8_encode (s : str) : result bytes :=
  match s with
  | [] => Ok []
  | c :: rest =>
      let* b := encode_codepoint c in
      let* bs := utf8_encode rest in
      Ok (b ++ bs)
  end.

End codecs.

(** ** [hashlib.sha256] (FIPS 180-4) on 32-bit words kept in [Z] *)

Module hashlib.

Definition wrap32 (x : Z) : Z := x mod 2 ^ 32.
Definition add32 (x y : Z) : Z := wrap32 (x + y).
Definition not32 (x : Z) : Z := Z.lxor x 0xFFFFFFFF.
Definition rotr (n x : Z) : Z :=
  Z.lor (Z.shiftr x n) (wrap32 (Z.shiftl x (32 - n))).

Definition Ch (x y z : Z) : Z := Z.lxor (Z.land x y) (Z.land (not32 x) z).
Definition Maj (x y z : Z) : Z :=
  Z.lxor (Z.lxor (Z.land x y) (Z.land x z)) (Z.land y z).
Definition Sigma0 (x : Z) : Z := Z.lxor (Z.lxor (rotr 2 x) (rotr 13 x)) (rotr 22 x).
Definition Sigma1 (x : Z) : Z := Z.lxor (Z.lxor (rotr 6 x) (rotr 11 x)) (rotr 25 x).
Definition sigma0 (x : Z) : Z := Z.lxor (Z.lxor (rotr 7 x) (rotr 18 x)) (Z.shiftr x 3).
Definition sigma1 (x : Z) : Z := Z.lxor (Z.lxor (rotr 17 x) (rotr 19 x)) (Z.shiftr x 10).

Definition round_constants : list Z :=
  [ 0x428A2F98; 0x71374491; 0xB5C0FBCF; 0xE9B5DBA5;
    0x3956C25B; 0x59F111F1; 0x923F82A4; 0xAB1C5ED5;
    0xD807AA98; 0x12835B01; 0x243185BE; 0x550C7DC3;
    0x72BE5D74; 0x80DEB1FE; 0x9BDC06A7; 0xC19BF174;
    0xE49B69C1; 0xEFBE4786; 0x0FC19DC6; 0x240CA1CC;
    0x2DE92C6F; 0x4A7484AA; 0x5CB0A9DC; 0x76F988DA;
    0x983E5152; 0xA831C66D; 0xB00327C8; 0xBF597FC7;
    0xC6E00BF3; 0xD5A79147; 0x06CA6351; 0x14292967;
    0x27B70A85; 0x2E1B2138; 0x4D2C6DFC; 0x53380D13;
    0x650A7354; 0x766A0ABB; 0x81C2C92E; 0x92722C85;
    0xA2BFE8A1; 0xA81A664B; 0xC24B8B70; 0xC76C51A3;
    0xD192E819; 0xD6990624; 0xF40E3585; 0x106AA070;
    0x19A4C116; 0x1E376C08; 0x2748774C; 0x34B0BCB5;
    0x391C0CB3; 0x4ED8AA4A; 0x5B9CCA4F; 0x682E6FF3;
    0x748F82EE; 0x78A5636F; 0x84C87814; 0x8CC70208;
    0x90BEFFFA; 0xA4506CEB; 0xBEF9A3F7; 0xC67178F2 ].

(** The eight working variables a..h, also the chaining value. *)
Record state : Type := State {
  va : Z; vb : Z; vc : Z; vd : Z; ve : Z; vf : Z; vg : Z; vh : Z
}.

Definition initial_state : state :=
  State 0x6A09E667 0xBB67AE85 0x3C6EF372 0xA54FF53A
        0x510E527F 0x9B05688C 0x1F83D9AB 0x5BE0CD19.

(** Big-endian bytes of a word, and back. *)
Definition byte_at (x : Z) (shift : Z) : Z := Z.land (Z.shiftr x shift) 0xFF.
Definition word_bytes (x : Z) : bytes :=
  [byte_at x 24; byte_at x 16; byte_at x 8; byte_at x 0].
Definition word_of_bytes (b3 b2 b1 b0 : Z) : Z :=
  Z.lor (Z.lor (Z.shiftl b3 24) (Z.shiftl b2 16)) (Z.lor (Z.shiftl b1 8) b0).

(** Padding: a [0x80] byte, zero bytes up to 56 modulo 64, then the bit
    length of the message as a 64-bit big-endian integer. *)
Definition pad (msg : bytes) : bytes :=
  let len := Z.of_nat (length msg) in
  let bits := 8 * len in
  msg ++ [0x80] ++ repeat 0 (Z.to_nat ((55 - len) mod 64))
      ++ word_bytes (Z.shiftr bits 32) ++ word_bytes bits.

Fixpoint words (block : bytes) : list Z :=
  match block with
  | b3 :: b2 :: b1 :: b0 :: rest => word_of_bytes b3 b2 b1 b0 :: words rest
  | _ => []
  end.

Fixpoint blocks (fuel : nat) (data : bytes) : list bytes :=
  match fuel, data with
  | S fuel', _ :: _ => take 64 data :: blocks fuel' (drop 64 data)
  | _, _ => []
  end.

(** The message schedule, built newest word first. *)
Fixpoint extend_schedule (n : nat) (newest_first : list Z) : list Z :=
  match n with
  | O => newest_first
  | S n' =>
      let w := add32 (add32 (add32 (sigma1 (nth 1 newest_first 0))
                                   (nth 6 newest_first 0))
                            (sigma0 (nth 14 newest_first 0)))
                     (nth 15 newest_first 0) in
      extend_schedule n' (w :: newest_first)
  end.

Definition schedule (block : bytes) : list Z :=
  rev (extend_schedule 48 (rev (words block))).

Definition round (s : state) (kw : Z * Z) : state :=
  let t1 := add32 (add32 (add32 (add32 (vh s) (Sigma1 (ve s)))
                                (Ch (ve s) (vf s) (vg s)))
                         (fst kw))
                  (snd kw) in
  let t2 := add32 (Sigma0 (va s)) (Maj (va s) (vb s) (vc s)) in
  State (add32 t1 t2) (va s) (vb s) (vc s) (add32 (vd s) t1) (ve s) (vf s) (vg s).

Definition compress (h : state) (block : bytes) : state :=
  let s := fold_left round (combine round_constants (schedule block)) h in
  State (add32 (va h) (va s)) (add32 (vb h) (vb s))
        (add32 (vc h) (vc s)) (add32 (vd h) (vd s))
        (add32 (ve h) (ve s)) (add32 (vf h) (vf s))
        (add32 (vg h) (vg s)) (add32 (vh h) (vh s)).

Definition state_bytes (s : state) : bytes :=
  word_bytes (va s) ++ word_bytes (vb s) ++ word_bytes (vc s) ++ word_bytes (vd s)
  ++ word_bytes (ve s) ++ word_bytes (vf s) ++ word_bytes (vg s) ++ word_bytes (vh s).

(** [hashlib.sha256(data).digest()] *)
Definition sha256 (data : bytes) : bytes :=
  let padded := pad data in
  state_bytes (fold_left compress (blocks (length padded) padded) initial_state).

Definition hex_digit (n : Z) : Z :=
  if n <? 10 then 48 + n else 87 + n.

Definition hex_byte (b : Z) : str := [hex_digit (b / 16); hex_digit (b mod 16)].

(** [hashlib.sha256(data).hexdigest()] *)
Definition hexdigest (data : bytes) : str :=
  concat (map hex_byte (sha256 data)).

End hashlib.

(** ** What the code prints

    [wandb.termlog], [wandb.termwarn] and the module logger. *)
Inductive event : Type :=
| Termlog (message : str)
| Termwarn (message : str)
| LoggerWarn (message : str).

(** A computation that prints and may raise: the events printed, in order,
    and the outcome.  What was printed before a raise stays printed. *)
Definition run (A : Type) : Type := list event * result A.

Definition ret {A : Type} (a : A) : run A := ([], Ok a).
Definition emit (e : event) : run unit := ([e], Ok tt).
Definition lift {A : Type} (r : result A) : run A := ([], r).

Definition run_bind {A B : Type} (c : run A) (k : A -> run B) : run B :=
  match c with
  | (log, Ok a) => let (log', r) := k a in (log ++ log', r)
  | (log, Raise e) => (log, Raise e)
  end.

Notation "'let!' x ':=' c 'in' k" := (run_bind c (fun x => k))
  (at level 10, x pattern, c at level 100, k at level 200).
Notation "c ';;' k" := (run_bind c (fun _ => k))
  (at level 100, k at level 200, right associativity).

(** ** [shlex.quote] (also reached as [six.moves.shlex_quote]) *)

Module shlex.

Definition between (lo hi c : Z) : bool := (lo <=? c) && (c <=? hi).

(** The characters outside which [_find_unsafe] matches:
    [[^\w@%+=:,./-]] with [re.ASCII]. *)
Definition is_safe (c : Z) : bool :=
  between 97 122 c || between 65 90 c || between 48 57 c
  || bool_decide (c ∈ py "_@%+=:,./-").

Definition find_unsafe (s : str) : bool := negb (forallb is_safe s).

(** [s.replace(old, new)] for a one-character [old]. *)
Definition replace_char (old : Z) (new : str) (s : str) : str :=
  flat_map (fun c => if c =? old then new else [c]) s.

Definition apostrophe : Z := 39.
Definition double_quote : Z := 34.

(** The text that stands for one apostrophe inside a quoted word: close the
    quotes, an apostrophe between double quotes, open them again. *)
Definition escaped_apostrophe : str :=
  [apostrophe; double_quote; apostrophe; double_quote; apostrophe].

Definition quote (s : str) : str :=
  match s with
  | [] => [apostrophe; apostrophe]
  | _ =>
      if negb (find_unsafe s) then s
      else [apostrophe] ++ replace_char apostrophe escaped_apostrophe s
           ++ [apostrophe]
  end.

(** [shlex.join]: the standard shell-escaped joining of a command. *)
Definition join (split_command : list str) : str :=
  str_join (py " ") (map quote split_command).

End shlex.

(** ** [os.path.join] with two arguments, POSIX flavour *)

Module os_path.

Definition slash : Z := 47.

Definition join (a b : str) : str :=
  match b with
  | c :: _ =>
      if c =? slash then b
      else match a with
           | [] => b
           | _ => if bool_decide (last a = Some slash) then a ++ b
                  else a ++ [slash] ++ b
           end
  | [] =>
      match a with
      | [] => []
      | _ => if bool_decide (last a = Some slash) then a else a ++ [slash]
      end
  end.

End os_path.

(** ** The project descriptor and its surroundings

    [LaunchProject] and [EntryPoint] are declared in [_project_spec.py]; the
    fields below are the ones that [build.py] reads. *)
Record LaunchProject : Type := {
  uri : option str;
  project_dir : option str;
  deps_type : option str;
  python_version : option str;
  docker_image : option str;
  docker_user_id : option Z;
  cuda_base_image : option str;
  (** what [get_image_source_string()] returns *)
  image_source_string : str
}.

Record EntryPoint : Type := {
  name : str;
  command : list str
}.

(** A requirement object yielded by [pkg_resources.parse_requirements]:
    [req_name] is its [name] attribute when it has one, [req_str] is [str(pkg)]. *)
Record Requirement : Type := {
  req_name : option str;
  req_str : str
}.

(** A file system entry. *)
#[local] Unset Elimination Schemes.
Inductive node : Type :=
| File (content : str)
| Symlink (target : str)
| Dir (entries : list (str * node)).
#[local] Set Elimination Schemes.

(** A value of a configuration mapping, as [yaml.safe_load] or a JSON body
    produces them. *)
#[local] Unset Elimination Schemes.
Inductive pyval : Type :=
| PNone
| PBool (b : bool)
| PInt (n : Z)
| PStr (s : str)
| PList (items : list pyval)
| PDict (d : gmap str pyval).
#[local] Set Elimination Schemes.

(** The machine the code runs on. *)
Record Host : Type := {
  (** [getpass.getuser()] and [os.geteuid()] *)
  getuser : str;
  geteuid : Z;
  (** [docker.is_buildx_installed()] *)
  is_buildx_installed : bool;
  (** [os.path.exists] *)
  path_exists : str -> bool;
  (** [open(path)] followed by [pkg_resources.parse_requirements]: the
      outcomes of the successive [next] calls up to [StopIteration], each a
      requirement or the text of the exception that [next] raised *)
  read_requirements : str -> result (list (Requirement + str));
  (** the order in which a [set] of strings is iterated *)
  set_iter : gset str -> list str;
  (** [str.lower] beyond ASCII (the Unicode case mapping of a code point) *)
  unicode_lower : Z -> str;
  (** what lies at a path, for [shutil.copytree] *)
  tree_at : str -> option node;
  (** the directory that [tempfile.mkdtemp()] creates *)
  mkdtemp : str;
  (** the content of [templates/_wandb_bootstrap.py] next to [build.py] *)
  bootstrap_script : str
}.

(** [str.lower]: ASCII letters by the offset, other code points by the host's
    case mapping. *)
Definition str_lower (host : Host) (s : str) : str :=
  flat_map (fun c => if shlex.between 65 90 c then [c + 32]
                     else if c <? 128 then [c]
                     else unicode_lower host c) s.

(** A builder object: its [build_image] method. *)
Record Builder : Type := {
  build_image : LaunchProject -> EntryPoint -> run (option str)
}.

(** The rest of the launch package, as [build_image_from_project] uses it:
    the three loaders of [wandb.sdk.launch.loader], and what comes from
    [_project_spec.py] and [utils.py]. *)
Record Launch (Environment Registry : Type) : Type := {
  environment_from_config : gmap str pyval -> run Environment;
  registry_from_config : gmap str pyval -> Environment -> run Registry;
  builder_from_config :
    gmap str pyval -> Environment -> Registry -> run (option Builder);
  (** [fetch_and_validate_project(launch_project, api)] *)
  fetch_and_validate_project : LaunchProject -> run LaunchProject;
  get_single_entry_point : LaunchProject -> option EntryPoint;
  EntrypointDefaults_PYTHON : list str;
  LOG_PREFIX : str;
  (** [f"{value}"], that is [str(value)] *)
  format_value : pyval -> str
}.
Arguments environment_from_config {Environment Registry} _ _.
Arguments registry_from_config {Environment Registry} _ _ _.
Arguments builder_from_config {Environment Registry} _ _ _ _.
Arguments fetch_and_validate_project {Environment Registry} _ _.
Arguments get_single_entry_point {Environment Registry} _ _.
Arguments EntrypointDefaults_PYTHON {Environment Registry} _.
Arguments LOG_PREFIX {Environment Registry} _.
Arguments format_value {Environment Registry} _ _.

(** [type(value).__name__] *)
Definition type_name (v : pyval) : str :=
  match v with
  | PNone => py "NoneType"
  | PBool _ => py "bool"
  | PInt _ => py "int"
  | PStr _ => py "str"
  | PList _ => py "list"
  | PDict _ => py "dict"
  end.

(** [isinstance(value, dict)] *)
Definition as_dict (v : pyval) : option (gmap str pyval) :=
  match v with
  | PDict d => Some d
  | _ => None
  end.

(** ** [shutil]: the two calls the stager makes *)

Module shutil.

(** [ignore_patterns] for patterns without wildcard characters,
    which a name matches when it is equal to one of them. *)
Definition ignore_patterns (patterns : list str) (entry_name : str) : bool :=
  bool_decide (entry_name ∈ patterns).

(** One level of [copytree]: the entries whose name is ignored are skipped,
    the others are copied with [copy]. *)
Definition copy_entries (copy : node -> node) (ignore : str -> bool)
  : list (str * node) -> list (str * node) :=
  fix go (entries : list (str * node)) : list (str * node) :=
    match entries with
    | [] => []
    | (entry_name, child) :: rest =>
        if ignore entry_name then go rest
        else (entry_name, copy child) :: go rest
    end.

(** What [copytree] makes of one entry with [symlinks=True]: a symbolic
    link is created anew with the same target, a directory is copied
    recursively with the same [ignore], a file is copied. *)
Fixpoint copy_node (ignore : str -> bool) (src : node) : node :=
  match src with
  | File content => File content
  | Symlink target => Symlink target
  | Dir entries => Dir (copy_entries (copy_node ignore) ignore entries)
  end.

(** [copytree(src, dst, symlinks=True, ignore=ignore)]: the listing of the
    new directory [dst], from the listing of [src]. *)
Definition copytree (ignore : str -> bool) (src : list (str * node))
  : list (str * node) :=
  copy_entries (copy_node ignore) ignore src.

End shutil.

(** Directory listings. *)
Fixpoint dir_lookup (entry_name : str) (entries : list (str * node)) : option node :=
  match entries with
  | [] => None
  | (n, child) :: rest =>
      if bool_decide (n = entry_name) then Some child
      else dir_lookup entry_name rest
  end.

Fixpoint dir_replace (entry_name : str) (new : node) (entries : list (str * node))
  : list (str * node) :=
  match entries with
  | [] => []
  | (n, child) :: rest =>
      if bool_decide (n = entry_name) then (n, new) :: rest
      else (n, child) :: dir_replace entry_name new rest
  end.

(** [open(os.path.join(dir, name), "w")] then [write(content)], on the listing
    of [dir]: a new file, or the old one truncated and rewritten.  Through a
    symbolic link the write lands on the link's target, which this listing
    does not hold. *)
Definition write_text (dir_path entry_name content : str)
    (entries : list (str * node)) : result (list (str * node)) :=
  match dir_lookup entry_name entries with
  | None => Ok (entries ++ [(entry_name, File content)])
  | Some (File _) => Ok (dir_replace entry_name (File content) entries)
  | Some (Dir _) => Raise (IsADirectoryError (os_path.join dir_path entry_name))
  | Some (Symlink _) => Raise (OutsideModel (os_path.join dir_path entry_name))
  end.

(** ** More of [str] and [int] *)

(** [s.split(sep)] for a one-character [sep]: [current] is the part being
    read.  The result is never empty. *)
Fixpoint str_split_from (sep : Z) (current : str) (s : str) : list str :=
  match s with
  | [] => [current]
  | c :: rest =>
      if c =? sep then current :: str_split_from sep [] rest
      else str_split_from sep (current ++ [c]) rest
  end.

Definition str_split (sep : Z) (s : str) : list str := str_split_from sep [] s.

(** The characters that [str.split()] and [str.isspace] take for white space. *)
Definition is_space (c : Z) : bool :=
  shlex.between 0x9 0xD c || shlex.between 0x1C 0x20 c
  || bool_decide (c ∈ [0x85; 0xA0; 0x1680; 0x2028; 0x2029; 0x202F; 0x205F; 0x3000])
  || shlex.between 0x2000 0x200A c.

(** [s.split()]: the maximal runs of characters that are not white space. *)
Fixpoint split_whitespace_from (current : str) (s : str) : list str :=
  match s with
  | [] => match current with [] => [] | _ => [current] end
  | c :: rest =>
      if is_space c then
        match current with
        | [] => split_whitespace_from [] rest
        | _ => current :: split_whitespace_from [] rest
        end
      else split_whitespace_from (current ++ [c]) rest
  end.

Definition split_whitespace (s : str) : list str := split_whitespace_from [] s.

(** [str(n)] for an integer: decimal digits, with a minus sign below zero. *)
Fixpoint decimal_digits (fuel : nat) (n : Z) (lower : str) : str :=
  let lower := (48 + n mod 10) :: lower in
  match fuel with
  | O => lower
  | S fuel' => if n <? 10 then lower else decimal_digits fuel' (n / 10) lower
  end.

Definition decimal (n : Z) : str :=
  if n <? 0 then 45 :: decimal_digits (Z.to_nat (Z.log2 (- n))) (- n) []
  else decimal_digits (Z.to_nat (Z.log2 n)) n [].

(** ** [pathlib.Path] on POSIX, as far as equality of paths goes

    A path is its root ([//] when the string starts with exactly two slashes,
    [/] when it starts with one or with more than two, none otherwise) and
    its components, without the empty ones and without [.]. *)

Fixpoint leading_slashes (s : str) : nat :=
  match s with
  | c :: rest => if c =? 47 then S (leading_slashes rest) else O
  | [] => O
  end.

Definition path_root (s : str) : str :=
  match leading_slashes s with
  | O => []
  | 2%nat => [47; 47]
  | _ => [47]
  end.

Definition path_parts (s : str) : list str :=
  filter (fun part => part <> [] /\ part <> [46]) (str_split 47 s).

Definition Path (s : str) : str * list str := (path_root s, path_parts s).

(** ** [wandb/sdk/launch/builder/build.py] *)

Module build.

Definition _GENERATED_DOCKERFILE_NAME : str := py "Dockerfile.wandb-autogenerated".

(** *** [get_docker_user] *)

(** [a or b] on an optional integer. *)
Definition int_or (a : option Z) (b : Z) : Z :=
  match a with
  | Some n => if n =? 0 then b else n
  | None => b
  end.

Definition get_docker_user (host : Host) (launch_project : LaunchProject)
    (runner_type : str) : str * Z :=
  let username := getuser host in
  if bool_decide (runner_type = py "sagemaker")
     && negb (truthy_str (docker_image launch_project))
  then (username, 0)
  else
    let userid := int_or (docker_user_id launch_project) (geteuid host) in
    (username, userid).

(** *** The templates of the requirements section

    A template is a function of its fields; [nl] is the line break and [dq]
    the double quote.  In [CONDA_TEMPLATE] the backslash at the end of a
    line of the source literal joins that line with the next. *)

Definition nl : str := [10].
Definition dq : str := [34].

Definition PIP_TEMPLATE (buildx_optional_prefix requirements_files pip_install : str)
  : str :=
  nl ++ py "RUN python -m venv /env" ++ nl
  ++ py "# make sure we install into the env" ++ nl
  ++ py "ENV PATH=" ++ dq ++ py "/env/bin:$PATH" ++ dq ++ nl
  ++ py "COPY " ++ requirements_files ++ py " ./" ++ nl
  ++ buildx_optional_prefix ++ py " " ++ pip_install ++ nl.

Definition CONDA_TEMPLATE (buildx_optional_prefix : str) : str :=
  nl ++ py "COPY src/environment.yml ." ++ nl
  ++ buildx_optional_prefix ++ py " conda env create -f environment.yml -n env" ++ nl
  ++ nl
  ++ py "# pack the environment so that we can transfer to the base image" ++ nl
  ++ py "RUN conda install -c conda-forge conda-pack" ++ nl
  ++ py "RUN conda pack -n env -o /tmp/env.tar && "
  ++ py "    mkdir /env && cd /env && tar xf /tmp/env.tar && "
  ++ py "    rm /tmp/env.tar" ++ nl
  ++ py "RUN /env/bin/conda-unpack" ++ nl.

Definition CACHE_DISABLED : str := py "RUN WANDB_DISABLE_CACHE=true".
Definition PIP_CACHE_MOUNT : str :=
  py "RUN --mount=type=cache,mode=0777,target=/root/.cache/pip".
Definition CONDA_CACHE_MOUNT : str :=
  py "RUN --mount=type=cache,mode=0777,target=/opt/conda/pkgs".

Definition BUILDX_WARNING : str :=
  py "Docker BuildX is not installed, for faster builds upgrade docker: https://github.com/docker/buildx#installing".
Definition NO_REQUIREMENTS_WARNING : str :=
  py "No requirements file found. No packages will be installed.".

(** *** [_parse_existing_requirements] *)

Definition requirement_name (host : Host) (pkg : Requirement) : str :=
  match req_name pkg with
  | Some n => str_lower host n
  | None => req_str pkg
  end.

(** The [while True] loop over the iterator: a requirement adds its quoted
    name to the set, an exception is logged and the loop goes on, and
    [StopIteration] (the end of the outcomes) leaves the loop. *)
Fixpoint parse_loop (host : Host) (outcomes : list (Requirement + str))
    (include_only : gset str) : run (gset str) :=
  match outcomes with
  | [] => ret include_only
  | inl pkg :: rest =>
      let name := requirement_name host pkg in
      parse_loop host rest ({[ shlex.quote name ]} ∪ include_only)
  | inr e :: rest =>
      emit (LoggerWarn (py "Unable to parse requirements.txt: " ++ e)) ;;
      parse_loop host rest include_only
  end.

Definition _parse_existing_requirements (host : Host)
    (launch_project : LaunchProject) : run str :=
  let requirements_line := [] in
  match project_dir launch_project with
  | None => lift (Raise (AssertionError []))
  | Some dir =>
      let base_requirements := os_path.join dir (py "requirements.txt") in
      if path_exists host base_requirements then
        let! outcomes := lift (read_requirements host base_requirements) in
        let! include_only := parse_loop host outcomes ∅ in
        ret (requirements_line
             ++ py "WANDB_ONLY_INCLUDE="
             ++ str_join (py ",") (set_iter host include_only) ++ py " ")
      else ret requirements_line
  end.

(** *** [get_requirements_section]

    The locals [prefix], [buildx_installed] and [pip_install_line] are
    assigned on some paths only; they are optional here and read with
    [read_local]. *)

Definition project_has (host : Host) (launch_project : LaunchProject)
    (file_name : str) : bool :=
  match project_dir launch_project with
  | Some dir => path_exists host (os_path.join dir file_name)
  | None => false
  end.

Definition get_requirements_section (host : Host)
    (launch_project : LaunchProject) (builder_type : str) : run str :=
  let! assigned :=
    if bool_decide (builder_type = py "docker") then
      let buildx_installed := is_buildx_installed host in
      if negb buildx_installed then
        emit (Termwarn BUILDX_WARNING) ;;
        ret (Some CACHE_DISABLED, Some buildx_installed)
      else ret (None, Some buildx_installed)
    else if bool_decide (builder_type = py "kaniko") then
      ret (Some CACHE_DISABLED, Some false)
    else ret (None, None) in
  let '(prefix, buildx_installed) := assigned in
  if bool_decide (deps_type launch_project = Some (py "pip")) then
    let requirements_files := [] in
    let pip_install_line := None in
    let '(requirements_files, pip_install_line) :=
      if project_has host launch_project (py "requirements.txt") then
        (requirements_files ++ [py "src/requirements.txt"],
         Some (py "pip install -r requirements.txt"))
      else (requirements_files, pip_install_line) in
    let! assigned :=
      if project_has host launch_project (py "requirements.frozen.txt") then
        (* frozen requirements take precedence *)
        let requirements_files :=
          requirements_files
          ++ [py "src/requirements.frozen.txt"; py "_wandb_bootstrap.py"] in
        let! include := _parse_existing_requirements host launch_project in
        ret (requirements_files, Some (include ++ py "python _wandb_bootstrap.py"))
      else ret (requirements_files, pip_install_line) in
    let '(requirements_files, pip_install_line) := assigned in
    let! buildx := lift (read_local "buildx_installed" buildx_installed) in
    let prefix := if buildx then Some PIP_CACHE_MOUNT else prefix in
    let! prefix := lift (read_local "prefix" prefix) in
    let requirements_files := str_join (py " ") requirements_files in
    let! pip_install := lift (read_local "pip_install_line" pip_install_line) in
    ret (PIP_TEMPLATE prefix requirements_files pip_install)
  else if bool_decide (deps_type launch_project = Some (py "conda")) then
    let! buildx := lift (read_local "buildx_installed" buildx_installed) in
    let prefix := if buildx then Some CONDA_CACHE_MOUNT else prefix in
    let! prefix := lift (read_local "prefix" prefix) in
    ret (CONDA_TEMPLATE prefix)
  else
    (* this means no deps file was found *)
    let requirements_line := py "RUN mkdir -p env/" in
    emit (Termwarn NO_REQUIREMENTS_WARNING) ;;
    ret requirements_line.

(** *** [join] *)

Definition join (split_command : list str) : str :=
  str_join (py " ")
    (map (fun arg => shlex.quote (shlex.replace_char shlex.apostrophe [] arg))
         split_command).

(** *** [_create_docker_build_ctx]

    The result is the path of the new directory together with the tree that
    stands there when the function returns. *)

Definition _create_docker_build_ctx (host : Host)
    (launch_project : LaunchProject) (dockerfile_contents : str)
  : result (str * node) :=
  let directory := mkdtemp host in
  let staged : list (str * node) := [] in
  let dst_path := os_path.join directory (py "src") in
  let* project_dir :=
    match project_dir launch_project with
    | Some dir => Ok dir
    | None => Raise (AssertionError [])
    end in
  let* copied :=
    match tree_at host project_dir with
    | Some (Dir entries) =>
        Ok (shutil.copytree
              (shutil.ignore_patterns [py "fsmonitor--daemon.ipc"]) entries)
    | _ => Raise (ExternalError (py "copytree: the source is not a directory"))
    end in
  let staged := staged ++ [(py "src", Dir copied)] in
  let* staged :=
    write_text directory (py "_wandb_bootstrap.py") (bootstrap_script host)
               staged in
  let* copied :=
    match python_version launch_project with
    | Some (c :: version) =>
        write_text dst_path (py "runtime.txt") (py "python-" ++ c :: version) copied
    | _ => Ok copied
    end in
  let staged := dir_replace (py "src") (Dir copied) staged in
  let* staged :=
    write_text directory _GENERATED_DOCKERFILE_NAME dockerfile_contents staged in
  Ok (directory, Dir staged).

(** *** [build_image_from_project] *)

Section Dispatch.
Context {Environment Registry : Type}.
Variable launch : Launch Environment Registry.

Definition config_section (launch_config : option (gmap str pyval))
    (key : str) : pyval :=
  let launch_config := default ∅ launch_config in
  default (PDict ∅) (launch_config !! key).

Definition build_image_from_project (launch_project : LaunchProject)
    (launch_config : option (gmap str pyval)) : run str :=
  match uri launch_project with
  | Some (_ :: _) => ret tt
  | _ => lift (Raise (AssertionError
                        (py "To build an image on queue a URI must be set.")))
  end ;;
  let env_config := config_section launch_config (py "environment") in
  match as_dict env_config with
  | None =>
      let wrong_type := type_name env_config in
      lift (Raise (LaunchError
        (py "Invalid environment config: " ++ format_value launch env_config
         ++ py " of type " ++ wrong_type ++ py " "
         ++ py "loaded from launch config. Expected dict.")))
  | Some env_dict =>
  let! environment := environment_from_config launch env_dict in
  let registry_config := config_section launch_config (py "registry") in
  match as_dict registry_config with
  | None =>
      let wrong_type := type_name registry_config in
      lift (Raise (LaunchError
        (py "Invalid registry config: " ++ format_value launch registry_config
         ++ py " of type " ++ wrong_type
         ++ py " loaded from launch config. Expected dict.")))
  | Some registry_dict =>
  let! registry := registry_from_config launch registry_dict environment in
  let builder_config := config_section launch_config (py "builder") in
  match as_dict builder_config with
  | None =>
      let wrong_type := type_name builder_config in
      lift (Raise (LaunchError
        (py "Invalid builder config: " ++ format_value launch builder_config
         ++ py " of type " ++ wrong_type ++ py " "
         ++ py "loaded from launch config. Expected dict.")))
  | Some builder_dict =>
  let! builder := builder_from_config launch builder_dict environment registry in
  match builder with
  | None => lift (Raise (LaunchError (py "Unable to build image. No builder found.")))
  | Some builder =>
  let! launch_project := fetch_and_validate_project launch launch_project in
  let! entry_point :=
    match get_single_entry_point launch launch_project with
    | Some entry_point => ret entry_point
    | None =>
        match last (EntrypointDefaults_PYTHON launch) with
        | Some script =>
            ret {| name := script; command := EntrypointDefaults_PYTHON launch |}
        | None => lift (Raise (IndexError (py "list index out of range")))
        end
    end in
  emit (Termlog (LOG_PREFIX launch ++ py "Building docker image from uri source")) ;;
  let! image_uri := build_image builder launch_project entry_point in
  match image_uri with
  | Some (c :: rest) => ret (c :: rest)
  | _ => lift (Raise (LaunchError (py "Error building image uri")))
  end
  end end end end.

End Dispatch.

(** *** [image_tag_from_dockerfile_and_source] *)

Definition image_tag_from_dockerfile_and_source
    (launch_project : LaunchProject) (dockerfile_contents : str) : result str :=
  let image_source_string := image_source_string launch_project in
  let unique_id_string := image_source_string ++ dockerfile_contents in
  let* encoded := codecs.utf8_encode unique_id_string in
  let image_tag := take 8 (hashlib.hexdigest encoded) in
  Ok image_tag.

(** *** The other templates

    As above, a backslash at the end of a line of a source literal joins
    that line with the next. *)

Definition DEFAULT_ENTRYPOINT : str := py "_wandb_default_entrypoint".

Definition DOCKERFILE_TEMPLATE
    (py_build_image requirements_section base_setup uid user_setup workdir
     entrypoint_setup : str) : str :=
  nl
  ++ py "# ----- stage 1: build -----" ++ nl
  ++ py "FROM " ++ py_build_image ++ py " as build" ++ nl
  ++ nl
  ++ py "# requirements section depends on pip vs conda, and presence of buildx" ++ nl
  ++ requirements_section ++ nl
  ++ nl
  ++ py "# ----- stage 2: base -----" ++ nl
  ++ base_setup ++ nl
  ++ nl
  ++ py "COPY --from=build /env /env" ++ nl
  ++ py "ENV PATH=" ++ dq ++ py "/env/bin:$PATH" ++ dq ++ nl
  ++ nl
  ++ py "ENV SHELL /bin/bash" ++ nl
  ++ nl
  ++ py "# some resources (eg sagemaker) must run on root" ++ nl
  ++ user_setup ++ nl
  ++ nl
  ++ py "WORKDIR " ++ workdir ++ nl
  ++ py "RUN chown -R " ++ uid ++ py " " ++ workdir ++ nl
  ++ nl
  ++ py "# make artifacts cache dir unrelated to build" ++ nl
  ++ py "RUN mkdir -p " ++ workdir ++ py "/.cache && chown -R " ++ uid ++ py " " ++ workdir ++ py "/.cache" ++ nl
  ++ nl
  ++ py "# copy code/etc" ++ nl
  ++ py "COPY --chown=" ++ uid ++ py " src/ " ++ workdir ++ nl
  ++ nl
  ++ py "ENV PYTHONUNBUFFERED=1" ++ nl
  ++ nl
  ++ py "# some resources (eg sagemaker) have unique entrypoint requirements" ++ nl
  ++ entrypoint_setup ++ nl.

Definition PYTHON_SETUP_TEMPLATE (py_base_image : str) : str :=
  nl
  ++ py "FROM " ++ py_base_image ++ py " as base" ++ nl.

Definition CUDA_SETUP_TEMPLATE (cuda_base_image python_packages py_version : str)
  : str :=
  nl
  ++ py "FROM " ++ cuda_base_image ++ py " as base" ++ nl
  ++ py "# TODO: once NVIDIA their linux repository keys for all docker images" ++ nl
  ++ py "RUN apt-key adv --fetch-keys https://developer.download.nvidia.com/compute/cuda/repos/$(cat /etc/os-release | grep ^ID= |  cut -d " ++ dq ++ py "=" ++ dq ++ py " -f2 )$(cat /etc/os-release | grep ^VERSION_ID= |  cut -d " ++ dq ++ py "=" ++ dq ++ py " -f2 | sed -e 's/[" ++ dq ++ py ".]//g' )/$(uname -i)/3bf863cc.pub" ++ nl
  ++ py "RUN apt-key adv --fetch-keys https://developer.download.nvidia.com/compute/machine-learning/repos/$(cat /etc/os-release | grep ^ID= |  cut -d " ++ dq ++ py "=" ++ dq ++ py " -f2 )$(cat /etc/os-release | grep ^VERSION_ID= |  cut -d " ++ dq ++ py "=" ++ dq ++ py " -f2 | sed -e 's/[" ++ dq ++ py ".]//g' )/$(uname -i)/7fa2af80.pub" ++ nl
  ++ py "RUN apt-get update -qq && apt-get install -y software-properties-common && add-apt-repository -y ppa:deadsnakes/ppa" ++ nl
  ++ nl
  ++ py "# install python" ++ nl
  ++ py "RUN apt-get update -qq && apt-get install --no-install-recommends -y     " ++ python_packages ++ py "     && apt-get -qq purge && apt-get -qq clean     && rm -rf /var/lib/apt/lists/*" ++ nl
  ++ nl
  ++ py "# make sure `python` points at the right version" ++ nl
  ++ py "RUN update-alternatives --install /usr/bin/python python /usr/bin/python" ++ py_version ++ py " 1     && update-alternatives --install /usr/local/bin/python python /usr/bin/python" ++ py_version ++ py " 1" ++ nl.

Definition USER_CREATE_TEMPLATE (uid user : str) : str :=
  nl
  ++ py "RUN useradd     --create-home     --no-log-init     --shell /bin/bash     --gid 0     --uid " ++ uid ++ py "     " ++ user ++ py " || echo " ++ dq ++ dq ++ nl.

Definition ENTRYPOINT_TEMPLATE (workdir entrypoint default_entrypoint : str) : str :=
  nl
  ++ py "COPY ./src/" ++ default_entrypoint ++ py " " ++ workdir ++ nl
  ++ py "ENTRYPOINT [" ++ dq ++ py "sh" ++ dq ++ py ", " ++ dq ++ py "./" ++ default_entrypoint ++ dq ++ py ", " ++ dq ++ entrypoint ++ dq ++ py "]" ++ nl.

Definition BASH_ENTRYPOINT : str :=
  nl
  ++ py "#!/bin/sh" ++ nl
  ++ py "if [ -z " ++ dq ++ py "${WANDB_ENTRYPOINT_COMMAND}" ++ dq ++ py " ]; then" ++ nl
  ++ py "    CMD=" ++ dq ++ py "$1" ++ dq ++ nl
  ++ py "else" ++ nl
  ++ py "    CMD=" ++ dq ++ py "${WANDB_ENTRYPOINT_COMMAND}" ++ dq ++ nl
  ++ py "fi" ++ nl
  ++ py "CMD=" ++ dq ++ py "${CMD} ${WANDB_ARGS}" ++ dq ++ nl
  ++ py "echo " ++ dq ++ py "Running command: ${CMD}" ++ dq ++ nl
  ++ py "eval $CMD" ++ nl.

(** *** [get_current_python_version]

    [sys_version] is [sys.version]. *)
Definition get_current_python_version (sys_version : str) : result (str * str) :=
  match split_whitespace sys_version with
  | [] => Raise (IndexError (py "list index out of range"))
  | first :: _ =>
      let full_version := str_split 46 first in
      let major := default [] (head full_version) in
      let version :=
        if (2 <=? length full_version)%nat
        then str_join (py ".") (take 2 full_version)
        else major ++ py ".0" in
      Ok (version, major)
  end.

(** *** [get_base_setup]

    The result is what goes to the module logger at the info level, and the
    text. *)
Definition get_base_setup (launch_project : LaunchProject)
    (py_version py_major : str) : list str * str :=
  let python_base_image := py "python:" ++ py_version ++ py "-buster" in
  match cuda_base_image launch_project with
  | Some (c :: image) =>
      let cuda := c :: image in
      let python_packages :=
        if bool_decide (py_major = py "2") then
          [py "python" ++ py_version; py "libpython" ++ py_version;
           py "python-pip"; py "python-setuptools"]
        else
          [py "python" ++ py_version; py "libpython" ++ py_version;
           py "python3-pip"; py "python3-setuptools"] in
      ([py "Using cuda base image: " ++ cuda],
       CUDA_SETUP_TEMPLATE cuda (str_join [32; 92; 10] python_packages) py_version)
  | _ => ([], PYTHON_SETUP_TEMPLATE python_base_image)
  end.

(** *** [get_user_setup] *)
Definition get_user_setup (username : str) (userid : Z) (runner_type : str) : str :=
  if bool_decide (runner_type = py "sagemaker") then py "USER root"
  else
    let user_create := USER_CREATE_TEMPLATE (decimal userid) username in
    user_create ++ nl ++ py "USER " ++ username.

(** *** [get_entrypoint_setup]

    The result is the listing of the project directory after the wrapper
    script has been written there, and the text. *)
Definition get_entrypoint_setup (host : Host) (launch_project : LaunchProject)
    (entry_point : EntryPoint) (workdir : str)
  : result (list (str * node) * str) :=
  match project_dir launch_project with
  | None => Raise (AssertionError [])
  | Some dir =>
      match tree_at host dir with
      | Some (Dir entries) =>
          let* entries := write_text dir DEFAULT_ENTRYPOINT BASH_ENTRYPOINT entries in
          Ok (entries,
              ENTRYPOINT_TEMPLATE workdir (join (command entry_point))
                DEFAULT_ENTRYPOINT)
      | _ => Raise (ExternalError (py "open: the project directory is missing"))
      end
  end.

(** *** [generate_dockerfile]

    What a call leaves behind: the warnings printed, the info lines logged,
    the listing of the project directory if the wrapper script was written,
    and the recipe or the exception. *)
Record composition : Type := {
  warnings : list event;
  info_lines : list str;
  project_listing : option (list (str * node));
  dockerfile : result str
}.

Definition generate_dockerfile (host : Host) (sys_version : str)
    (launch_project : LaunchProject) (entry_point : EntryPoint)
    (runner_type builder_type : str) : composition :=
  let versions :=
    match python_version launch_project with
    | Some (c :: version) =>
        let spl := take 2 (str_split 46 (c :: version)) in
        Ok (str_join (py ".") spl, default [] (head spl))
    | _ => get_current_python_version sys_version
    end in
  match versions with
  | Raise e =>
      {| warnings := []; info_lines := []; project_listing := None;
         dockerfile := Raise e |}
  | Ok (py_version, py_major) =>
  (* ----- stage 1: build ----- *)
  let python_build_image :=
    if bool_decide (deps_type launch_project = Some (py "pip"))
       || bool_decide (deps_type launch_project = None)
    then Some (py "python:" ++ py_version)
    else if bool_decide (deps_type launch_project = Some (py "conda")) then
      Some (if bool_decide (py_major = py "3")
            then py "continuumio/miniconda3:latest"
            else py "continuumio/miniconda:latest")
    else None in
  let '(warnings, section) :=
    get_requirements_section host launch_project builder_type in
  match section with
  | Raise e =>
      {| warnings := warnings; info_lines := []; project_listing := None;
         dockerfile := Raise e |}
  | Ok requirements_section =>
  (* ----- stage 2: base ----- *)
  let '(info_lines, python_base_setup) :=
    get_base_setup launch_project py_version py_major in
  let '(username, userid) := get_docker_user host launch_project runner_type in
  let user_setup := get_user_setup username userid runner_type in
  let workdir := py "/home/" ++ username in
  match get_entrypoint_setup host launch_project entry_point workdir with
  | Raise e =>
      {| warnings := warnings; info_lines := info_lines; project_listing := None;
         dockerfile := Raise e |}
  | Ok (listing, entrypoint_section) =>
      {| warnings := warnings; info_lines := info_lines;
         project_listing := Some listing;
         dockerfile :=
           let* python_build_image :=
             read_local "python_build_image" python_build_image in
           Ok (DOCKERFILE_TEMPLATE python_build_image requirements_section
                 python_base_setup (decimal userid) user_setup workdir
                 entrypoint_section) |}
  end end end.

(** *** [construct_gcp_registry_uri] *)
Definition construct_gcp_registry_uri (gcp_repo gcp_project gcp_registry : str) : str :=
  str_join (py "/") [gcp_registry; gcp_project; gcp_repo].

End build.

(** ** [wandb/sdk/lib/filesystem.py], with [os.path] and [pathlib] of POSIX *)

Module filesystem.

(** The control characters, then the colon, the double quote and
    the characters of the literal below. *)
Definition PROBLEMATIC_PATH_CHARS : str :=
  map Z.of_nat (seq 0 32) ++ [58; 34] ++ py "*<>?|".

(** [os.path.splitdrive]: on POSIX the drive is empty. *)
Definition splitdrive (p : str) : str * str := ([], p).

(** The [for char in PROBLEMATIC_PATH_CHARS] loop of [path_fallbacks]: what
    it yields, from the characters still to try and the current [tail]. *)
Fixpoint fallback_loop (root : str) (chars : str) (tail : str) : list str :=
  match chars with
  | [] => []
  | char :: rest =>
      if bool_decide (char ∈ tail) then
        let tail := shlex.replace_char char (py "-") tail in
        os_path.join root tail :: fallback_loop root rest tail
      else fallback_loop root rest tail
  end.

(** [path_fallbacks]: the paths that the generator yields, in order. *)
Definition path_fallbacks (path : str) : list str :=
  let '(root, tail) := splitdrive path in
  os_path.join root tail :: fallback_loop root PROBLEMATIC_PATH_CHARS tail.

(** [check_exists], for a [str] argument. *)
Fixpoint first_existing (host : Host) (dests : list str) : option str :=
  match dests with
  | [] => None
  | dest :: rest =>
      if path_exists host dest then Some dest else first_existing host rest
  end.

Definition check_exists (host : Host) (path : str) : option str :=
  first_existing host (path_fallbacks path).

(** What [os.makedirs(name, exist_ok=True)] does for a name: it returns, or
    it raises [ValueError], [NotADirectoryError], or another [OSError] with
    its [errno]. *)
Inductive makedirs_outcome : Type :=
| MakedirsReturns
| MakedirsValueError
| MakedirsNotADirectoryError
| MakedirsOSError (errno : Z).

(** How [mkdir_allow_fallback] ends: with the name it created, with the
    [OSError] of [os.makedirs] that it lets through, or with its own
    [OSError]. *)
Inductive mkdir_result : Type :=
| Created (new_name : str)
| Propagated (errno : Z)
| Unable (message : str).

Fixpoint mkdir_loop (makedirs : str -> makedirs_outcome) (dir_name : str)
    (names : list str) : list event * mkdir_result :=
  match names with
  | [] => ([], Unable (py "Unable to create directory '" ++ dir_name ++ py "'"))
  | new_name :: rest =>
      match makedirs new_name with
      | MakedirsReturns =>
          (if bool_decide (Path new_name <> Path dir_name)
           then [LoggerWarn (py "Creating '" ++ new_name ++ py "' instead of '"
                             ++ dir_name ++ py "'")]
           else [],
           Created new_name)
      | MakedirsValueError | MakedirsNotADirectoryError =>
          mkdir_loop makedirs dir_name rest
      | MakedirsOSError errno =>
          if errno =? 22 then mkdir_loop makedirs dir_name rest
          else ([], Propagated errno)
      end
  end.

(** [mkdir_allow_fallback], for a [str] argument. *)
Definition mkdir_allow_fallback (makedirs : str -> makedirs_outcome)
    (dir_name : str) : list event * mkdir_result :=
  mkdir_loop makedirs dir_name (path_fallbacks dir_name).

(** *** [CRDedupedFile]

    The wrapped binary file is what was written to it so far and whether it
    is closed; the lock of [WriteSerializingFile] orders the writes of several
    threads and has no part in what one thread writes. *)

Record BinaryIO : Type := {
  content : bytes;
  is_closed : bool
}.

(** [f.write(data)] and [f.flush()] *)
Definition io_write (f : BinaryIO) (data : bytes) : result BinaryIO :=
  if is_closed f
  then Raise (ExternalError (py "ValueError: write to closed file"))
  else Ok {| content := content f ++ data; is_closed := false |}.

Record CRDedupedFile : Type := {
  _buff : bytes;
  f : BinaryIO
}.

Definition open_file : CRDedupedFile :=
  {| _buff := []; f := {| content := []; is_closed := false |} |}.

Definition CR : Z := 13.
Definition LF : Z := 10.

(** [re.split] of the data at every CR LF pair and at every other LF;
    [current] is the piece being read. *)
Fixpoint split_lines (current : bytes) (data : bytes) : list bytes :=
  match data with
  | [] => [current]
  | c :: rest =>
      if c =? LF then current :: split_lines [] rest
      else
        match rest with
        | c' :: rest' =>
            if (c =? CR) && (c' =? LF) then current :: split_lines [] rest'
            else split_lines (current ++ [c]) rest
        | [] => split_lines (current ++ [c]) rest
        end
  end.

(** One turn of the [for line in lines] loop, on [ret] and [self._buff]. *)
Definition take_line (state : list bytes * bytes) (line : bytes)
  : list bytes * bytes :=
  let '(ret, buff) := state in
  let '(ret, buff) :=
    match line with
    | c :: _ =>
        if c =? CR then
          match ret with
          | _ :: _ => (removelast ret, buff)   (* ret.pop() *)
          | [] => (ret, [])                    (* self._buff is emptied *)
          end
        else (ret, buff)
    | [] => (ret, buff)
    end in
  let line := default [] (last (str_split CR line)) in
  match line with
  | _ :: _ => (ret ++ [line], buff)
  | [] => (ret, buff)
  end.

(** [CRDedupedFile.write]: the object afterwards, and whether the call
    returned. *)
Definition write (self : CRDedupedFile) (data : bytes)
  : CRDedupedFile * result unit :=
  let lines := split_lines [] data in
  let '(ret, buff) := fold_left take_line lines ([], _buff self) in
  let ret := match buff with _ :: _ => buff :: ret | [] => ret end in
  let '(ret, buff) :=
    match ret with
    | _ :: _ => (removelast ret, default [] (last ret))
    | [] => (ret, buff)
    end in
  match io_write (f self) (str_join [LF] ret ++ [LF]) with
  | Ok f' => ({| _buff := buff; f := f' |}, Ok tt)
  | Raise e => ({| _buff := buff; f := f self |}, Raise e)
  end.

(** [CRDedupedFile.close] *)
Definition close (self : CRDedupedFile) : CRDedupedFile * result unit :=
  let flushed :=
    match _buff self with
    | _ :: _ => io_write (f self) (_buff self)
    | [] => Ok (f self)
    end in
  match flushed with
  | Ok f' =>
      ({| _buff := _buff self;
          f := {| content := content f'; is_closed := true |} |}, Ok tt)
  | Raise e => (self, Raise e)
  end.

(** A run of [write] calls, each of which returns. *)
Definition write_all (self : CRDedupedFile) (chunks : list bytes) : CRDedupedFile :=
  fold_left (fun file data => fst (write file data)) chunks self.

End filesystem.

(** ** [wandb/wandb_init.py]: the error handling of [init] *)

Module wandb_init.

(** What a call can raise, by the classes that [init] tells apart:
    [KeyboardInterrupt], an [Exception], or another [BaseException]
    ([SystemExit], [GeneratorExit]). *)
Inductive raised : Type :=
| KeyboardInterrupt
| AnException (text : str)
| OtherBaseException (text : str).

Inductive outcome (A : Type) : Type :=
| Returns (value : A)
| Raises (e : raised).
Arguments Returns {A} value.
Arguments Raises {A} e.

(** What [init] prints or logs. *)
Inductive printed : Type :=
| ProblemAt                       (* getcaller() *)
| LoggerException (text : str)
| Print (text : str).

(** [init]: [setup] is the outcome of [wi.setup(kwargs)], giving the settings
    object; [run_init] is [wi.init()], and [problem] reads
    [wi.settings.problem]. *)
Definition init {Settings Run : Type}
    (setup : outcome Settings) (run_init : Settings -> outcome (option Run))
    (problem : Settings -> str) : list printed * outcome (option Run) :=
  (* the body of the outer [try] *)
  let '(log, body) :=
    match setup with
    | Raises e => ([], Raises e)
    | Returns settings =>
        match run_init settings with
        | Returns run => ([], Returns run)
        | Raises (OtherBaseException text) => ([], Raises (OtherBaseException text))
        | Raises e =>
            let log := [ProblemAt; LoggerException (py "we got issues")] in
            if bool_decide (problem settings = py "fatal") then (log, Raises e)
            else (log, Returns None)
        end
    end in
  (* its [except] clauses *)
  match body with
  | Raises KeyboardInterrupt =>
      (log ++ [Print (py "interrupt")], Raises (AnException (py "interrupted")))
  | Raises (AnException text) =>
      (log ++ [Print (py "got e " ++ text)], Raises (AnException (py "problem")))
  | other => (log, other)
  end.

End wandb_init.

(** ** Notions used to state the properties *)

(** How often a character occurs in a string. *)
Definition occurrences (old : Z) (s : str) : nat :=
  length (filter (fun c => c = old) s).

(** A token with its apostrophes deleted: [arg.replace("'", "")]. *)
Definition strip_apostrophes (token : str) : str :=
  shlex.replace_char shlex.apostrophe [] token.

(** The root-mandating case of [get_docker_user]: the runner is sagemaker and
    the descriptor names no docker image. *)
Definition root_forced (launch_project : LaunchProject) (runner_type : str) : Prop :=
  runner_type = py "sagemaker" /\ truthy_str (docker_image launch_project) = false.

(** The requirements that the parser yielded, without the failed steps. *)
Definition parsed_requirements (outcomes : list (Requirement + str))
  : list Requirement :=
  omap (fun o => match o with inl pkg => Some pkg | inr _ => None end) outcomes.

(** The include-only set in the words of the specification: the lowercase,
    shell-escaped names of the packages parsed from the plain manifest.  (A
    requirement object without a [name] attribute stands under [str(pkg)].) *)
Definition include_only_set (host : Host) (outcomes : list (Requirement + str))
  : gset str :=
  list_to_set
    (map (fun pkg => shlex.quote
                       match req_name pkg with
                       | Some n => str_lower host n
                       | None => req_str pkg
                       end)
         (parsed_requirements outcomes)).

(** The message of the configuration error for one section of the launch
    configuration: it shows the value received and the name of its type. *)
Definition invalid_config_message (section_name : string) (shown type : str) : str :=
  py "Invalid " ++ py section_name ++ py " config: " ++ shown
  ++ py " of type " ++ type ++ py " loaded from launch config. Expected dict.".

(** The entry point that the dispatcher hands to the builder: the single
    entry point of the project, or else the default one. *)
Definition dispatched_entry_point {Environment Registry : Type}
    (launch : Launch Environment Registry) (launch_project : LaunchProject)
  : option EntryPoint :=
  match get_single_entry_point launch launch_project with
  | Some entry_point => Some entry_point
  | None =>
      match last (EntrypointDefaults_PYTHON launch) with
      | Some script =>
          Some {| name := script; command := EntrypointDefaults_PYTHON launch |}
      | None => None
      end
  end.




(** A lowercase hexadecimal digit: [0-9a-f]. *)
Definition lowercase_hex (c : Z) : bool :=
  shlex.between 48 57 c || shlex.between 97 102 c.

(** ** Sample values, for the examples *)

Definition sample_host : Host := {|
  getuser := py "ada";
  geteuid := 1000;
  is_buildx_installed := true;
  path_exists := fun _ => false;
  read_requirements := fun _ => Ok [];
  set_iter := elements;
  unicode_lower := fun c => [c];
  tree_at := fun _ => None;
  mkdtemp := py "/tmp/tmpq2f7";
  bootstrap_script := py "import subprocess"
|}.

(** A host with the given buildx probe, the given existing paths, and the
    given outcome of parsing any requirements file. *)
Definition host_with (buildx : bool) (paths : list str)
    (outcomes : list (Requirement + str)) : Host := {|
  getuser := getuser sample_host;
  geteuid := geteuid sample_host;
  is_buildx_installed := buildx;
  path_exists := fun p => bool_decide (p ∈ paths);
  read_requirements := fun _ => Ok outcomes;
  set_iter := elements;
  unicode_lower := unicode_lower sample_host;
  tree_at := tree_at sample_host;
  mkdtemp := mkdtemp sample_host;
  bootstrap_script := bootstrap_script sample_host
|}.

Definition sample_requirements : list (Requirement + str) :=
  [ inl {| req_name := Some (py "NumPy"); req_str := py "NumPy==1.2" |};
    inr (py "Parse error at: not a requirement");
    inl {| req_name := Some (py "wandb"); req_str := py "wandb>=0.13" |};
    inl {| req_name := Some (py "numpy"); req_str := py "numpy<2" |} ].

Definition with_deps_type (deps : option str) (p : LaunchProject) : LaunchProject := {|
  uri := uri p;
  project_dir := project_dir p;
  deps_type := deps;
  python_version := python_version p;
  docker_image := docker_image p;
  docker_user_id := docker_user_id p;
  cuda_base_image := cuda_base_image p;
  image_source_string := image_source_string p
|}.

Definition sample_project : LaunchProject := {|
  uri := Some (py "https://github.com/wandb/examples");
  project_dir := Some (py "/tmp/project");
  deps_type := Some (py "pip");
  python_version := None;
  docker_image := None;
  docker_user_id := None;
  cuda_base_image := None;
  image_source_string := py "wandb-job:v0"
|}.

Definition with_source (source : str) (p : LaunchProject) : LaunchProject := {|
  uri := uri p;
  project_dir := project_dir p;
  deps_type := deps_type p;
  python_version := python_version p;
  docker_image := docker_image p;
  docker_user_id := docker_user_id p;
  cuda_base_image := cuda_base_image p;
  image_source_string := source
|}.

Definition with_user_id (uid : option Z) (p : LaunchProject) : LaunchProject := {|
  uri := uri p;
  project_dir := project_dir p;
  deps_type := deps_type p;
  python_version := python_version p;
  docker_image := docker_image p;
  docker_user_id := uid;
  cuda_base_image := cuda_base_image p;
  image_source_string := image_source_string p
|}.

Definition with_uri (source_uri : option str) (p : LaunchProject) : LaunchProject := {|
  uri := source_uri;
  project_dir := project_dir p;
  deps_type := deps_type p;
  python_version := python_version p;
  docker_image := docker_image p;
  docker_user_id := docker_user_id p;
  cuda_base_image := cuda_base_image p;
  image_source_string := image_source_string p
|}.


Definition sample_tree : list (str * node) :=
  [ (py "train.py", File (py "print(1)"));
    (py ".git", Dir [ (py "HEAD", File (py "ref: refs/heads/main"));
                      (py "fsmonitor--daemon.ipc", File []) ]);
    (py "data", Symlink (py "/mnt/data"));
    (py "runtime.txt", File (py "python-3.6")) ].

Definition host_with_tree (dir : str) (entries : list (str * node)) : Host := {|
  getuser := getuser sample_host;
  geteuid := geteuid sample_host;
  is_buildx_installed := is_buildx_installed sample_host;
  path_exists := path_exists sample_host;
  read_requirements := read_requirements sample_host;
  set_iter := set_iter sample_host;
  unicode_lower := unicode_lower sample_host;
  tree_at := fun p => if bool_decide (p = dir) then Some (Dir entries) else None;
  mkdtemp := mkdtemp sample_host;
  bootstrap_script := bootstrap_script sample_host
|}.

Definition with_python_version (version : option str) (p : LaunchProject)
  : LaunchProject := {|
  uri := uri p;
  project_dir := project_dir p;
  deps_type := deps_type p;
  python_version := version;
  docker_image := docker_image p;
  docker_user_id := docker_user_id p;
  cuda_base_image := cuda_base_image p;
  image_source_string := image_source_string p
|}.

Definition sample_builder (image_uri : option str) : Builder := {|
  build_image := fun _ _ => ret image_uri
|}.

(** Loaders that accept every mapping and resolve to the given builder.  The
    sample [format_value] shows [None], booleans and strings as [str] does. *)
Definition sample_launch (builder : option Builder) : Launch unit unit := {|
  environment_from_config := fun _ => ret tt;
  registry_from_config := fun _ _ => ret tt;
  builder_from_config := fun _ _ _ => ret builder;
  fetch_and_validate_project := fun p => ret p;
  get_single_entry_point := fun _ => None;
  EntrypointDefaults_PYTHON := [py "python"; py "main.py"];
  LOG_PREFIX := py "launch: ";
  format_value := fun v =>
    match v with
    | PNone => py "None"
    | PBool true => py "True"
    | PBool false => py "False"
    | PStr s => s
    | _ => py "..."
    end
|}.

(** The same, with an environment loader that raises. *)
Definition sample_launch_without_environment (e : exn) : Launch unit unit := {|
  environment_from_config := fun _ => lift (Raise e);
  registry_from_config := registry_from_config (sample_launch None);
  builder_from_config := builder_from_config (sample_launch None);
  fetch_and_validate_project := fetch_and_validate_project (sample_launch None);
  get_single_entry_point := get_single_entry_point (sample_launch None);
  EntrypointDefaults_PYTHON := EntrypointDefaults_PYTHON (sample_launch None);
  LOG_PREFIX := LOG_PREFIX (sample_launch None);
  format_value := format_value (sample_launch None)
|}.

(** [environment] is a mapping; [registry] is a scalar where a mapping is
    required; [builder] is absent. *)
Definition sample_config : option (gmap str pyval) :=
  Some (<[py "environment" := PDict (<[py "type" := PStr (py "gcp")]> ∅)]>
          (<[py "registry" := PStr (py "gcr.io/project/repo")]> ∅)).

Definition sample_config_ok : option (gmap str pyval) :=
  Some (<[py "builder" := PDict (<[py "type" := PStr (py "docker")]> ∅)]> ∅).

(** ** Notions used to state the further properties *)

(** A character of a fallback path against the character of the original
    path at the same place: it is kept, or it was a problematic character and
    is now a hyphen. *)
Definition tamed (original fallback : Z) : Prop :=
  fallback = original
  \/ (original ∈ filesystem.PROBLEMATIC_PATH_CHARS /\ fallback = 45).

(** The failures of [os.makedirs] after which [mkdir_allow_fallback] tries
    the next name. *)
Definition skipped (makedirs : str -> filesystem.makedirs_outcome) (new_name : str)
  : Prop :=
  makedirs new_name = filesystem.MakedirsValueError
  \/ makedirs new_name = filesystem.MakedirsNotADirectoryError
  \/ makedirs new_name = filesystem.MakedirsOSError 22.

(** A piece of text that is one line: not empty, without CR and LF. *)
Definition one_line (line : bytes) : Prop :=
  line <> [] /\ (filesystem.CR ∉ line) /\ (filesystem.LF ∉ line).

(** What [CRDedupedFile] keeps: no CR in the wrapped file, and a held-back
    line without CR and LF. *)
Definition cr_clean (self : filesystem.CRDedupedFile) : Prop :=
  (filesystem.CR ∉ filesystem.content (filesystem.f self))
  /\ (filesystem.CR ∉ filesystem._buff self)
  /\ (filesystem.LF ∉ filesystem._buff self).

(** The exception texts among the outcomes of the requirements parser. *)
Definition parse_failures (outcomes : list (Requirement + str)) : list str :=
  omap (fun o => match o with inl _ => None | inr e => Some e end) outcomes.


(** Whether the requirements section gets a cache mount: the builder is
    docker and BuildX is installed. *)
Definition cache_mount (host : Host) (builder_type : str) : bool :=
  bool_decide (builder_type = py "docker") && is_buildx_installed host.

(** What the first [if] of [get_requirements_section] prints: the BuildX
    warning, for the docker builder without BuildX. *)
Definition buildx_warning (host : Host) (builder_type : str) : list event :=
  if bool_decide (builder_type = py "docker") && negb (is_buildx_installed host)
  then [Termwarn build.BUILDX_WARNING] else [].

(** [requirements.txt] of the project can be opened and parsed. *)
Definition requirements_readable (host : Host) (launch_project : LaunchProject)
  : Prop :=
  exists dir outcomes,
    project_dir launch_project = Some dir
    /\ read_requirements host (os_path.join dir (py "requirements.txt"))
       = Ok outcomes.

(* ===================================================================== *)
(** * Part II: properties *)
(* ===================================================================== *)

(** ** Strings *)

Lemma str_join_length (sep : str) (parts : list str) :
  (length (str_join sep parts)
   = sum_list (map length parts) + length sep * pred (length parts))%nat.
Proof.
  induction parts as [|p [|q rest] IH]; simpl in *; [lia | lia |].
  rewrite !length_app, IH. lia.
Qed.

Section Replace.
Variable old : Z.
Variable new : str.

Lemma replace_char_length (s : str) :
  (length (shlex.replace_char old new s) + occurrences old s
   = length s + occurrences old s * length new)%nat.
Proof.
  unfold occurrences, shlex.replace_char.
  induction s as [|c s IH]; simpl; [reflexivity |].
  rewrite length_app, filter_cons.
  destruct (Z.eqb_spec c old) as [->|Hne].
  - rewrite decide_True by reflexivity. simpl. lia.
  - rewrite decide_False by assumption. simpl. lia.
Qed.

Lemma replace_char_absent (s : str) :
  old ∉ s -> shlex.replace_char old new s = s.
Proof.
  unfold shlex.replace_char.
  induction s as [|c s IH]; simpl; intros Hnot; [reflexivity |].
  apply not_elem_of_cons in Hnot as [Hne Hnot].
  destruct (Z.eqb_spec c old) as [->|_]; [congruence |].
  simpl. f_equal. apply IH, Hnot.
Qed.

Lemma occurrences_pos (s : str) : old ∈ s -> (0 < occurrences old s)%nat.
Proof.
  unfold occurrences. intros Hin.
  assert (Hf : old ∈ filter (fun c => c = old) s)
    by (apply list_elem_of_filter; auto).
  destruct (filter (fun c => c = old) s); [inversion Hf | simpl; lia].
Qed.
End Replace.

(** ** [shlex.quote] and [join] *)

Lemma strip_apostrophes_sound (token : str) :
  shlex.apostrophe ∉ strip_apostrophes token.
Proof.
  unfold strip_apostrophes, shlex.replace_char.
  induction token as [|c s IH]; simpl; [apply not_elem_of_nil |].
  destruct (Z.eqb_spec c shlex.apostrophe) as [->|Hne]; simpl; [exact IH |].
  apply not_elem_of_cons. split; [congruence | exact IH].
Qed.

Lemma apostrophe_is_unsafe (s : str) :
  shlex.apostrophe ∈ s -> shlex.find_unsafe s = true.
Proof.
  unfold shlex.find_unsafe. intros Hin.
  apply negb_true_iff. apply not_true_is_false. intros Hall.
  rewrite forallb_forall in Hall.
  apply list_elem_of_In in Hin. specialize (Hall _ Hin).
  vm_compute in Hall. discriminate.
Qed.

Lemma quote_length_upper (s : str) :
  shlex.apostrophe ∉ s -> (length (shlex.quote s) <= 2 + length s)%nat.
Proof.
  intros Hnot. unfold shlex.quote.
  destruct s as [|c s]; [simpl; lia |].
  destruct (negb (shlex.find_unsafe (c :: s))); cbv iota; [lia |].
  rewrite replace_char_absent by assumption.
  rewrite !length_app. simpl. lia.
Qed.

Lemma quote_length_apostrophe (s : str) :
  shlex.apostrophe ∈ s ->
  length (shlex.quote s)
  = (2 + length s + 4 * occurrences shlex.apostrophe s)%nat.
Proof.
  intros Hin. unfold shlex.quote.
  destruct s as [|c s]; [inversion Hin |].
  rewrite (apostrophe_is_unsafe _ Hin). simpl negb. cbv iota.
  rewrite !length_app.
  pose proof (replace_char_length shlex.apostrophe shlex.escaped_apostrophe (c :: s)) as H.
  change (length shlex.escaped_apostrophe) with 5%nat in H.
  change (length [shlex.apostrophe]) with 1%nat. lia.
Qed.

Lemma quote_strip_length (token : str) :
  (length (shlex.quote (strip_apostrophes token)) <= length (shlex.quote token))%nat
  /\ (shlex.apostrophe ∈ token ->
      (length (shlex.quote (strip_apostrophes token)) < length (shlex.quote token))%nat).
Proof.
  destruct (decide (shlex.apostrophe ∈ token)) as [Hin|Hnot].
  - pose proof (quote_length_upper _ (strip_apostrophes_sound token)) as Hup.
    pose proof (replace_char_length shlex.apostrophe [] token) as Hlen.
    fold (strip_apostrophes token) in Hlen. simpl in Hlen.
    pose proof (occurrences_pos _ _ Hin).
    rewrite (quote_length_apostrophe _ Hin). lia.
  - unfold strip_apostrophes. rewrite replace_char_absent by assumption.
    split; [lia | contradiction].
Qed.

Lemma join_as_shlex_join (split_command : list str) :
  build.join split_command = shlex.join (map strip_apostrophes split_command).
Proof. unfold build.join, shlex.join. rewrite map_map. reflexivity. Qed.

Lemma quoted_lengths_strip (tokens : list str) :
  (sum_list (map length (map shlex.quote (map strip_apostrophes tokens)))
   <= sum_list (map length (map shlex.quote tokens)))%nat
  /\ (Exists (fun t => shlex.apostrophe ∈ t) tokens ->
      (sum_list (map length (map shlex.quote (map strip_apostrophes tokens)))
       < sum_list (map length (map shlex.quote tokens)))%nat).
Proof.
  induction tokens as [|t rest [IHle IHlt]]; simpl.
  - split; [lia | intros H; inversion H].
  - destruct (quote_strip_length t) as [Hle Hlt].
    split; [lia |].
    intros Hex. apply Exists_cons in Hex as [Hin|Hex].
    + specialize (Hlt Hin). lia.
    + specialize (IHlt Hex). lia.
Qed.

Lemma strip_apostrophes_absent (tokens : list str) :
  Forall (fun t => shlex.apostrophe ∉ t) tokens ->
  map strip_apostrophes tokens = tokens.
Proof.
  induction 1 as [|t rest Hnot _ IH]; simpl; [reflexivity |].
  unfold strip_apostrophes at 1. rewrite replace_char_absent by assumption.
  f_equal. exact IH.
Qed.

(** C10.  [join] deletes every apostrophe of every token and then
    shell-quotes the token: it is [shlex.join] of the stripped tokens.  So a
    command and the same command without its apostrophes serialise alike, and
    [join] agrees with the standard shell-escaped joining [shlex.join] of the
    original tokens exactly when no token holds an apostrophe. *)
Theorem join_deletes_apostrophes (split_command : list str) :
  build.join split_command = shlex.join (map strip_apostrophes split_command)
  /\ build.join (map strip_apostrophes split_command) = build.join split_command
  /\ (build.join split_command = shlex.join split_command
      <-> Forall (fun token => shlex.apostrophe ∉ token) split_command).
Proof.
  split; [apply join_as_shlex_join |]. split.
  - rewrite !join_as_shlex_join. f_equal.
    apply strip_apostrophes_absent, Forall_map, Forall_forall.
    intros t _. apply strip_apostrophes_sound.
  - rewrite join_as_shlex_join. split.
    + intros Heq.
      destruct (decide (Forall (fun token => shlex.apostrophe ∉ token) split_command))
        as [Hall|Hnot]; [exact Hall | exfalso].
      apply not_Forall_Exists in Hnot; [| intros t; apply _].
      assert (Hex : Exists (fun t => shlex.apostrophe ∈ t) split_command).
      { eapply Exists_impl; [exact Hnot |]. simpl. intros t Ht.
        destruct (decide (shlex.apostrophe ∈ t)); [assumption | contradiction]. }
      apply quoted_lengths_strip in Hex.
      apply (f_equal length) in Heq. unfold shlex.join in Heq.
      rewrite !str_join_length, !length_map in Heq. lia.
    + intros Hall. rewrite strip_apostrophes_absent by assumption. reflexivity.
Qed.

Example join_local_container_queue :
  build.join [py "python"; py "-q"; [39] ++ py "local container queue" ++ [39]]
  = py "python -q 'local container queue'".
Proof. vm_compute. reflexivity. Qed.

(** [it's] is serialised as [its]; the shell-escaped form is ['it'"'"'s']. *)
Example join_loses_apostrophe :
  build.join [py "it" ++ [39] ++ py "s"] = py "its"
  /\ shlex.join [py "it" ++ [39] ++ py "s"]
     = [39] ++ py "it" ++ [39; 34; 39; 34; 39] ++ py "s" ++ [39].
Proof. vm_compute. split; reflexivity. Qed.

(** ** The image tag

    The digest against the values that [hashlib] gives. *)

Example sha256_abc :
  hashlib.hexdigest (py "abc")
  = py "ba7816bf8f01cfea414140de5dae2223b00361a396177a9cb410ff61f20015ad".
Proof. vm_compute. reflexivity. Qed.

Example sha256_empty :
  hashlib.hexdigest []
  = py "e3b0c44298fc1c149afbf4c8996fb92427ae41e4649b934ca495991b7852b855".
Proof. vm_compute. reflexivity. Qed.

(** 56 bytes: the padding runs into a second block. *)
Example sha256_56_bytes :
  hashlib.hexdigest (py "abcdbcdecdefdefgefghfghighijhijkijkljklmklmnlmnomnopnopq")
  = py "248d6a61d20638b8e5c026930c3e6039a33ce45964ff2167f6ecedd419db06c1".
Proof. vm_compute. reflexivity. Qed.

(** 100 times the letter a. *)
Example sha256_two_blocks :
  hashlib.hexdigest (repeat 97 100)
  = py "2816597888e4a0d3a36b82b83316ab32680eb8f00f8cd3b904d681246d285a0e".
Proof. vm_compute. reflexivity. Qed.

(** "héllo € 😀" *)
Example sha256_utf8 :
  bind (codecs.utf8_encode (py "h" ++ [233] ++ py "llo " ++ [8364; 32; 128512]))
       (fun b => Ok (hashlib.hexdigest b))
  = Ok (py "83643b4928cf4914ee6352fed94ef1d9cacb5a843c45544627c6593db3548d74").
Proof. vm_compute. reflexivity. Qed.

Lemma utf8_encode_scalar (s : str) :
  Forall (fun c => codecs.is_scalar c = true) s ->
  exists encoded, codecs.utf8_encode s = Ok encoded.
Proof.
  induction 1 as [|c rest Hc _ [bs IH]]; simpl; [eauto |].
  unfold codecs.encode_codepoint. rewrite Hc, IH. simpl.
  repeat destruct (_ <? _); simpl; eauto.
Qed.

Lemma byte_at_range (x shift : Z) : 0 <= hashlib.byte_at x shift < 256.
Proof.
  unfold hashlib.byte_at. change 0xFF with (Z.ones 8).
  rewrite Z.land_ones by lia. apply Z.mod_pos_bound. lia.
Qed.

Lemma hex_digit_lowercase (n : Z) :
  0 <= n < 16 -> lowercase_hex (hashlib.hex_digit n) = true.
Proof.
  intros Hn. unfold lowercase_hex, hashlib.hex_digit, shlex.between.
  destruct (Z.ltb_spec n 10); apply orb_true_iff; [left | right];
    apply andb_true_iff; split; apply Z.leb_le; lia.
Qed.

Lemma hex_digit_inj (a b : Z) :
  0 <= a < 16 -> 0 <= b < 16 ->
  hashlib.hex_digit a = hashlib.hex_digit b -> a = b.
Proof.
  unfold hashlib.hex_digit. intros Ha Hb.
  destruct (Z.ltb_spec a 10), (Z.ltb_spec b 10); lia.
Qed.

Lemma hex_byte_inj (a b : Z) :
  0 <= a < 256 -> 0 <= b < 256 ->
  hashlib.hex_byte a = hashlib.hex_byte b -> a = b.
Proof.
  unfold hashlib.hex_byte. intros Ha Hb Heq.
  injection Heq as Hhi Hlo.
  apply hex_digit_inj in Hhi;
    [| split; [apply Z.div_pos | apply Z.div_lt_upper_bound]; lia ..].
  apply hex_digit_inj in Hlo; [| apply Z.mod_pos_bound; lia ..].
  rewrite (Z.div_mod a 16), (Z.div_mod b 16) by lia. congruence.
Qed.

Lemma hex_byte_lowercase (b : Z) :
  0 <= b < 256 -> Forall (fun c => lowercase_hex c = true) (hashlib.hex_byte b).
Proof.
  intros Hb. unfold hashlib.hex_byte.
  repeat constructor; apply hex_digit_lowercase.
  - split; [apply Z.div_pos | apply Z.div_lt_upper_bound]; lia.
  - apply Z.mod_pos_bound; lia.
Qed.

(** The first eight characters of the hexadecimal digest spell the first four
    bytes of the digest. *)
Lemma hexdigest_prefix (data : bytes) :
  take 8 (hashlib.hexdigest data)
  = concat (map hashlib.hex_byte (take 4 (hashlib.sha256 data)))
  /\ exists b0 b1 b2 b3,
       take 4 (hashlib.sha256 data) = [b0; b1; b2; b3]
       /\ Forall (fun b => 0 <= b < 256) [b0; b1; b2; b3].
Proof.
  unfold hashlib.hexdigest, hashlib.sha256.
  generalize (fold_left hashlib.compress
                (hashlib.blocks (length (hashlib.pad data)) (hashlib.pad data))
                hashlib.initial_state) as final.
  intros final. split; [reflexivity |].
  unfold hashlib.state_bytes, hashlib.word_bytes. simpl.
  do 4 eexists. split; [reflexivity |].
  repeat constructor; apply byte_at_range.
Qed.

(** C1.  For an identity string and a recipe text that are Unicode text (every
    code point a scalar value, so that the UTF-8 encoding exists), the tag is
    the first eight characters of the hexadecimal SHA-256 digest of the UTF-8
    encoding of the identity followed by the recipe, and it is eight
    lowercase hexadecimal digits. *)
Theorem image_tag_is_digest_prefix
    (launch_project : LaunchProject) (dockerfile_contents : str) :
  Forall (fun c => codecs.is_scalar c = true)
         (image_source_string launch_project ++ dockerfile_contents) ->
  exists encoded tag,
    codecs.utf8_encode (image_source_string launch_project ++ dockerfile_contents)
    = Ok encoded
    /\ build.image_tag_from_dockerfile_and_source launch_project dockerfile_contents
       = Ok tag
    /\ tag = take 8 (hashlib.hexdigest encoded)
    /\ length tag = 8%nat
    /\ Forall (fun c => lowercase_hex c = true) tag.
Proof.
  intros Hscalar.
  destruct (utf8_encode_scalar _ Hscalar) as [encoded Henc].
  exists encoded, (take 8 (hashlib.hexdigest encoded)).
  split; [exact Henc |]. split.
  { unfold build.image_tag_from_dockerfile_and_source. rewrite Henc. reflexivity. }
  split; [reflexivity |].
  destruct (hexdigest_prefix encoded) as [-> (b0 & b1 & b2 & b3 & -> & Hrange)].
  split; [reflexivity |].
  apply Forall_concat, Forall_map.
  eapply Forall_impl; [exact Hrange |].
  intros b Hb. apply hex_byte_lowercase, Hb.
Qed.

Lemma image_tag_is_digest_prefix_witness :
  exists encoded tag,
    codecs.utf8_encode (py "wandb-job:v0" ++ py "FROM python:3.9") = Ok encoded
    /\ build.image_tag_from_dockerfile_and_source sample_project (py "FROM python:3.9")
       = Ok tag
    /\ tag = take 8 (hashlib.hexdigest encoded)
    /\ length tag = 8%nat
    /\ Forall (fun c => lowercase_hex c = true) tag.
Proof.
  apply (image_tag_is_digest_prefix sample_project (py "FROM python:3.9")).
  repeat constructor.
Defined.

(** A string that holds a lone surrogate has no UTF-8 encoding: the tag is not
    computed, the encoder raises. *)
Example image_tag_surrogate :
  build.image_tag_from_dockerfile_and_source
    (with_source [0xD800] sample_project) (py "FROM python:3.9")
  = Raise (UnicodeEncodeError 0xD800).
Proof. reflexivity. Qed.

(** C6, as stated, fails: two recipe texts under one identity, and two
    identities over one recipe text, that receive the same tag. *)
Lemma image_tag_collision :
  (py "RUN echo 55822" <> py "RUN echo 91069"
   /\ build.image_tag_from_dockerfile_and_source sample_project (py "RUN echo 55822")
      = build.image_tag_from_dockerfile_and_source sample_project (py "RUN echo 91069"))
  /\ (py "job:v32734" <> py "job:v70668"
      /\ build.image_tag_from_dockerfile_and_source
           (with_source (py "job:v32734") sample_project) (py "FROM python:3.9" ++ [10])
         = build.image_tag_from_dockerfile_and_source
             (with_source (py "job:v70668") sample_project) (py "FROM python:3.9" ++ [10])).
Proof.
  split; (split; [vm_compute; discriminate | vm_compute; reflexivity]).
Qed.

Example image_tag_collision_value :
  build.image_tag_from_dockerfile_and_source sample_project (py "RUN echo 55822")
  = Ok (py "d4dae9bd").
Proof. vm_compute. reflexivity. Qed.

(** C6, amended.  The tag is a function of the identity followed by the
    recipe text, and two tags are equal exactly when the SHA-256 digests of
    the two encoded inputs agree on their first four bytes.  So equal inputs
    give equal tags, and different tags come from different inputs. *)
Theorem image_tag_equal_iff
    (p1 p2 : LaunchProject) (t1 t2 : str) (e1 e2 : bytes) :
  codecs.utf8_encode (image_source_string p1 ++ t1) = Ok e1 ->
  codecs.utf8_encode (image_source_string p2 ++ t2) = Ok e2 ->
  (build.image_tag_from_dockerfile_and_source p1 t1
   = build.image_tag_from_dockerfile_and_source p2 t2
   <-> take 4 (hashlib.sha256 e1) = take 4 (hashlib.sha256 e2))
  /\ (image_source_string p1 ++ t1 = image_source_string p2 ++ t2 ->
      build.image_tag_from_dockerfile_and_source p1 t1
      = build.image_tag_from_dockerfile_and_source p2 t2).
Proof.
  intros H1 H2. split.
  - unfold build.image_tag_from_dockerfile_and_source. rewrite H1, H2. cbn [bind].
    destruct (hexdigest_prefix e1) as [-> (a0 & a1 & a2 & a3 & -> & Ha)].
    destruct (hexdigest_prefix e2) as [-> (b0 & b1 & b2 & b3 & -> & Hb)].
    repeat (apply Forall_cons in Ha as [? Ha]).
    repeat (apply Forall_cons in Hb as [? Hb]).
    split.
    + intros Heq. unfold hashlib.hex_byte in Heq. cbn [concat map app] in Heq.
      injection Heq as ? ? ? ? ? ? ? ?.
      f_equal; [| f_equal; [| f_equal; [| f_equal]]];
        apply hex_byte_inj; try assumption; unfold hashlib.hex_byte; congruence.
    + intros Heq. injection Heq as -> -> -> ->. reflexivity.
  - intros Heq. unfold build.image_tag_from_dockerfile_and_source.
    rewrite Heq. reflexivity.
Qed.

Lemma image_tag_equal_iff_witness :
  exists e1 e2,
    (build.image_tag_from_dockerfile_and_source sample_project (py "RUN echo 55822")
     = build.image_tag_from_dockerfile_and_source sample_project (py "RUN echo 91069")
     <-> take 4 (hashlib.sha256 e1) = take 4 (hashlib.sha256 e2))
    /\ (image_source_string sample_project ++ py "RUN echo 55822"
        = image_source_string sample_project ++ py "RUN echo 91069" ->
        build.image_tag_from_dockerfile_and_source sample_project (py "RUN echo 55822")
        = build.image_tag_from_dockerfile_and_source sample_project (py "RUN echo 91069")).
Proof.
  eexists _, _.
  apply (image_tag_equal_iff sample_project sample_project
           (py "RUN echo 55822") (py "RUN echo 91069")).
  - vm_compute. reflexivity.
  - vm_compute. reflexivity.
Defined.

(** ** The docker user *)

Section DockerUser.
Variable host : Host.
Variable launch_project : LaunchProject.
Variable runner_type : str.

Abbreviation root_forced := (root_forced launch_project runner_type).

Lemma get_docker_user_root :
  root_forced ->
  build.get_docker_user host launch_project runner_type = (getuser host, 0).
Proof.
  intros [-> Himg]. unfold build.get_docker_user.
  rewrite bool_decide_eq_true_2 by reflexivity. rewrite Himg. reflexivity.
Qed.

Lemma get_docker_user_not_root :
  ~ root_forced ->
  build.get_docker_user host launch_project runner_type
  = (getuser host, build.int_or (docker_user_id launch_project) (geteuid host)).
Proof.
  intros Hnot. unfold build.get_docker_user.
  destruct (bool_decide (runner_type = py "sagemaker")) eqn:Hr; [| reflexivity].
  destruct (truthy_str (docker_image launch_project)) eqn:Himg; [reflexivity |].
  exfalso. apply Hnot. split; [| exact Himg].
  apply bool_decide_eq_true in Hr. exact Hr.
Qed.

Lemma get_docker_user_override (uid : Z) :
  ~ root_forced -> docker_user_id launch_project = Some uid -> uid <> 0 ->
  build.get_docker_user host launch_project runner_type = (getuser host, uid).
Proof.
  intros Hnot Huid Hnz. rewrite get_docker_user_not_root by assumption.
  rewrite Huid. simpl. destruct (Z.eqb_spec uid 0); [contradiction | reflexivity].
Qed.

Lemma get_docker_user_host_uid :
  ~ root_forced -> docker_user_id launch_project = None ->
  build.get_docker_user host launch_project runner_type = (getuser host, geteuid host).
Proof.
  intros Hnot Huid. rewrite get_docker_user_not_root by assumption.
  rewrite Huid. reflexivity.
Qed.
End DockerUser.

(** C2 fails where the descriptor's explicit uid override is 0: outside the
    root-mandating case the override is present, yet the resolved uid is the
    effective uid of the host process (1000 here), not the override. *)
Theorem get_docker_user_zero_override :
  docker_user_id (with_user_id (Some 0) sample_project) = Some 0
  /\ ~ root_forced (with_user_id (Some 0) sample_project) (py "local-container")
  /\ build.get_docker_user sample_host (with_user_id (Some 0) sample_project)
       (py "local-container")
     = (py "ada", 1000).
Proof.
  split; [reflexivity |]. split; [| reflexivity].
  intros [Hrunner _]. vm_compute in Hrunner. discriminate.
Qed.

(** ** The requirements section *)

Lemma parse_loop_ok (host : Host) (outcomes : list (Requirement + str))
    (include_only : gset str) :
  exists log,
    build.parse_loop host outcomes include_only
    = (log,
       Ok (list_to_set
             (map (fun pkg => shlex.quote (build.requirement_name host pkg))
                  (parsed_requirements outcomes))
           ∪ include_only)).
Proof.
  revert include_only.
  induction outcomes as [|[pkg|e] rest IH]; intros include_only; simpl.
  - eexists. unfold ret. rewrite union_empty_l_L. reflexivity.
  - destruct (IH ({[shlex.quote (build.requirement_name host pkg)]} ∪ include_only))
      as [log ->].
    eexists. f_equal. f_equal.
    rewrite union_assoc_L. f_equal. apply union_comm_L.
  - destruct (IH include_only) as [log ->]. simpl. eauto.
Qed.

Lemma parse_existing_requirements_ok (host : Host) (launch_project : LaunchProject)
    (dir : str) (outcomes : list (Requirement + str)) :
  project_dir launch_project = Some dir ->
  path_exists host (os_path.join dir (py "requirements.txt")) = true ->
  read_requirements host (os_path.join dir (py "requirements.txt")) = Ok outcomes ->
  exists log,
    build._parse_existing_requirements host launch_project
    = (log,
       Ok (py "WANDB_ONLY_INCLUDE="
           ++ str_join (py ",") (set_iter host (include_only_set host outcomes))
           ++ py " ")).
Proof.
  intros Hdir Hexists Hread. unfold build._parse_existing_requirements.
  rewrite Hdir, Hexists, Hread.
  destruct (parse_loop_ok host outcomes ∅) as [log Hloop].
  unfold lift. cbn [run_bind]. rewrite Hloop. cbn [run_bind ret].
  eexists. f_equal. f_equal.
  rewrite union_empty_r_L. reflexivity.
Qed.

Lemma docker_is_not_kaniko : bool_decide (py "kaniko" = py "docker") = false.
Proof. reflexivity. Qed.

(** The locals after the first [if]/[elif] when the cache mount is not
    available: [prefix] is the disabling flag and [buildx_installed] is false. *)
Ltac cache_disabled_cases H :=
  let Hb := fresh "Hbuilder" in
  destruct H as [Hb|[Hb H]]; rewrite Hb;
  [ rewrite docker_is_not_kaniko,
      (bool_decide_eq_true_2 (py "kaniko" = py "kaniko") eq_refl)
  | rewrite (bool_decide_eq_true_2 (py "docker" = py "docker") eq_refl), H ];
  cbn [negb run_bind ret emit app].

Section RequirementsSection.
Variable host : Host.
Variable launch_project : LaunchProject.
Variable builder_type : str.

Abbreviation section :=
  (build.get_requirements_section host launch_project builder_type).

(** The dependency-manager kind is neither pip nor conda: the else branch,
    for every builder type. *)
Lemma requirements_section_no_deps :
  deps_type launch_project <> Some (py "pip") ->
  deps_type launch_project <> Some (py "conda") ->
  exists log,
    section = (log ++ [Termwarn build.NO_REQUIREMENTS_WARNING],
               Ok (py "RUN mkdir -p env/")).
Proof.
  intros Hpip Hconda. unfold build.get_requirements_section.
  rewrite (bool_decide_eq_false_2 _ Hpip), (bool_decide_eq_false_2 _ Hconda).
  destruct (bool_decide (builder_type = py "docker"));
    [destruct (is_buildx_installed host) |
     destruct (bool_decide (builder_type = py "kaniko"))];
    cbn [negb run_bind ret emit app].
  - exists []. reflexivity.
  - exists [Termwarn build.BUILDX_WARNING]. reflexivity.
  - exists []. reflexivity.
  - exists []. reflexivity.
Qed.

(** A pip project without either manifest: [pip_install_line] (or, for an
    unknown builder type, already [buildx_installed]) is read unassigned. *)
Lemma requirements_section_pip_no_manifest :
  deps_type launch_project = Some (py "pip") ->
  build.project_has host launch_project (py "requirements.txt") = false ->
  build.project_has host launch_project (py "requirements.frozen.txt") = false ->
  exists log variable, section = (log, Raise (UnboundLocalError variable)).
Proof.
  intros Hpip Hreq Hfrozen. unfold build.get_requirements_section.
  rewrite (bool_decide_eq_true_2 _ Hpip), Hreq, Hfrozen.
  destruct (bool_decide (builder_type = py "docker"));
    [destruct (is_buildx_installed host) |
     destruct (bool_decide (builder_type = py "kaniko"))];
    cbn [negb run_bind ret emit app lift read_local]; eauto.
Qed.
End RequirementsSection.

(** C4 fails on the code.  A pip project whose source tree holds neither
    manifest gets no requirements section at all: the composition stops with
    [UnboundLocalError] for [pip_install_line], with the docker builder and
    with the kaniko builder.  The placeholder directory and the warning are
    what the sibling branch produces, for a project whose dependency-manager
    kind is none. *)
Theorem requirements_section_pip_without_manifest :
  build.get_requirements_section (host_with true [] []) sample_project (py "docker")
  = ([], Raise (UnboundLocalError (py "pip_install_line")))
  /\ build.get_requirements_section (host_with true [] []) sample_project (py "kaniko")
     = ([], Raise (UnboundLocalError (py "pip_install_line")))
  /\ build.get_requirements_section (host_with true [] [])
       (with_deps_type None sample_project) (py "docker")
     = ([Termwarn build.NO_REQUIREMENTS_WARNING], Ok (py "RUN mkdir -p env/")).
Proof. repeat split; vm_compute; reflexivity. Qed.

(** C5.  When the cache mount is not available (the builder is kaniko, or it
    is docker and the buildx probe reports it absent), the prefix of the
    install command is the cache-disabling flag, for conda and for pip: the
    conda section is the conda template under that prefix; a pip section,
    whenever one is generated, is the pip template under that prefix; and the
    flag is not a mount directive. *)
Theorem cache_mount_gating
    (host : Host) (launch_project : LaunchProject) (builder_type : str) :
  builder_type = py "kaniko"
  \/ (builder_type = py "docker" /\ is_buildx_installed host = false) ->
  let section := build.get_requirements_section host launch_project builder_type in
  let has_plain := build.project_has host launch_project (py "requirements.txt") in
  let has_frozen := build.project_has host launch_project (py "requirements.frozen.txt") in
  (deps_type launch_project = Some (py "conda") ->
   exists log, section = (log, Ok (build.CONDA_TEMPLATE build.CACHE_DISABLED)))
  /\ (deps_type launch_project = Some (py "pip") ->
      (forall log text, section = (log, Ok text) ->
         exists pip_install,
           text = build.PIP_TEMPLATE build.CACHE_DISABLED
                    (str_join (py " ")
                       ((if has_plain then [py "src/requirements.txt"] else [])
                        ++ (if has_frozen
                            then [py "src/requirements.frozen.txt";
                                  py "_wandb_bootstrap.py"]
                            else [])))
                    pip_install)
      /\ (has_plain = true -> has_frozen = false ->
          exists log,
            section = (log, Ok (build.PIP_TEMPLATE build.CACHE_DISABLED
                                  (py "src/requirements.txt")
                                  (py "pip install -r requirements.txt")))))
  /\ build.CACHE_DISABLED <> build.PIP_CACHE_MOUNT
  /\ build.CACHE_DISABLED <> build.CONDA_CACHE_MOUNT
  /\ ~ (py "RUN --mount" `prefix_of` build.CACHE_DISABLED).
Proof.
  intros Hgate section has_plain has_frozen.
  split; [| split; [| repeat split; vm_compute; try discriminate;
                       intros [k Hk]; discriminate]].
  - intros Hconda. subst section. unfold build.get_requirements_section.
    rewrite Hconda.
    change (bool_decide (Some (py "conda") = Some (py "pip"))) with false.
    rewrite (bool_decide_eq_true_2 (Some (py "conda") = Some (py "conda")) eq_refl).
    cache_disabled_cases Hgate; cbn [lift read_local run_bind ret app]; eauto.
  - intros Hpip. subst section has_plain has_frozen.
    unfold build.get_requirements_section.
    rewrite (bool_decide_eq_true_2 _ Hpip).
    destruct (build.project_has host launch_project (py "requirements.txt"));
      destruct (build.project_has host launch_project (py "requirements.frozen.txt"));
      try destruct (build._parse_existing_requirements host launch_project)
        as [plog [include|e]];
      (split; [intros log text | intros Hp Hf; try discriminate]);
      cache_disabled_cases Hgate;
      cbn [lift read_local run_bind ret app];
      try (intros [= <- <-]); try (intros [= <-]); try discriminate;
      eauto.
Qed.

Lemma cache_mount_gating_witness :
  (exists log,
     build.get_requirements_section (host_with false [] [])
       (with_deps_type (Some (py "conda")) sample_project) (py "docker")
     = (log, Ok (build.CONDA_TEMPLATE build.CACHE_DISABLED)))
  /\ (exists log,
        build.get_requirements_section
          (host_with true [py "/tmp/project/requirements.txt"] sample_requirements)
          sample_project (py "kaniko")
        = (log, Ok (build.PIP_TEMPLATE build.CACHE_DISABLED
                      (py "src/requirements.txt")
                      (py "pip install -r requirements.txt")))).
Proof.
  split.
  - apply (cache_mount_gating (host_with false [] [])
             (with_deps_type (Some (py "conda")) sample_project) (py "docker")).
    + right. split; reflexivity.
    + reflexivity.
  - apply (cache_mount_gating
             (host_with true [py "/tmp/project/requirements.txt"] sample_requirements)
             sample_project (py "kaniko")).
    + left. reflexivity.
    + reflexivity.
    + reflexivity.
    + reflexivity.
Defined.

Lemma elem_of_include_only_set (host : Host)
    (outcomes : list (Requirement + str)) (x : str) :
  x ∈ include_only_set host outcomes
  <-> exists pkg,
        inl pkg ∈ outcomes
        /\ x = shlex.quote match req_name pkg with
                           | Some n => str_lower host n
                           | None => req_str pkg
                           end.
Proof.
  unfold include_only_set, parsed_requirements.
  rewrite elem_of_list_to_set, list_elem_of_In, in_map_iff.
  split.
  - intros (pkg & <- & Hin). exists pkg. split; [| reflexivity].
    apply list_elem_of_In, list_elem_of_omap in Hin as ([p|e] & Hin & Heq);
      [| discriminate].
    injection Heq as ->. exact Hin.
  - intros (pkg & Hin & ->). exists pkg. split; [reflexivity |].
    apply list_elem_of_In, list_elem_of_omap. exists (inl pkg). split; [exact Hin | reflexivity].
Qed.

(** C3.  A pip project whose source tree holds both [requirements.txt] and
    [requirements.frozen.txt], built with the docker or the kaniko builder:
    the section copies both manifests and the bootstrap script, its install
    command runs the bootstrap script, and the include-only filter put before
    that command is the comma-joined set of the lowercase, shell-escaped names
    of the packages parsed from [requirements.txt], each name once. *)
Theorem requirements_section_frozen_precedence
    (host : Host) (launch_project : LaunchProject) (builder_type dir : str)
    (outcomes : list (Requirement + str)) :
  deps_type launch_project = Some (py "pip") ->
  project_dir launch_project = Some dir ->
  path_exists host (os_path.join dir (py "requirements.txt")) = true ->
  path_exists host (os_path.join dir (py "requirements.frozen.txt")) = true ->
  read_requirements host (os_path.join dir (py "requirements.txt")) = Ok outcomes ->
  builder_type = py "docker" \/ builder_type = py "kaniko" ->
  set_iter host (include_only_set host outcomes)
    ≡ₚ elements (include_only_set host outcomes) ->
  exists log prefix names,
    build.get_requirements_section host launch_project builder_type
    = (log,
       Ok (build.PIP_TEMPLATE prefix
             (py "src/requirements.txt src/requirements.frozen.txt _wandb_bootstrap.py")
             (py "WANDB_ONLY_INCLUDE=" ++ str_join (py ",") names
              ++ py " python _wandb_bootstrap.py")))
    /\ (prefix = build.CACHE_DISABLED \/ prefix = build.PIP_CACHE_MOUNT)
    /\ NoDup names
    /\ forall x, x ∈ names
         <-> exists pkg,
               inl pkg ∈ outcomes
               /\ x = shlex.quote match req_name pkg with
                                  | Some n => str_lower host n
                                  | None => req_str pkg
                                  end.
Proof.
  intros Hpip Hdir Hplain Hfrozen Hread Hbuilder Hiter.
  destruct (parse_existing_requirements_ok host launch_project dir outcomes
              Hdir Hplain Hread) as [plog Hparse].
  assert (Hsection : exists log prefix,
    build.get_requirements_section host launch_project builder_type
    = (log,
       Ok (build.PIP_TEMPLATE prefix
             (py "src/requirements.txt src/requirements.frozen.txt _wandb_bootstrap.py")
             ((py "WANDB_ONLY_INCLUDE="
               ++ str_join (py ",") (set_iter host (include_only_set host outcomes))
               ++ py " ") ++ py "python _wandb_bootstrap.py")))
    /\ (prefix = build.CACHE_DISABLED \/ prefix = build.PIP_CACHE_MOUNT)).
  { unfold build.get_requirements_section, build.project_has.
    rewrite (bool_decide_eq_true_2 _ Hpip), Hdir, Hplain, Hfrozen, Hparse.
    destruct Hbuilder as [-> | ->].
    - rewrite bool_decide_eq_true_2 by reflexivity.
      destruct (is_buildx_installed host);
        cbn [negb run_bind ret emit app lift read_local]; eauto 6.
    - rewrite docker_is_not_kaniko, bool_decide_eq_true_2 by reflexivity.
      cbn [negb run_bind ret emit app lift read_local]. eauto 6. }
  destruct Hsection as (log & prefix & Hsection & Hprefix).
  exists log, prefix, (set_iter host (include_only_set host outcomes)).
  split; [| split; [exact Hprefix | split]].
  - rewrite Hsection. do 3 f_equal. rewrite <- !app_assoc. reflexivity.
  - rewrite Hiter. apply NoDup_elements.
  - intros x. rewrite Hiter, elem_of_elements. apply elem_of_include_only_set.
Qed.

Lemma requirements_section_frozen_precedence_witness :
  exists log prefix names,
    build.get_requirements_section
      (host_with true [py "/tmp/project/requirements.txt";
                       py "/tmp/project/requirements.frozen.txt"]
         sample_requirements)
      sample_project (py "docker")
    = (log,
       Ok (build.PIP_TEMPLATE prefix
             (py "src/requirements.txt src/requirements.frozen.txt _wandb_bootstrap.py")
             (py "WANDB_ONLY_INCLUDE=" ++ str_join (py ",") names
              ++ py " python _wandb_bootstrap.py")))
    /\ (prefix = build.CACHE_DISABLED \/ prefix = build.PIP_CACHE_MOUNT)
    /\ NoDup names
    /\ forall x, x ∈ names
         <-> exists pkg,
               inl pkg ∈ sample_requirements
               /\ x = shlex.quote match req_name pkg with
                                  | Some n =>
                                      str_lower
                                        (host_with true
                                           [py "/tmp/project/requirements.txt";
                                            py "/tmp/project/requirements.frozen.txt"]
                                           sample_requirements) n
                                  | None => req_str pkg
                                  end.
Proof.
  apply (requirements_section_frozen_precedence
           (host_with true [py "/tmp/project/requirements.txt";
                            py "/tmp/project/requirements.frozen.txt"]
              sample_requirements)
           sample_project (py "docker") (py "/tmp/project") sample_requirements).
  - reflexivity.
  - reflexivity.
  - reflexivity.
  - reflexivity.
  - reflexivity.
  - left. reflexivity.
  - reflexivity.
Defined.

(** ** The dispatcher *)

Section Dispatcher.
Context {Environment Registry : Type}.
Variable launch : Launch Environment Registry.
Variable launch_project : LaunchProject.
Variable launch_config : option (gmap str pyval).
Hypothesis uri_set : truthy_str (uri launch_project) = true.

Abbreviation env_config := (build.config_section launch_config (py "environment")).
Abbreviation registry_config := (build.config_section launch_config (py "registry")).
Abbreviation builder_config := (build.config_section launch_config (py "builder")).
Abbreviation outcome :=
  (build.build_image_from_project launch launch_project launch_config).

Lemma invalid_environment_config :
  as_dict env_config = None ->
  outcome
  = ([], Raise (LaunchError
                  (invalid_config_message "environment"
                     (format_value launch env_config) (type_name env_config)))).
Proof.
  intros Henv. unfold build.build_image_from_project.
  destruct (uri launch_project) as [[|c u]|]; try discriminate.
  cbn [run_bind ret app]. rewrite Henv.
  unfold lift, invalid_config_message. repeat f_equal.
Qed.

Lemma invalid_registry_config env_dict log environment :
  as_dict env_config = Some env_dict ->
  environment_from_config launch env_dict = (log, Ok environment) ->
  as_dict registry_config = None ->
  outcome
  = (log, Raise (LaunchError
                   (invalid_config_message "registry"
                      (format_value launch registry_config)
                      (type_name registry_config)))).
Proof.
  intros Henv Hload Hreg. unfold build.build_image_from_project.
  destruct (uri launch_project) as [[|c u]|]; try discriminate.
  cbn [run_bind ret app]. rewrite Henv, Hload.
  cbn [run_bind]. rewrite Hreg.
  unfold lift, invalid_config_message. rewrite app_nil_r. repeat f_equal.
Qed.

Lemma invalid_builder_config env_dict log environment registry_dict log' registry :
  as_dict env_config = Some env_dict ->
  environment_from_config launch env_dict = (log, Ok environment) ->
  as_dict registry_config = Some registry_dict ->
  registry_from_config launch registry_dict environment = (log', Ok registry) ->
  as_dict builder_config = None ->
  outcome
  = (log ++ log',
     Raise (LaunchError
              (invalid_config_message "builder"
                 (format_value launch builder_config)
                 (type_name builder_config)))).
Proof.
  intros Henv Hload Hreg Hload' Hbuilder.
  unfold build.build_image_from_project.
  destruct (uri launch_project) as [[|c u]|]; try discriminate.
  cbn [run_bind ret app]. rewrite Henv, Hload.
  cbn [run_bind]. rewrite Hreg, Hload'.
  cbn [run_bind]. rewrite Hbuilder.
  unfold lift, invalid_config_message. rewrite app_nil_r. repeat f_equal.
Qed.

(** Whichever section is not a mapping, no image reference comes back. *)
Lemma invalid_config_fails :
  as_dict env_config = None \/ as_dict registry_config = None
  \/ as_dict builder_config = None ->
  exists log e, outcome = (log, Raise e).
Proof.
  intros Hbad. unfold build.build_image_from_project.
  destruct (uri launch_project) as [[|c u]|]; try discriminate.
  cbn [run_bind ret app].
  destruct (as_dict env_config) as [env_dict|]; [| unfold lift; eauto].
  destruct (environment_from_config launch env_dict) as [log [environment|e]];
    cbn [run_bind]; [| eauto].
  destruct (as_dict registry_config) as [registry_dict|];
    [| unfold lift; eauto].
  destruct (registry_from_config launch registry_dict environment)
    as [log' [registry|e]]; cbn [run_bind]; [| eauto].
  destruct (as_dict builder_config) as [builder_dict|];
    [| unfold lift; eauto].
  destruct Hbad as [H|[H|H]]; discriminate.
Qed.

(** C7, amended.  With the URI set, a section of the launch configuration
    that is not a mapping makes the build fail with a [LaunchError] whose
    message shows the value received and the name of its type, once the
    sections before it have been resolved.  The sections are checked in
    turn, not independently: the environment first, the registry once the
    environment is loaded, the builder once the registry is loaded.  In
    every case the build fails. *)
Theorem config_sections_validated :
  (as_dict env_config = None ->
   outcome
   = ([], Raise (LaunchError
                   (invalid_config_message "environment"
                      (format_value launch env_config) (type_name env_config)))))
  /\ (forall env_dict log environment,
        as_dict env_config = Some env_dict ->
        environment_from_config launch env_dict = (log, Ok environment) ->
        as_dict registry_config = None ->
        outcome
        = (log, Raise (LaunchError
                         (invalid_config_message "registry"
                            (format_value launch registry_config)
                            (type_name registry_config)))))
  /\ (forall env_dict log environment registry_dict log' registry,
        as_dict env_config = Some env_dict ->
        environment_from_config launch env_dict = (log, Ok environment) ->
        as_dict registry_config = Some registry_dict ->
        registry_from_config launch registry_dict environment = (log', Ok registry) ->
        as_dict builder_config = None ->
        outcome
        = (log ++ log',
           Raise (LaunchError
                    (invalid_config_message "builder"
                       (format_value launch builder_config)
                       (type_name builder_config)))))
  /\ (as_dict env_config = None \/ as_dict registry_config = None
      \/ as_dict builder_config = None ->
      exists log e, outcome = (log, Raise e)).
Proof.
  split; [exact invalid_environment_config |].
  split; [exact invalid_registry_config |].
  split; [exact invalid_builder_config | exact invalid_config_fails].
Qed.
End Dispatcher.

Lemma config_sections_validated_witness :
  build.build_image_from_project (sample_launch None) sample_project sample_config
  = ([], Raise (LaunchError
                  (invalid_config_message "registry"
                     (py "gcr.io/project/repo") (py "str")))).
Proof.
  apply (proj1 (proj2 (config_sections_validated
                         (sample_launch None) sample_project sample_config eq_refl))
           (<[py "type" := PStr (py "gcp")]> ∅) [] tt).
  - vm_compute. reflexivity.
  - reflexivity.
  - vm_compute. reflexivity.
Defined.

(** C7, as stated, fails: the sections are not validated independently.
    Here the registry section is a string, and the environment section is a
    mapping that the environment loader rejects.  The build stops with the
    exception of the loader; the check of the registry section is not
    reached, and no error names the registry value or its type.  And for a
    project without URI the assertion fails before any section is looked
    at. *)
Lemma config_sections_not_independent :
  as_dict (build.config_section sample_config (py "registry")) = None
  /\ build.build_image_from_project (sample_launch None)
       (with_uri None sample_project) sample_config
     = ([], Raise (AssertionError
                     (py "To build an image on queue a URI must be set.")))
  /\ build.build_image_from_project
       (sample_launch_without_environment
          (ExternalError (py "DefaultCredentialsError: no credentials found")))
       sample_project sample_config
     = ([], Raise (ExternalError (py "DefaultCredentialsError: no credentials found")))
  /\ snd (build.build_image_from_project
            (sample_launch_without_environment
               (ExternalError (py "DefaultCredentialsError: no credentials found")))
            sample_project sample_config)
     <> Raise (LaunchError
                 (invalid_config_message "registry"
                    (py "gcr.io/project/repo") (py "str"))).
Proof.
  split; [vm_compute; reflexivity |].
  split; [vm_compute; reflexivity |].
  split; [vm_compute; reflexivity | vm_compute; discriminate].
Qed.

Example invalid_registry_message :
  invalid_config_message "registry" (py "gcr.io/project/repo") (py "str")
  = py "Invalid registry config: gcr.io/project/repo of type str loaded from launch config. Expected dict.".
Proof. reflexivity. Qed.

Section BuilderCall.
Context {Environment Registry : Type}.
Variable launch : Launch Environment Registry.
Variable launch_project : LaunchProject.
Variable launch_config : option (gmap str pyval).

Abbreviation built :=
  (build.build_image_from_project launch launch_project launch_config).

(** The configuration is well formed and the three loaders return. *)
Variables (env_dict registry_dict builder_dict : gmap str pyval).
Variables (environment : Environment) (registry : Registry).
Variables (resolved : option Builder) (log_e log_r log_b : list event).
Hypothesis uri_set : truthy_str (uri launch_project) = true.
Hypothesis env_ok :
  as_dict (build.config_section launch_config (py "environment")) = Some env_dict.
Hypothesis registry_ok :
  as_dict (build.config_section launch_config (py "registry")) = Some registry_dict.
Hypothesis builder_ok :
  as_dict (build.config_section launch_config (py "builder")) = Some builder_dict.
Hypothesis env_loaded :
  environment_from_config launch env_dict = (log_e, Ok environment).
Hypothesis registry_loaded :
  registry_from_config launch registry_dict environment = (log_r, Ok registry).
Hypothesis builder_loaded :
  builder_from_config launch builder_dict environment registry
  = (log_b, Ok resolved).

Ltac after_loaders :=
  unfold build.build_image_from_project;
  destruct (uri launch_project) as [[|? ?]|]; try discriminate;
  cbn [run_bind ret app];
  rewrite env_ok, env_loaded; cbn [run_bind];
  rewrite registry_ok, registry_loaded; cbn [run_bind];
  rewrite builder_ok, builder_loaded; cbn [run_bind].

Lemma build_without_builder :
  resolved = None ->
  built = (log_e ++ log_r ++ log_b,
           Raise (LaunchError (py "Unable to build image. No builder found."))).
Proof.
  intros ->. after_loaders. unfold lift. rewrite app_nil_r. reflexivity.
Qed.

Lemma build_with_builder builder fetched log_f entry_point image_uri log_i :
  resolved = Some builder ->
  fetch_and_validate_project launch launch_project = (log_f, Ok fetched) ->
  dispatched_entry_point launch fetched = Some entry_point ->
  build_image builder fetched entry_point = (log_i, Ok image_uri) ->
  built
  = (log_e ++ log_r ++ log_b ++ log_f
     ++ [Termlog (LOG_PREFIX launch ++ py "Building docker image from uri source")]
     ++ log_i,
     match image_uri with
     | Some (c :: rest) => Ok (c :: rest)
     | _ => Raise (LaunchError (py "Error building image uri"))
     end).
Proof.
  intros -> Hfetch Hentry Hbuild. after_loaders.
  rewrite Hfetch. cbn [run_bind].
  unfold dispatched_entry_point in Hentry.
  destruct (get_single_entry_point launch fetched) as [ep|].
  - injection Hentry as ->. cbn [run_bind ret emit app]. rewrite Hbuild.
    destruct image_uri as [[|c rest]|]; cbn [run_bind ret lift app];
      rewrite ?app_nil_r; reflexivity.
  - destruct (last (EntrypointDefaults_PYTHON launch)) as [script|];
      [| discriminate].
    injection Hentry as <-. cbn [run_bind ret emit app]. rewrite Hbuild.
    destruct image_uri as [[|c rest]|]; cbn [run_bind ret lift app];
      rewrite ?app_nil_r; reflexivity.
Qed.

Lemma build_returns_inv log image_uri :
  built = (log, Ok image_uri) ->
  exists builder fetched entry_point log_f log_i,
    resolved = Some builder
    /\ fetch_and_validate_project launch launch_project = (log_f, Ok fetched)
    /\ dispatched_entry_point launch fetched = Some entry_point
    /\ build_image builder fetched entry_point = (log_i, Ok (Some image_uri))
    /\ image_uri <> [].
Proof.
  after_loaders.
  destruct resolved as [builder|]; [| discriminate].
  destruct (fetch_and_validate_project launch launch_project)
    as [log_f [fetched|e]] eqn:Hfetch; cbn [run_bind]; [| discriminate].
  assert (Hentry : forall entry_point,
    dispatched_entry_point launch fetched = Some entry_point ->
    (let (log', r) :=
       emit (Termlog (LOG_PREFIX launch ++ py "Building docker image from uri source")) ;;
       let! uri := build_image builder fetched entry_point in
       match uri with
       | Some (c :: rest) => ret (c :: rest)
       | _ => lift (Raise (LaunchError (py "Error building image uri")))
       end in
     (log_e ++ log_r ++ log_b ++ log_f ++ log', r)) = (log, Ok image_uri) ->
    exists builder0 fetched0 entry_point0 log_f0 log_i,
      Some builder = Some builder0
      /\ (log_f, Ok fetched) = (log_f0, Ok fetched0)
      /\ dispatched_entry_point launch fetched0 = Some entry_point0
      /\ build_image builder0 fetched0 entry_point0 = (log_i, Ok (Some image_uri))
      /\ image_uri <> []).
  { intros entry_point Hd. cbn [run_bind emit].
    destruct (build_image builder fetched entry_point)
      as [log_i [[[|c rest]|]|e]] eqn:Hbuild;
      cbn [run_bind ret lift app]; try discriminate.
    intros [= _ <-].
    exists builder, fetched, entry_point, log_f, log_i.
    repeat split; try assumption. discriminate. }
  destruct (get_single_entry_point launch fetched) as [ep|] eqn:Hsingle.
  - cbn [run_bind ret app]. intros H. apply (Hentry ep).
    { unfold dispatched_entry_point. rewrite Hsingle. reflexivity. }
    rewrite <- H. cbn [run_bind ret emit app].
    destruct (build_image builder fetched ep) as [log_i [[[|c rest]|]|e]];
      cbn [run_bind ret lift app]; rewrite <- ?app_assoc; reflexivity.
  - destruct (last (EntrypointDefaults_PYTHON launch)) as [script|] eqn:Hlast;
      cbn [run_bind ret lift app]; [| discriminate].
    intros H.
    apply (Hentry {| name := script; command := EntrypointDefaults_PYTHON launch |}).
    { unfold dispatched_entry_point. rewrite Hsingle, Hlast. reflexivity. }
    rewrite <- H. cbn [run_bind ret emit app].
    match goal with
    | |- context [build_image builder fetched ?ep] =>
        destruct (build_image builder fetched ep) as [log_i [[[|c rest]|]|e]]
    end;
      cbn [run_bind ret lift app]; rewrite <- ?app_assoc; reflexivity.
Qed.

(** C8.  Once the configuration is well formed and the loaders have
    returned: without a builder the build fails with the configuration
    error; with a builder whose [build_image] returns, the build returns the
    builder's reference unchanged when there is one (a non-empty string),
    and fails with the build-failure error when there is none; and whenever
    the build returns a reference, a builder was resolved and its
    [build_image] returned that very reference. *)
Theorem build_returns_builder_reference :
  (resolved = None ->
   built = (log_e ++ log_r ++ log_b,
            Raise (LaunchError (py "Unable to build image. No builder found."))))
  /\ (forall builder fetched log_f entry_point image_uri log_i,
        resolved = Some builder ->
        fetch_and_validate_project launch launch_project = (log_f, Ok fetched) ->
        dispatched_entry_point launch fetched = Some entry_point ->
        build_image builder fetched entry_point = (log_i, Ok image_uri) ->
        built
        = (log_e ++ log_r ++ log_b ++ log_f
           ++ [Termlog (LOG_PREFIX launch
                        ++ py "Building docker image from uri source")]
           ++ log_i,
           match image_uri with
           | Some (c :: rest) => Ok (c :: rest)
           | _ => Raise (LaunchError (py "Error building image uri"))
           end))
  /\ (forall log image_uri,
        built = (log, Ok image_uri) ->
        exists builder fetched entry_point log_f log_i,
          resolved = Some builder
          /\ fetch_and_validate_project launch launch_project = (log_f, Ok fetched)
          /\ dispatched_entry_point launch fetched = Some entry_point
          /\ build_image builder fetched entry_point = (log_i, Ok (Some image_uri))
          /\ image_uri <> []).
Proof.
  split; [exact build_without_builder |].
  split; [exact build_with_builder | exact build_returns_inv].
Qed.
End BuilderCall.

Lemma build_returns_builder_reference_witness :
  build.build_image_from_project
    (sample_launch (Some (sample_builder (Some (py "registry/image:d4dae9bd")))))
    sample_project sample_config_ok
  = ([Termlog (py "launch: Building docker image from uri source")],
     Ok (py "registry/image:d4dae9bd")).
Proof.
  apply (proj1 (proj2 (build_returns_builder_reference
           (sample_launch (Some (sample_builder (Some (py "registry/image:d4dae9bd")))))
           sample_project sample_config_ok
           ∅ ∅ (<[py "type" := PStr (py "docker")]> ∅) tt tt
           (Some (sample_builder (Some (py "registry/image:d4dae9bd"))))
           [] [] [] eq_refl eq_refl eq_refl eq_refl eq_refl eq_refl eq_refl))
         (sample_builder (Some (py "registry/image:d4dae9bd"))) sample_project []
         {| name := py "main.py"; command := [py "python"; py "main.py"] |}
         (Some (py "registry/image:d4dae9bd")) []
         eq_refl eq_refl eq_refl eq_refl).
Defined.

Example build_without_reference :
  build.build_image_from_project (sample_launch (Some (sample_builder (Some []))))
    sample_project sample_config_ok
  = ([Termlog (py "launch: Building docker image from uri source")],
     Raise (LaunchError (py "Error building image uri"))).
Proof. vm_compute. reflexivity. Qed.

(** ** The build context *)

Lemma dir_lookup_copy_entries (copy : node -> node) (ignore : str -> bool)
    (entry_name : str) (entries : list (str * node)) :
  dir_lookup entry_name (shutil.copy_entries copy ignore entries)
  = if ignore entry_name then None else copy <$> dir_lookup entry_name entries.
Proof.
  induction entries as [|[n child] rest IH]; simpl.
  - destruct (ignore entry_name); reflexivity.
  - destruct (ignore n) eqn:Hn; simpl.
    + rewrite IH. case_bool_decide as Heq; [| reflexivity].
      subst n. rewrite Hn. reflexivity.
    + case_bool_decide as Heq; [| exact IH].
      subst n. rewrite Hn. reflexivity.
Qed.








Lemma stage_root_entries (directory dockerfile bootstrap : str)
    (copied src : list (str * node)) :
  write_text directory build._GENERATED_DOCKERFILE_NAME dockerfile
    (dir_replace (py "src") (Dir src)
       [(py "src", Dir copied); (py "_wandb_bootstrap.py", File bootstrap)])
  = Ok [(py "src", Dir src); (py "_wandb_bootstrap.py", File bootstrap);
        (py "Dockerfile.wandb-autogenerated", File dockerfile)].
Proof. reflexivity. Qed.




Example build_context_sample :
  build._create_docker_build_ctx
    (host_with_tree (py "/tmp/project") sample_tree)
    (with_python_version (Some (py "3.9.7")) sample_project)
    (py "FROM python:3.9")
  = Ok (py "/tmp/tmpq2f7",
        Dir [(py "src",
              Dir [(py "train.py", File (py "print(1)"));
                   (py ".git", Dir [(py "HEAD", File (py "ref: refs/heads/main"))]);
                   (py "data", Symlink (py "/mnt/data"));
                   (py "runtime.txt", File (py "python-3.9.7"))]);
             (py "_wandb_bootstrap.py", File (py "import subprocess"));
             (py "Dockerfile.wandb-autogenerated", File (py "FROM python:3.9"))]).
Proof. vm_compute. reflexivity. Qed.

(* ===================================================================== *)
(** * Part III: further properties of the code *)
(* ===================================================================== *)

(** ** [str.split] and [str.join] *)

Lemma str_split_from_current (sep : Z) (current s : str) :
  str_split_from sep current s
  = (current ++ default [] (head (str_split sep s))) :: tail (str_split sep s).
Proof.
  unfold str_split. revert current.
  induction s as [|c s IH]; intros current; simpl.
  - rewrite app_nil_r. reflexivity.
  - destruct (c =? sep).
    + simpl. rewrite app_nil_r. reflexivity.
    + rewrite IH, (IH [c]). simpl. rewrite <- app_assoc. reflexivity.
Qed.

Lemma str_split_cons (sep c : Z) (s : str) :
  str_split sep (c :: s)
  = if c =? sep then [] :: str_split sep s
    else (c :: default [] (head (str_split sep s))) :: tail (str_split sep s).
Proof.
  unfold str_split at 1. simpl. destruct (c =? sep); [reflexivity |].
  rewrite str_split_from_current. reflexivity.
Qed.

Lemma str_split_nonempty (sep : Z) (s : str) : str_split sep s <> [].
Proof.
  destruct s as [|c s]; [discriminate |].
  rewrite str_split_cons. destruct (c =? sep); discriminate.
Qed.

(** Joining the parts with the separator gives the string back. *)
Lemma str_join_split (sep : Z) (s : str) :
  str_join [sep] (str_split sep s) = s.
Proof.
  induction s as [|c s IH]; [reflexivity |].
  rewrite str_split_cons.
  pose proof (str_split_nonempty sep s) as Hne.
  destruct (str_split sep s) as [|p ps] eqn:Hs; [contradiction |].
  destruct (Z.eqb_spec c sep) as [->|Hc].
  - change (str_join [sep] ([] :: p :: ps)) with ([sep] ++ str_join [sep] (p :: ps)).
    rewrite IH. reflexivity.
  - simpl in *. destruct ps; simpl in *; rewrite <- IH; reflexivity.
Qed.

(** No part holds the separator. *)
Lemma str_split_parts (sep : Z) (s : str) :
  Forall (fun part => sep ∉ part) (str_split sep s).
Proof.
  induction s as [|c s IH].
  - repeat constructor. apply not_elem_of_nil.
  - rewrite str_split_cons.
    pose proof (str_split_nonempty sep s) as Hne.
    destruct (str_split sep s) as [|p ps]; [contradiction |].
    apply Forall_cons in IH as [Hp Hps].
    destruct (Z.eqb_spec c sep) as [->|Hc]; simpl.
    + repeat constructor; [apply not_elem_of_nil | assumption | assumption].
    + constructor; [| assumption].
      apply not_elem_of_cons. split; [congruence | assumption].
Qed.

(** Splitting what was joined from parts without the separator gives the
    parts back. *)
Lemma str_split_join (sep : Z) (parts : list str) :
  parts <> [] -> Forall (fun part => sep ∉ part) parts ->
  str_split sep (str_join [sep] parts) = parts.
Proof.
  induction parts as [|p ps IH]; [congruence |]. intros _ Hall.
  apply Forall_cons in Hall as [Hp Hps].
  assert (Hstep : forall rest, str_split sep (p ++ rest)
            = (p ++ default [] (head (str_split sep rest))) :: tail (str_split sep rest)).
  { intros rest. clear IH Hps. induction p as [|c p IHp]; simpl.
    - pose proof (str_split_nonempty sep rest).
      destruct (str_split sep rest); [contradiction | reflexivity].
    - apply not_elem_of_cons in Hp as [Hc Hp].
      rewrite str_split_cons. destruct (Z.eqb_spec c sep); [congruence |].
      rewrite (IHp Hp). reflexivity. }
  destruct ps as [|q qs].
  - simpl. rewrite <- (app_nil_r p) at 1. rewrite Hstep. simpl.
    rewrite app_nil_r. reflexivity.
  - change (str_join [sep] (p :: q :: qs)) with (p ++ sep :: str_join [sep] (q :: qs)).
    rewrite Hstep, str_split_cons, Z.eqb_refl. cbn [head tail default].
    rewrite IH by (discriminate || assumption). rewrite app_nil_r. reflexivity.
Qed.

(** ** [path_fallbacks] *)

Lemma os_path_join_rootless (tail : str) : os_path.join [] tail = tail.
Proof. destruct tail as [|c tail]; simpl; [| destruct (c =? os_path.slash)]; reflexivity. Qed.

Lemma hyphen_is_harmless : 45 ∉ filesystem.PROBLEMATIC_PATH_CHARS.
Proof. intros H. apply list_elem_of_In in H. vm_compute in H. intuition discriminate. Qed.

Lemma problematic_count : length filesystem.PROBLEMATIC_PATH_CHARS = 39%nat.
Proof. reflexivity. Qed.

Lemma tamed_refl (s : str) : Forall2 tamed s s.
Proof. induction s; constructor; [left; reflexivity | assumption]. Qed.

Lemma tamed_trans (a b c : str) :
  Forall2 tamed a b -> Forall2 tamed b c -> Forall2 tamed a c.
Proof.
  intros Hab. revert c. induction Hab as [|x y a b Hxy _ IH]; intros c Hbc.
  - inversion Hbc. constructor.
  - inversion Hbc as [|y' z b' c' Hyz Hbc']; subst. constructor; [| apply IH, Hbc'].
    destruct Hxy as [->|[Hx ->]]; [exact Hyz |].
    destruct Hyz as [->|[Hy _]]; [right; auto |].
    exfalso. apply hyphen_is_harmless, Hy.
Qed.

Lemma replace_tamed (char : Z) (s : str) :
  char ∈ filesystem.PROBLEMATIC_PATH_CHARS ->
  Forall2 tamed s (shlex.replace_char char (py "-") s).
Proof.
  intros Hchar. unfold shlex.replace_char.
  induction s as [|c s IH]; simpl; [constructor |].
  destruct (Z.eqb_spec c char) as [->|Hne]; simpl; constructor; try assumption.
  - right. split; [assumption | reflexivity].
  - left. reflexivity.
Qed.

Lemma replace_removes (char : Z) (s : str) :
  char <> 45 -> char ∉ shlex.replace_char char (py "-") s.
Proof.
  intros Hne. unfold shlex.replace_char.
  induction s as [|c s IH]; simpl; [apply not_elem_of_nil |].
  destruct (Z.eqb_spec c char) as [->|Hc]; simpl;
    apply not_elem_of_cons; split; congruence || assumption.
Qed.

Lemma tamed_absent (c : Z) (a b : str) :
  Forall2 tamed a b -> c <> 45 -> c ∉ a -> c ∉ b.
Proof.
  intros Hab Hc. induction Hab as [|x y a b Hxy _ IH]; intros Hnot; [assumption |].
  apply not_elem_of_cons in Hnot as [Hx Ha].
  apply not_elem_of_cons. split; [| apply IH, Ha].
  destruct Hxy as [->|[_ ->]]; congruence.
Qed.

(** What the loop yields: every path is a taming of [tail], and the last one
    (or [tail] itself when nothing is yielded) holds none of [chars]. *)
Lemma fallback_loop_spec (chars tail : str) :
  Forall (fun c => c ∈ filesystem.PROBLEMATIC_PATH_CHARS) chars ->
  let yielded := filesystem.fallback_loop [] chars tail in
  let final := default tail (last yielded) in
  Forall (Forall2 tamed tail) yielded
  /\ Forall2 tamed tail final
  /\ (forall c, c ∈ chars -> c ∉ final)
  /\ (length yielded <= length chars)%nat
  /\ (yielded = [] <-> forall c, c ∈ chars -> c ∉ tail).
Proof.
  revert tail. induction chars as [|char rest IH]; intros tail Hchars; simpl.
  - split; [constructor |]. split; [apply tamed_refl |].
    split; [intros c Hc; inversion Hc |]. split; [lia |].
    split; [intros _ c Hc; inversion Hc | reflexivity].
  - apply Forall_cons in Hchars as [Hchar Hrest].
    assert (Hne : char <> 45) by (intros ->; exact (hyphen_is_harmless Hchar)).
    case_bool_decide as Hin.
    + set (tail' := shlex.replace_char char (py "-") tail).
      destruct (IH tail' Hrest) as (Hall & Hfinal & Hnone & Hlen & _).
      pose proof (replace_tamed char tail Hchar) as Hstep. fold tail' in Hstep.
      rewrite os_path_join_rootless.
      assert (Hlast : default tail (last (tail' :: filesystem.fallback_loop [] rest tail'))
                      = default tail' (last (filesystem.fallback_loop [] rest tail'))).
      { rewrite last_cons. destruct (last (filesystem.fallback_loop [] rest tail')); reflexivity. }
      rewrite Hlast.
      split; [| split; [| split; [| split; [| split]]]].
      * constructor; [assumption |].
        eapply Forall_impl; [exact Hall |]. intros p Hp. eapply tamed_trans; eassumption.
      * eapply tamed_trans; eassumption.
      * intros c Hc. apply elem_of_cons in Hc as [->|Hc]; [| apply Hnone, Hc].
        eapply tamed_absent; [exact Hfinal | assumption |].
        apply replace_removes, Hne.
      * simpl. lia.
      * discriminate.
      * intros Hnone'. exfalso. apply (Hnone' char); [left | assumption].
    + destruct (IH tail Hrest) as (Hall & Hfinal & Hnone & Hlen & Hempty).
      split; [assumption |]. split; [assumption |].
      split; [| split; [| split]].
      * intros c Hc. apply elem_of_cons in Hc as [->|Hc]; [| apply Hnone, Hc].
        eapply tamed_absent; [exact Hfinal | assumption | assumption].
      * lia.
      * intros Hy c Hc. apply elem_of_cons in Hc as [->|Hc]; [assumption |].
        apply Hempty; assumption.
      * intros Hnone'. apply Hempty. intros c Hc. apply Hnone'. right. exact Hc.
Qed.

(** X1.  [path_fallbacks] yields the path itself first; every path it yields
    is the original with some problematic characters turned into hyphens and
    nothing else changed, so it has the length of the original; the last
    path it yields holds no problematic character; and it yields at most 40
    paths. *)
Theorem path_fallbacks_tame (path : str) :
  head (filesystem.path_fallbacks path) = Some path
  /\ Forall (Forall2 tamed path) (filesystem.path_fallbacks path)
  /\ Forall (fun p => length p = length path) (filesystem.path_fallbacks path)
  /\ (exists final,
        last (filesystem.path_fallbacks path) = Some final
        /\ forall c, c ∈ filesystem.PROBLEMATIC_PATH_CHARS -> c ∉ final)
  /\ (length (filesystem.path_fallbacks path) <= 40)%nat.
Proof.
  unfold filesystem.path_fallbacks, filesystem.splitdrive.
  rewrite os_path_join_rootless.
  destruct (fallback_loop_spec filesystem.PROBLEMATIC_PATH_CHARS path)
    as (Hall & Hfinal & Hnone & Hlen & _).
  { apply Forall_forall. auto. }
  assert (Htamed : Forall (Forall2 tamed path)
            (path :: filesystem.fallback_loop [] filesystem.PROBLEMATIC_PATH_CHARS path)).
  { constructor; [apply tamed_refl | exact Hall]. }
  split; [reflexivity |]. split; [exact Htamed |]. split; [| split].
  - eapply Forall_impl; [exact Htamed |]. intros p Hp.
    symmetry. eapply Forall2_length, Hp.
  - rewrite last_cons.
    destruct (last (filesystem.fallback_loop [] filesystem.PROBLEMATIC_PATH_CHARS path));
      eexists; (split; [reflexivity | exact Hnone]).
  - rewrite length_cons. rewrite problematic_count in Hlen. lia.
Qed.

(** X2.  [path_fallbacks] yields the path alone exactly when the path holds no
    problematic character. *)
Theorem path_fallbacks_alone (path : str) :
  filesystem.path_fallbacks path = [path]
  <-> forall c, c ∈ filesystem.PROBLEMATIC_PATH_CHARS -> c ∉ path.
Proof.
  unfold filesystem.path_fallbacks, filesystem.splitdrive.
  rewrite os_path_join_rootless.
  destruct (fallback_loop_spec filesystem.PROBLEMATIC_PATH_CHARS path)
    as (_ & _ & _ & _ & Hempty).
  { apply Forall_forall. auto. }
  rewrite <- Hempty.
  generalize (filesystem.fallback_loop [] filesystem.PROBLEMATIC_PATH_CHARS path).
  intros yielded. split.
  - intros H. injection H as H. exact H.
  - intros ->. reflexivity.
Qed.

Lemma path_fallbacks_head (path : str) :
  exists rest, filesystem.path_fallbacks path = path :: rest.
Proof.
  unfold filesystem.path_fallbacks, filesystem.splitdrive.
  rewrite os_path_join_rootless. eauto.
Qed.

(** ** [check_exists] *)

Lemma first_existing_spec (host : Host) (dests : list str) :
  match filesystem.first_existing host dests with
  | Some dest =>
      exists before after,
        dests = before ++ dest :: after
        /\ path_exists host dest = true
        /\ Forall (fun p => path_exists host p = false) before
  | None => Forall (fun p => path_exists host p = false) dests
  end.
Proof.
  induction dests as [|d rest IH]; simpl; [constructor |].
  destruct (path_exists host d) eqn:Hd.
  - exists [], rest. repeat split; [assumption | constructor].
  - destruct (filesystem.first_existing host rest) as [dest|].
    + destruct IH as (before & after & -> & Hdest & Hbefore).
      exists (d :: before), after. repeat split; [assumption |].
      constructor; assumption.
    + constructor; assumption.
Qed.

(** X3.  [check_exists] returns the path itself when it exists; whatever it
    returns is a fallback of the path that exists and before which no
    fallback exists; and it returns [None] exactly when no fallback exists. *)
Theorem check_exists_first (host : Host) (path : str) :
  (path_exists host path = true -> filesystem.check_exists host path = Some path)
  /\ (forall dest,
        filesystem.check_exists host path = Some dest ->
        exists before after,
          filesystem.path_fallbacks path = before ++ dest :: after
          /\ path_exists host dest = true
          /\ Forall (fun p => path_exists host p = false) before)
  /\ (filesystem.check_exists host path = None
      <-> Forall (fun p => path_exists host p = false)
                 (filesystem.path_fallbacks path)).
Proof.
  unfold filesystem.check_exists.
  pose proof (first_existing_spec host (filesystem.path_fallbacks path)) as Hspec.
  destruct (path_fallbacks_head path) as [rest Hhead].
  split; [| split].
  - intros Hexists. rewrite Hhead. simpl. rewrite Hexists. reflexivity.
  - intros dest Hdest. rewrite Hdest in Hspec. exact Hspec.
  - destruct (filesystem.first_existing host (filesystem.path_fallbacks path))
      as [dest|]; split; try discriminate; auto.
    intros Hnone. destruct Hspec as (before & after & Hsplit & Hdest & _).
    rewrite Hsplit in Hnone. apply Forall_app in Hnone as [_ Hnone].
    apply Forall_cons in Hnone as [Hfalse _]. congruence.
Qed.

(** ** [mkdir_allow_fallback] *)

Lemma mkdir_loop_spec (makedirs : str -> filesystem.makedirs_outcome)
    (dir_name : str) (names : list str) :
  match filesystem.mkdir_loop makedirs dir_name names with
  | (log, filesystem.Created new_name) =>
      exists before after,
        names = before ++ new_name :: after
        /\ Forall (skipped makedirs) before
        /\ makedirs new_name = filesystem.MakedirsReturns
        /\ log = if bool_decide (Path new_name <> Path dir_name)
                 then [LoggerWarn (py "Creating '" ++ new_name
                                   ++ py "' instead of '" ++ dir_name ++ py "'")]
                 else []
  | (log, filesystem.Propagated errno) =>
      errno <> 22 /\ log = []
      /\ exists before new_name after,
           names = before ++ new_name :: after
           /\ Forall (skipped makedirs) before
           /\ makedirs new_name = filesystem.MakedirsOSError errno
  | (log, filesystem.Unable message) =>
      Forall (skipped makedirs) names /\ log = []
      /\ message = py "Unable to create directory '" ++ dir_name ++ py "'"
  end.
Proof.
  induction names as [|n rest IH]; simpl.
  - split; [constructor | split; reflexivity].
  - destruct (makedirs n) as [| | |errno] eqn:Hn.
    + exists [], rest. repeat split; solve [reflexivity | assumption | constructor].
    + destruct (filesystem.mkdir_loop makedirs dir_name rest) as [log [name|e|msg]].
      * destruct IH as (before & after & -> & Hbefore & Hname & Hlog).
        exists (n :: before), after. repeat split; try assumption.
        constructor; [left; assumption | assumption].
      * destruct IH as (He & Hlog & before & name & after & -> & Hbefore & Hname).
        repeat split; try assumption.
        exists (n :: before), name, after. repeat split; try assumption.
        constructor; [left; assumption | assumption].
      * destruct IH as (Hall & Hlog & Hmsg). repeat split; try assumption.
        constructor; [left; assumption | assumption].
    + destruct (filesystem.mkdir_loop makedirs dir_name rest) as [log [name|e|msg]].
      * destruct IH as (before & after & -> & Hbefore & Hname & Hlog).
        exists (n :: before), after. repeat split; try assumption.
        constructor; [right; left; assumption | assumption].
      * destruct IH as (He & Hlog & before & name & after & -> & Hbefore & Hname).
        repeat split; try assumption.
        exists (n :: before), name, after. repeat split; try assumption.
        constructor; [right; left; assumption | assumption].
      * destruct IH as (Hall & Hlog & Hmsg). repeat split; try assumption.
        constructor; [right; left; assumption | assumption].
    + destruct (Z.eqb_spec errno 22) as [->|Hne].
      * destruct (filesystem.mkdir_loop makedirs dir_name rest) as [log [name|e|msg]].
        -- destruct IH as (before & after & -> & Hbefore & Hname & Hlog).
           exists (n :: before), after. repeat split; try assumption.
           constructor; [right; right; assumption | assumption].
        -- destruct IH as (He & Hlog & before & name & after & -> & Hbefore & Hname).
           repeat split; try assumption.
           exists (n :: before), name, after. repeat split; try assumption.
           constructor; [right; right; assumption | assumption].
        -- destruct IH as (Hall & Hlog & Hmsg). repeat split; try assumption.
           constructor; [right; right; assumption | assumption].
      * split; [assumption |]. split; [reflexivity |].
        exists [], n, rest. repeat split; assumption || constructor.
Qed.

(** X4.  How [mkdir_allow_fallback] ends.  When it returns a name, that name
    is a fallback of the directory on which [os.makedirs] returned, and on
    every fallback before it [os.makedirs] raised [ValueError],
    [NotADirectoryError] or an [OSError] with errno 22.  When it lets an
    [OSError] through, the errno is not 22 and nothing was logged.  When it
    raises its own error, [os.makedirs] failed in one of those three ways on
    every fallback.  And when [os.makedirs] returns on the directory itself,
    that directory is returned and nothing is logged. *)
Theorem mkdir_allow_fallback_ends
    (makedirs : str -> filesystem.makedirs_outcome) (dir_name : str) :
  match filesystem.mkdir_allow_fallback makedirs dir_name with
  | (log, filesystem.Created new_name) =>
      exists before after,
        filesystem.path_fallbacks dir_name = before ++ new_name :: after
        /\ Forall (skipped makedirs) before
        /\ makedirs new_name = filesystem.MakedirsReturns
  | (log, filesystem.Propagated errno) =>
      errno <> 22 /\ log = []
      /\ exists before new_name after,
           filesystem.path_fallbacks dir_name = before ++ new_name :: after
           /\ Forall (skipped makedirs) before
           /\ makedirs new_name = filesystem.MakedirsOSError errno
  | (log, filesystem.Unable message) =>
      Forall (skipped makedirs) (filesystem.path_fallbacks dir_name) /\ log = []
      /\ message = py "Unable to create directory '" ++ dir_name ++ py "'"
  end
  /\ (makedirs dir_name = filesystem.MakedirsReturns ->
      filesystem.mkdir_allow_fallback makedirs dir_name
      = ([], filesystem.Created dir_name)).
Proof.
  unfold filesystem.mkdir_allow_fallback. split.
  - pose proof (mkdir_loop_spec makedirs dir_name (filesystem.path_fallbacks dir_name))
      as Hspec.
    destruct (filesystem.mkdir_loop makedirs dir_name (filesystem.path_fallbacks dir_name))
      as [log [name|e|msg]]; [| exact Hspec | exact Hspec].
    destruct Hspec as (before & after & Hsplit & Hbefore & Hname & _). eauto.
  - intros Hreturns. destruct (path_fallbacks_head dir_name) as [rest ->].
    simpl. rewrite Hreturns.
    rewrite bool_decide_eq_false_2 by (intros H; apply H; reflexivity). reflexivity.
Qed.

Lemma slash_is_kept (x y : Z) : tamed x y -> (x = 47 <-> y = 47).
Proof.
  intros [->|[Hx ->]]; [reflexivity |]. split; [| discriminate].
  intros ->. apply list_elem_of_In in Hx. vm_compute in Hx. intuition discriminate.
Qed.

Lemma dot_is_kept (x y : Z) : tamed x y -> (x = 46 <-> y = 46).
Proof.
  intros [->|[Hx ->]]; [reflexivity |]. split; [| discriminate].
  intros ->. apply list_elem_of_In in Hx. vm_compute in Hx. intuition discriminate.
Qed.

(** The components of a taming are tamings of the components. *)
Lemma tamed_split (a b : str) :
  Forall2 tamed a b ->
  Forall2 (Forall2 tamed) (str_split 47 a) (str_split 47 b).
Proof.
  induction 1 as [|x y a b Hxy _ IH].
  - repeat constructor.
  - rewrite !str_split_cons.
    pose proof (str_split_nonempty 47 a). pose proof (str_split_nonempty 47 b).
    destruct (str_split 47 a) as [|p ps]; [contradiction |].
    destruct (str_split 47 b) as [|q qs]; [contradiction |].
    apply Forall2_cons in IH as [Hpq Hrest].
    pose proof (slash_is_kept x y Hxy) as Hslash.
    destruct (Z.eqb_spec x 47) as [Hx|Hx], (Z.eqb_spec y 47) as [Hy|Hy];
      try (exfalso; tauto); simpl.
    + constructor; [constructor | constructor; assumption].
    + constructor; [constructor; assumption | assumption].
Qed.

Lemma tamed_kept_part (p q : str) :
  Forall2 tamed p q -> (p <> [] /\ p <> [46]) <-> (q <> [] /\ q <> [46]).
Proof.
  intros Hpq. destruct Hpq as [|x y p q Hxy Hrest].
  - tauto.
  - pose proof (dot_is_kept x y Hxy) as Hdot.
    destruct Hrest as [|x' y' p q _ _].
    + split; intros [_ H]; (split; [discriminate |]); intros [= E]; apply H;
        f_equal; tauto.
    + split; intros _; split; discriminate.
Qed.

Lemma tamed_dropped_part (p q : str) :
  Forall2 tamed p q -> ~ (p <> [] /\ p <> [46]) -> p = q.
Proof.
  intros Hpq Hdrop.
  destruct (decide (p = [])) as [->|Hne]; [inversion Hpq; reflexivity |].
  destruct (decide (p = [46])) as [->|Hdot]; [| tauto].
  inversion Hpq as [|x y p' q' Hxy Hrest]; subst. inversion Hrest; subst.
  f_equal. symmetry. apply (dot_is_kept 46 y Hxy). reflexivity.
Qed.

Lemma tamed_parts_eq (ps qs : list str) :
  Forall2 (Forall2 tamed) ps qs ->
  filter (fun part => part <> [] /\ part <> [46]) qs
  = filter (fun part => part <> [] /\ part <> [46]) ps ->
  qs = ps.
Proof.
  induction 1 as [|p q ps qs Hpq _ IH]; [reflexivity |].
  rewrite !filter_cons. pose proof (tamed_kept_part p q Hpq) as Hkept.
  destruct (decide (p <> [] /\ p <> [46])) as [Hp|Hp].
  - rewrite decide_True by tauto. intros [= -> Hrest]. f_equal. apply IH, Hrest.
  - rewrite decide_False by tauto. intros Hrest.
    f_equal; [symmetry; apply tamed_dropped_part; assumption | apply IH, Hrest].
Qed.

(** A taming that names the same path is the same string. *)
Lemma tamed_same_path (dir_name new_name : str) :
  Forall2 tamed dir_name new_name -> Path new_name = Path dir_name ->
  new_name = dir_name.
Proof.
  intros Htamed [= _ Hparts]. unfold path_parts in Hparts.
  rewrite <- (str_join_split 47 new_name), <- (str_join_split 47 dir_name).
  f_equal. apply tamed_parts_eq; [apply tamed_split, Htamed | exact Hparts].
Qed.

Lemma path_fallbacks_tamed (path : str) :
  Forall (Forall2 tamed path) (filesystem.path_fallbacks path).
Proof.
  unfold filesystem.path_fallbacks, filesystem.splitdrive.
  rewrite os_path_join_rootless.
  destruct (fallback_loop_spec filesystem.PROBLEMATIC_PATH_CHARS path)
    as (Hall & _).
  { apply Forall_forall. auto. }
  constructor; [apply tamed_refl | exact Hall].
Qed.

(** X5.  [mkdir_allow_fallback] logs a warning exactly when the directory it
    created is not the one it was asked for: either it returns the given name
    and logs nothing, or it returns another name and logs that it created
    that one instead. *)
Theorem mkdir_allow_fallback_warns
    (makedirs : str -> filesystem.makedirs_outcome) (dir_name new_name : str)
    (log : list event) :
  filesystem.mkdir_allow_fallback makedirs dir_name
  = (log, filesystem.Created new_name) ->
  (new_name = dir_name /\ log = [])
  \/ (new_name <> dir_name
      /\ log = [LoggerWarn (py "Creating '" ++ new_name ++ py "' instead of '"
                            ++ dir_name ++ py "'")]).
Proof.
  unfold filesystem.mkdir_allow_fallback. intros Hrun.
  pose proof (mkdir_loop_spec makedirs dir_name (filesystem.path_fallbacks dir_name))
    as Hspec.
  rewrite Hrun in Hspec.
  destruct Hspec as (before & after & Hsplit & _ & _ & Hlog).
  assert (Htamed : Forall2 tamed dir_name new_name).
  { pose proof (path_fallbacks_tamed dir_name) as Hall. rewrite Hsplit in Hall.
    apply Forall_app in Hall as [_ Hall]. apply Forall_cons in Hall as [H _]. exact H. }
  case_bool_decide as Hpath.
  - right. split; [| exact Hlog]. intros ->. apply Hpath. reflexivity.
  - left. split; [| exact Hlog]. apply tamed_same_path; [exact Htamed |].
    destruct (decide (Path new_name = Path dir_name)); [assumption | contradiction].
Qed.

Lemma mkdir_allow_fallback_warns_witness :
  (py "runs/a-b" = py "runs/a:b" /\ [LoggerWarn (py "Creating 'runs/a-b' instead of 'runs/a:b'")] = [])
  \/ (py "runs/a-b" <> py "runs/a:b"
      /\ [LoggerWarn (py "Creating 'runs/a-b' instead of 'runs/a:b'")]
         = [LoggerWarn (py "Creating '" ++ py "runs/a-b" ++ py "' instead of '"
                        ++ py "runs/a:b" ++ py "'")]).
Proof.
  apply (mkdir_allow_fallback_warns
           (fun n => if bool_decide (58 ∈ n) then filesystem.MakedirsOSError 22
                     else filesystem.MakedirsReturns)
           (py "runs/a:b") (py "runs/a-b")).
  vm_compute. reflexivity.
Defined.

(** ** [CRDedupedFile] *)

Lemma elem_of_str_join (sep : str) (parts : list str) (c : Z) :
  c ∈ str_join sep parts -> c ∈ sep \/ exists p, p ∈ parts /\ c ∈ p.
Proof.
  induction parts as [|p [|q rest] IH]; simpl.
  - intros H. inversion H.
  - intros H. right. exists p. split; [left | exact H].
  - intros H. apply elem_of_app in H as [H|H].
    + right. exists p. split; [left | exact H].
    + apply elem_of_app in H as [H|H]; [left; exact H |].
      destruct (IH H) as [Hsep|(p' & Hp' & Hc)]; [left; exact Hsep |].
      right. exists p'. split; [right; exact Hp' | exact Hc].
Qed.

Lemma str_split_elem (sep : Z) (s part : str) (c : Z) :
  part ∈ str_split sep s -> c ∈ part -> c ∈ s.
Proof.
  revert part. induction s as [|x s IH]; intros part.
  - intros Hpart Hc. apply list_elem_of_singleton in Hpart. subst. exact Hc.
  - rewrite str_split_cons. pose proof (str_split_nonempty sep s).
    destruct (str_split sep s) as [|p ps]; [contradiction |].
    destruct (x =? sep); simpl; intros Hpart Hc.
    + apply elem_of_cons in Hpart as [->|Hpart]; [inversion Hc |].
      right. eapply IH; eassumption.
    + apply elem_of_cons in Hpart as [->|Hpart].
      * apply elem_of_cons in Hc as [->|Hc]; [left |].
        right. apply (IH p); [left | exact Hc].
      * right. apply (IH part); [right; exact Hpart | exact Hc].
Qed.

Lemma str_split_absent (sep : Z) (s : str) : sep ∉ s -> str_split sep s = [s].
Proof.
  intros Hnot. rewrite <- (str_split_join sep [s]) at 1; [reflexivity | discriminate |].
  repeat constructor. exact Hnot.
Qed.

Lemma last_segment_clean (line : bytes) :
  let segment := default [] (last (str_split filesystem.CR line)) in
  (filesystem.CR ∉ segment) /\ (filesystem.LF ∉ line -> filesystem.LF ∉ segment).
Proof.
  intros segment. subst segment.
  pose proof (str_split_parts filesystem.CR line) as Hparts.
  destruct (last (str_split filesystem.CR line)) as [part|] eqn:Hlast; simpl.
  - apply last_Some_elem_of in Hlast. split.
    + rewrite Forall_forall in Hparts. apply Hparts, Hlast.
    + intros Hnot Hin. apply Hnot. eapply str_split_elem; eassumption.
  - split; [apply not_elem_of_nil | intros _; apply not_elem_of_nil].
Qed.

Lemma Forall_removelast {A : Type} (P : A -> Prop) (l : list A) :
  Forall P l -> Forall P (removelast l).
Proof.
  induction 1 as [|x [|y l] Hx Hl IH]; simpl; constructor; assumption.
Qed.

(** The pieces that [re.split] gives hold no LF. *)
Lemma split_lines_no_lf (n : nat) :
  forall data current,
    (length data <= n)%nat -> filesystem.LF ∉ current ->
    Forall (fun line => filesystem.LF ∉ line) (filesystem.split_lines current data).
Proof.
  induction n as [|n IH]; intros [|c rest] current Hlen Hcur; simpl in *;
    try (repeat constructor; assumption); try lia.
  assert (Hgrow : c <> filesystem.LF -> filesystem.LF ∉ current ++ [c]).
  { intros Hc Hin. apply elem_of_app in Hin as [Hin|Hin]; [contradiction |].
    apply list_elem_of_singleton in Hin. congruence. }
  destruct (Z.eqb_spec c filesystem.LF) as [->|Hc].
  - constructor; [assumption |]. apply IH; [lia | apply not_elem_of_nil].
  - destruct rest as [|c' rest'].
    + simpl. repeat constructor. apply Hgrow, Hc.
    + destruct ((c =? filesystem.CR) && (c' =? filesystem.LF)).
      * constructor; [assumption |]. apply IH; [simpl in Hlen; lia | apply not_elem_of_nil].
      * apply IH; [lia | apply Hgrow, Hc].
Qed.

Lemma take_line_keeps (ret : list bytes) (buff line : bytes) :
  Forall one_line ret -> filesystem.CR ∉ buff -> filesystem.LF ∉ buff ->
  filesystem.LF ∉ line ->
  let '(ret', buff') := filesystem.take_line (ret, buff) line in
  Forall one_line ret' /\ (filesystem.CR ∉ buff') /\ (filesystem.LF ∉ buff').
Proof.
  intros Hret Hcr Hlf Hline. unfold filesystem.take_line.
  destruct (last_segment_clean line) as [Hseg_cr Hseg_lf].
  specialize (Hseg_lf Hline).
  set (segment := default [] (last (str_split filesystem.CR line))) in *.
  assert (Hstep : forall ret0 buff0,
    Forall one_line ret0 -> filesystem.CR ∉ buff0 -> filesystem.LF ∉ buff0 ->
    let '(ret', buff') :=
      (match segment with
       | _ :: _ => (ret0 ++ [segment], buff0)
       | [] => (ret0, buff0)
       end : list (list Z) * list Z) in
    Forall one_line ret' /\ (filesystem.CR ∉ buff') /\ (filesystem.LF ∉ buff')).
  { intros ret0 buff0 H0 H1 H2. destruct segment as [|s0 seg] eqn:Hs; [auto |].
    split; [| auto]. apply Forall_app. split; [assumption |].
    repeat constructor; [discriminate | assumption | assumption]. }
  destruct line as [|c line']; [apply Hstep; assumption |].
  destruct (c =? filesystem.CR); [| apply Hstep; assumption].
  destruct ret as [|r ret1]; apply Hstep; try assumption.
  - apply not_elem_of_nil.
  - apply not_elem_of_nil.
  - apply Forall_removelast, Hret.
Qed.

Lemma fold_take_line_keeps (lines : list bytes) :
  forall ret buff,
    Forall (fun line => filesystem.LF ∉ line) lines ->
    Forall one_line ret -> filesystem.CR ∉ buff -> filesystem.LF ∉ buff ->
    let '(ret', buff') := fold_left filesystem.take_line lines (ret, buff) in
    Forall one_line ret' /\ (filesystem.CR ∉ buff') /\ (filesystem.LF ∉ buff').
Proof.
  induction lines as [|line rest IH]; intros ret buff Hlines Hret Hcr Hlf;
    cbn [fold_left].
  - auto.
  - apply Forall_cons in Hlines as [Hline Hrest].
    pose proof (take_line_keeps ret buff line Hret Hcr Hlf Hline) as Hstep.
    destruct (filesystem.take_line (ret, buff) line) as [ret1 buff1].
    destruct Hstep as (H1 & H2 & H3). apply IH; assumption.
Qed.

(** What one [write] does to the object: the bytes handed to the wrapped
    file are lines joined and closed by LF, and the new buffer is a line or
    empty. *)
Lemma write_spec (self : filesystem.CRDedupedFile) (data : bytes) :
  filesystem.CR ∉ filesystem._buff self -> filesystem.LF ∉ filesystem._buff self ->
  exists ret buff,
    Forall one_line ret
    /\ (filesystem.CR ∉ buff) /\ (filesystem.LF ∉ buff)
    /\ filesystem.write self data
       = match filesystem.io_write (filesystem.f self)
                 (str_join [filesystem.LF] ret ++ [filesystem.LF]) with
         | Ok f' => ({| filesystem._buff := buff; filesystem.f := f' |}, Ok tt)
         | Raise e =>
             ({| filesystem._buff := buff; filesystem.f := filesystem.f self |},
              Raise e)
         end.
Proof.
  intros Hcr Hlf. unfold filesystem.write.
  pose proof (fold_take_line_keeps (filesystem.split_lines [] data) []
                (filesystem._buff self)
                (split_lines_no_lf (length data) data [] (le_n _) (not_elem_of_nil _))
                (List.Forall_nil _) Hcr Hlf) as Hfold.
  destruct (fold_left filesystem.take_line (filesystem.split_lines [] data)
              ([], filesystem._buff self)) as [ret buff].
  destruct Hfold as (Hret & Hbcr & Hblf).
  assert (Hret' : Forall one_line
            match buff with _ :: _ => buff :: ret | [] => ret end).
  { destruct buff as [|b buff']; [assumption |].
    constructor; [| assumption]. repeat split; [discriminate | assumption | assumption]. }
  set (ret' := match buff with _ :: _ => buff :: ret | [] => ret end) in *.
  destruct ret' as [|r ret''] eqn:Hr.
  - exists [], buff. auto.
  - exists (removelast (r :: ret'')), (default [] (last (r :: ret''))).
    split; [apply Forall_removelast, Hret' |].
    destruct (last (r :: ret'')) as [held|] eqn:Hlast; simpl.
    + apply last_Some_elem_of in Hlast.
      rewrite Forall_forall in Hret'. destruct (Hret' held Hlast) as (_ & H1 & H2).
      auto.
    + split; [apply not_elem_of_nil | split; [apply not_elem_of_nil | reflexivity]].
Qed.

Lemma write_keeps_clean (self : filesystem.CRDedupedFile) (data : bytes) :
  cr_clean self -> cr_clean (fst (filesystem.write self data)).
Proof.
  intros (Hcontent & Hcr & Hlf).
  destruct (write_spec self data Hcr Hlf) as (ret & buff & Hret & Hbcr & Hblf & ->).
  unfold filesystem.io_write.
  destruct (filesystem.is_closed (filesystem.f self)); simpl;
    (split; [| split; assumption]); [assumption |].
  intros Hin. apply elem_of_app in Hin as [Hin|Hin]; [contradiction |].
  apply elem_of_app in Hin as [Hin|Hin].
  - apply elem_of_str_join in Hin as [Hin|(p & Hp & Hin)].
    + apply list_elem_of_singleton in Hin. discriminate.
    + rewrite Forall_forall in Hret. destruct (Hret p Hp) as (_ & Hpcr & _).
      contradiction.
  - apply list_elem_of_singleton in Hin. discriminate.
Qed.

(** X6.  Whatever is written through a [CRDedupedFile], in however many
    [write] calls, no CR reaches the wrapped file, also not when the object is
    closed; and the line it holds back holds neither CR nor LF. *)
Theorem cr_never_written (chunks : list bytes) :
  let file := filesystem.write_all filesystem.open_file chunks in
  cr_clean file
  /\ (filesystem.CR
      ∉ filesystem.content (filesystem.f (fst (filesystem.close file)))).
Proof.
  intros file.
  assert (Hclean : cr_clean file).
  { subst file. unfold filesystem.write_all.
    assert (Hstart : cr_clean filesystem.open_file)
      by (repeat split; apply not_elem_of_nil).
    revert Hstart. generalize filesystem.open_file.
    induction chunks as [|data rest IH]; intros self Hself; simpl; [exact Hself |].
    apply IH, write_keeps_clean, Hself. }
  split; [exact Hclean |].
  destruct Hclean as (Hcontent & Hcr & _). unfold filesystem.close, filesystem.io_write.
  destruct (filesystem._buff file) as [|b buff] eqn:Hbuff; simpl; [exact Hcontent |].
  destruct (filesystem.is_closed (filesystem.f file)); simpl; [exact Hcontent |].
  intros Hin. apply elem_of_app in Hin as [Hin|Hin]; contradiction.
Qed.

(** A piece that ends in LF, without other LF and without a CR just before
    the end, is one line followed by an empty piece. *)
Lemma split_lines_line (line : bytes) :
  forall current,
    filesystem.LF ∉ line -> last line <> Some filesystem.CR ->
    filesystem.split_lines current (line ++ [filesystem.LF]) = [current ++ line; []].
Proof.
  induction line as [|c rest IH]; intros current Hlf Hlast.
  - simpl. rewrite app_nil_r. reflexivity.
  - apply not_elem_of_cons in Hlf as [Hc Hrest].
    change ((c :: rest) ++ [filesystem.LF]) with (c :: (rest ++ [filesystem.LF])).
    cbn [filesystem.split_lines].
    destruct (Z.eqb_spec c filesystem.LF) as [->|_]; [congruence |].
    assert (Hnext : filesystem.split_lines (current ++ [c]) (rest ++ [filesystem.LF])
                    = [current ++ c :: rest; []]).
    { rewrite IH; [rewrite <- app_assoc; reflexivity | assumption |].
      destruct rest as [|r rest']; [discriminate |].
      rewrite last_cons in Hlast. destruct (last (r :: rest')); [exact Hlast | discriminate]. }
    destruct rest as [|r rest']; simpl app at 1 2.
    + destruct (Z.eqb_spec c filesystem.CR) as [->|_]; [exfalso; apply Hlast; reflexivity |].
      simpl andb. exact Hnext.
    + apply not_elem_of_cons in Hrest as [Hr _].
      destruct (Z.eqb_spec r filesystem.LF) as [->|_]; [congruence |].
      rewrite andb_false_r. exact Hnext.
Qed.


Lemma take_line_empty (state : list bytes * bytes) :
  filesystem.take_line state [] = state.
Proof. destruct state. reflexivity. Qed.

Lemma one_line_last (line : bytes) : one_line line -> last line <> Some filesystem.CR.
Proof.
  intros (_ & Hcr & _) Hlast. apply Hcr. apply last_Some_elem_of, Hlast.
Qed.






(** X8.  A write that starts with CR and carries one line closed by LF
    overwrites the line held back: whatever was held back is dropped without
    reaching the file, the new line is held back in its place, and the file
    receives a single LF. *)
Theorem carriage_return_overwrites (self : filesystem.CRDedupedFile) (line : bytes) :
  filesystem.is_closed (filesystem.f self) = false -> one_line line ->
  filesystem.write self ([filesystem.CR] ++ line ++ [filesystem.LF])
  = ({| filesystem._buff := line;
        filesystem.f :=
          {| filesystem.content :=
               filesystem.content (filesystem.f self) ++ [filesystem.LF];
             filesystem.is_closed := false |} |},
     Ok tt).
Proof.
  intros Hopen Hline. pose proof Hline as (Hne & Hcr & Hlf).
  unfold filesystem.write.
  change ([filesystem.CR] ++ line ++ [filesystem.LF])
    with ((filesystem.CR :: line) ++ [filesystem.LF]).
  rewrite split_lines_line.
  - cbn [fold_left app].
    assert (Hfirst : filesystem.take_line ([], filesystem._buff self) (filesystem.CR :: line)
                     = ([line], [])).
    { unfold filesystem.take_line. rewrite Z.eqb_refl.
      rewrite str_split_cons, Z.eqb_refl, (str_split_absent _ _ Hcr). simpl.
      destruct line; [congruence | reflexivity]. }
    rewrite Hfirst, take_line_empty. unfold filesystem.io_write. rewrite Hopen.
    reflexivity.
  - apply not_elem_of_cons. split; [discriminate | assumption].
  - destruct line as [|c line']; [congruence |].
    rewrite last_cons_cons. apply one_line_last, Hline.
Qed.

Lemma carriage_return_overwrites_witness :
  filesystem.write
    {| filesystem._buff := py " 50%";
       filesystem.f := {| filesystem.content := []; filesystem.is_closed := false |} |}
    ([filesystem.CR] ++ py "100%" ++ [filesystem.LF])
  = ({| filesystem._buff := py "100%";
        filesystem.f :=
          {| filesystem.content := [] ++ [filesystem.LF];
             filesystem.is_closed := false |} |},
     Ok tt).
Proof.
  apply (carriage_return_overwrites
           {| filesystem._buff := py " 50%";
              filesystem.f := {| filesystem.content := [];
                                 filesystem.is_closed := false |} |}
           (py "100%")).
  - reflexivity.
  - repeat constructor; try discriminate;
      intros H; apply list_elem_of_In in H; vm_compute in H; intuition discriminate.
Defined.

(** ** [wandb.init] *)

(** X9.  What leaves [init].  [KeyboardInterrupt] never leaves it: an
    exception that does is [Exception("interrupted")], [Exception("problem")],
    or a [BaseException] of another kind, which passes through unchanged.
    It is [Exception("interrupted")] exactly when the setup raised
    [KeyboardInterrupt], or the run initialisation did and the problem
    setting is [fatal].  A run is returned exactly when the run
    initialisation returned it; [None] is returned when the run
    initialisation returned [None], and also when it raised
    [KeyboardInterrupt] or an [Exception] under a problem setting other than
    [fatal]. *)
Theorem init_outcomes {Settings Run : Type}
    (setup : wandb_init.outcome Settings)
    (run_init : Settings -> wandb_init.outcome (option Run))
    (problem : Settings -> str) :
  let result := snd (wandb_init.init setup run_init problem) in
  (forall e,
     result = wandb_init.Raises e ->
     e = wandb_init.AnException (py "interrupted")
     \/ e = wandb_init.AnException (py "problem")
     \/ exists text,
          e = wandb_init.OtherBaseException text
          /\ (setup = wandb_init.Raises e
              \/ exists settings,
                   setup = wandb_init.Returns settings
                   /\ run_init settings = wandb_init.Raises e))
  /\ (result = wandb_init.Raises (wandb_init.AnException (py "interrupted"))
      <-> setup = wandb_init.Raises wandb_init.KeyboardInterrupt
          \/ exists settings,
               setup = wandb_init.Returns settings
               /\ run_init settings = wandb_init.Raises wandb_init.KeyboardInterrupt
               /\ problem settings = py "fatal")
  /\ (forall run,
        result = wandb_init.Returns (Some run)
        <-> exists settings,
              setup = wandb_init.Returns settings
              /\ run_init settings = wandb_init.Returns (Some run))
  /\ (result = wandb_init.Returns None
      <-> exists settings,
            setup = wandb_init.Returns settings
            /\ (run_init settings = wandb_init.Returns None
                \/ (problem settings <> py "fatal"
                    /\ (run_init settings = wandb_init.Raises wandb_init.KeyboardInterrupt
                        \/ exists text,
                             run_init settings
                             = wandb_init.Raises (wandb_init.AnException text))))).
Proof.
  intros result. subst result. unfold wandb_init.init.
  destruct setup as [settings|[|text|text]]; cbn [snd].
  2-4: (split; [| split; [| split]]);
    [ intros e [= <-]; eauto 8
    | first [ split; [intros _; left; reflexivity | reflexivity]
            | split; [discriminate |]; intros [H|(s & H & _)]; discriminate ]
    | intros run; split; [discriminate | intros (s & H & _); discriminate]
    | split; [discriminate | intros (s & H & _); discriminate] ].
  destruct (run_init settings) as [[run|]|[|text|text]] eqn:Hrun;
    try case_bool_decide as Hfatal; cbn [snd].
  all: split; [| split; [| split]].
  all: try (intros e Heq; try discriminate Heq; injection Heq as <-; eauto 10).
  all: try (intros run'; split;
            [ try discriminate; intros [= <-]; eauto
            | intros (s & [= <-] & Hs); rewrite Hrun in Hs; try discriminate Hs;
              injection Hs as <-; reflexivity ]).
  all: try (split;
            [ try discriminate; intros _; eauto 10
            | intros [H|(s & [= <-] & Hs & Hp)]; try discriminate H;
              try (rewrite Hrun in Hs; discriminate Hs); try reflexivity;
              try contradiction ]).
  all: try (split;
            [ try discriminate; intros _; eauto 10
            | intros (s & [= <-] & [Hs|(Hp & [Hs|(t & Hs)])]);
              rewrite Hrun in Hs; try discriminate Hs; try contradiction;
              reflexivity ]).
Qed.

(** ** More on the requirements section *)

(** When [requirements.txt] is missing the parser is not run and there is no
    filter. *)
Lemma parse_existing_requirements_absent (host : Host)
    (launch_project : LaunchProject) :
  build.project_has host launch_project (py "requirements.txt") = false ->
  project_dir launch_project <> None ->
  build._parse_existing_requirements host launch_project = ([], Ok []).
Proof.
  unfold build.project_has, build._parse_existing_requirements.
  destruct (project_dir launch_project) as [dir|]; [| congruence].
  intros -> _. reflexivity.
Qed.

Lemma parse_loop_log (host : Host) (outcomes : list (Requirement + str))
    (include_only : gset str) :
  fst (build.parse_loop host outcomes include_only)
  = map (fun e => LoggerWarn (py "Unable to parse requirements.txt: " ++ e))
        (parse_failures outcomes).
Proof.
  revert include_only.
  induction outcomes as [|[pkg|e] rest IH]; intros include_only; simpl.
  - reflexivity.
  - apply IH.
  - specialize (IH include_only).
    destruct (build.parse_loop host rest include_only) as [log r].
    simpl in *. rewrite IH. reflexivity.
Qed.

(** With [requirements.txt] present, the parser's failures are logged one by
    one, in order; the function raises only if the file cannot be opened. *)
Lemma parse_existing_requirements_present (host : Host)
    (launch_project : LaunchProject) (dir : str) :
  project_dir launch_project = Some dir ->
  path_exists host (os_path.join dir (py "requirements.txt")) = true ->
  match read_requirements host (os_path.join dir (py "requirements.txt")) with
  | Ok outcomes =>
      exists line,
        build._parse_existing_requirements host launch_project
        = (map (fun e => LoggerWarn (py "Unable to parse requirements.txt: " ++ e))
               (parse_failures outcomes),
           Ok line)
  | Raise e =>
      build._parse_existing_requirements host launch_project = ([], Raise e)
  end.
Proof.
  intros Hdir Hexists. unfold build._parse_existing_requirements.
  rewrite Hdir, Hexists.
  destruct (read_requirements host (os_path.join dir (py "requirements.txt")))
    as [outcomes|e]; [| reflexivity].
  unfold lift. cbn [run_bind].
  pose proof (parse_loop_log host outcomes ∅) as Hlog.
  destruct (parse_loop_ok host outcomes ∅) as [log Hloop].
  rewrite Hloop in Hlog |- *. simpl in Hlog. subst log.
  cbn [run_bind ret]. rewrite !app_nil_r. eauto.
Qed.

(** The builder is docker or kaniko: the locals after the first [if]/[elif]. *)
Lemma section_for_known_builder (host : Host) (launch_project : LaunchProject)
    (builder_type : str) :
  builder_type = py "docker" \/ builder_type = py "kaniko" ->
  build.get_requirements_section host launch_project builder_type
  = (let! _ := (buildx_warning host builder_type, Ok tt) in
     let mount := cache_mount host builder_type in
     if bool_decide (deps_type launch_project = Some (py "pip")) then
       let plain := build.project_has host launch_project (py "requirements.txt") in
       let! assigned :=
         if build.project_has host launch_project (py "requirements.frozen.txt")
         then
           let! include := build._parse_existing_requirements host launch_project in
           ret ((if plain then [py "src/requirements.txt"] else [])
                ++ [py "src/requirements.frozen.txt"; py "_wandb_bootstrap.py"],
                Some (include ++ py "python _wandb_bootstrap.py"))
         else
           ret (if plain then [py "src/requirements.txt"] else [],
                if plain then Some (py "pip install -r requirements.txt") else None) in
       let! pip_install := lift (read_local "pip_install_line" (snd assigned)) in
       ret (build.PIP_TEMPLATE
              (if mount then build.PIP_CACHE_MOUNT else build.CACHE_DISABLED)
              (str_join (py " ") (fst assigned)) pip_install)
     else if bool_decide (deps_type launch_project = Some (py "conda")) then
       ret (build.CONDA_TEMPLATE
              (if mount then build.CONDA_CACHE_MOUNT else build.CACHE_DISABLED))
     else
       emit (Termwarn build.NO_REQUIREMENTS_WARNING) ;;
       ret (py "RUN mkdir -p env/")).
Proof.
  intros Hbuilder. unfold build.get_requirements_section, cache_mount, buildx_warning.
  assert (Hcases :
    (bool_decide (builder_type = py "docker") = true)
    \/ (bool_decide (builder_type = py "docker") = false
        /\ bool_decide (builder_type = py "kaniko") = true)).
  { destruct Hbuilder as [->| ->]; [left | right; split]; reflexivity. }
  destruct Hcases as [-> |[-> ->]];
    [destruct (is_buildx_installed host) |];
    cbn [negb andb run_bind ret emit app];
    destruct (bool_decide (deps_type launch_project = Some (py "pip")));
    destruct (bool_decide (deps_type launch_project = Some (py "conda")));
    try reflexivity;
    destruct (build.project_has host launch_project (py "requirements.txt"));
    destruct (build.project_has host launch_project (py "requirements.frozen.txt"));
    try reflexivity;
    cbn [run_bind ret emit app lift read_local fst snd];
    destruct (build._parse_existing_requirements host launch_project) as [plog [include|e]];
    reflexivity.
Qed.

(** The builder is neither docker nor kaniko: the pip and the conda branch
    cannot finish, as [buildx_installed] was never assigned. *)
Lemma section_for_unknown_builder (host : Host) (launch_project : LaunchProject)
    (builder_type : str) :
  builder_type <> py "docker" -> builder_type <> py "kaniko" ->
  deps_type launch_project = Some (py "pip")
  \/ deps_type launch_project = Some (py "conda") ->
  exists log e,
    build.get_requirements_section host launch_project builder_type
    = (log, Raise e)
    /\ (e = UnboundLocalError (py "buildx_installed")
        \/ build._parse_existing_requirements host launch_project = (log, Raise e)).
Proof.
  intros Hdocker Hkaniko Hdeps. unfold build.get_requirements_section.
  rewrite (bool_decide_eq_false_2 _ Hdocker), (bool_decide_eq_false_2 _ Hkaniko).
  cbn [run_bind ret app].
  destruct Hdeps as [Hdeps|Hdeps]; rewrite Hdeps.
  - rewrite (bool_decide_eq_true_2 (Some (py "pip") = Some (py "pip")) eq_refl).
    destruct (build.project_has host launch_project (py "requirements.txt"));
      destruct (build.project_has host launch_project (py "requirements.frozen.txt"));
      cbn [run_bind ret emit app lift read_local];
      try (destruct (build._parse_existing_requirements host launch_project)
             as [plog [include|e]]; cbn [run_bind ret emit app lift read_local];
           rewrite ?app_nil_r);
      eauto 6.
  - replace (bool_decide (Some (py "conda") = Some (py "pip"))) with false
      by reflexivity.
    rewrite (bool_decide_eq_true_2 (Some (py "conda") = Some (py "conda")) eq_refl).
    cbn [run_bind ret emit app lift read_local]. eauto 6.
Qed.

(** X10.  When [get_requirements_section] returns a section.  For a
    dependency kind other than pip and conda it always does.  For conda it
    does exactly when the builder is docker or kaniko.  For pip it does
    exactly when the builder is docker or kaniko, the project holds at least
    one of the two manifests, and, when it holds both, [requirements.txt]
    can be opened and parsed.  In every other case the call raises. *)
Theorem requirements_section_generated (host : Host)
    (launch_project : LaunchProject) (builder_type : str) :
  let plain := build.project_has host launch_project (py "requirements.txt") in
  let frozen :=
    build.project_has host launch_project (py "requirements.frozen.txt") in
  (exists log text,
     build.get_requirements_section host launch_project builder_type
     = (log, Ok text))
  <-> (deps_type launch_project <> Some (py "pip")
       /\ deps_type launch_project <> Some (py "conda"))
      \/ ((builder_type = py "docker" \/ builder_type = py "kaniko")
          /\ (deps_type launch_project = Some (py "conda")
              \/ (deps_type launch_project = Some (py "pip")
                  /\ (plain = true \/ frozen = true)
                  /\ (plain = true -> frozen = true ->
                      requirements_readable host launch_project)))).
Proof.
  intros plain frozen.
  assert (Hparse : frozen = true ->
    (exists plog include,
       build._parse_existing_requirements host launch_project = (plog, Ok include))
    <-> (plain = true -> requirements_readable host launch_project)).
  { subst plain frozen. unfold build.project_has, requirements_readable.
    destruct (project_dir launch_project) as [dir|] eqn:Hdir; [| discriminate].
    intros Hfrozen.
    destruct (path_exists host (os_path.join dir (py "requirements.txt"))) eqn:Hplain.
    - pose proof (parse_existing_requirements_present host launch_project dir
                    Hdir Hplain) as Hp.
      destruct (read_requirements host (os_path.join dir (py "requirements.txt")))
        as [outcomes|e] eqn:Hread.
      + destruct Hp as [line Hp]. rewrite Hp. split; eauto 6.
      + rewrite Hp. split.
        * intros (plog & include & [=]).
        * intros H. destruct (H eq_refl) as (dir' & outcomes & [= <-] & Hread').
          congruence.
    - rewrite parse_existing_requirements_absent.
      + split; [discriminate | eauto].
      + unfold build.project_has. rewrite Hdir. exact Hplain.
      + congruence. }
  split.
  - intros (log & text & Hsection).
    destruct (decide (deps_type launch_project = Some (py "pip"))) as [Hpip|Hpip];
      destruct (decide (deps_type launch_project = Some (py "conda")))
        as [Hconda|Hconda];
      [| | | left; split; assumption]; right.
    + rewrite Hpip in Hconda. discriminate.
    + destruct (decide (builder_type = py "docker")) as [Hd|Hd];
        [| destruct (decide (builder_type = py "kaniko")) as [Hk|Hk]].
      3: { destruct (section_for_unknown_builder host launch_project builder_type
                       Hd Hk (or_introl Hpip)) as (log' & e & H & _).
           congruence. }
      all: (split; [auto |]); right; (split; [exact Hpip |]).
      all: rewrite section_for_known_builder in Hsection by auto.
      all: rewrite (bool_decide_eq_true_2 _ Hpip) in Hsection.
      all: fold plain frozen in Hsection.
      all: destruct plain eqn:Hplain, frozen eqn:Hfrozen.
      1,5: split; [left; reflexivity | intros _ _];
        apply (proj1 (Hparse eq_refl)); [| reflexivity];
        destruct (build._parse_existing_requirements host launch_project)
          as [plog [include|e]]; [eauto |];
        cbn [run_bind ret emit app lift read_local snd] in Hsection;
        discriminate.
      1,4: split; [left; reflexivity | intros _; discriminate].
      1,3: split; [right; reflexivity | discriminate].
      all: cbn [run_bind ret emit app lift read_local snd] in Hsection;
        discriminate.
    + destruct (decide (builder_type = py "docker")) as [Hd|Hd];
        [| destruct (decide (builder_type = py "kaniko")) as [Hk|Hk]];
        [auto | auto |].
      destruct (section_for_unknown_builder host launch_project builder_type
                  Hd Hk (or_intror Hconda)) as (log' & e & H & _).
      congruence.
  - intros [[Hpip Hconda]|[Hbuilder Hdeps]].
    + destruct (requirements_section_no_deps host launch_project builder_type
                  Hpip Hconda) as [log' H].
      eauto.
    + rewrite section_for_known_builder by exact Hbuilder.
      destruct Hdeps as [Hconda|(Hpip & Hmanifest & Hreadable)].
      * rewrite Hconda.
        replace (bool_decide (Some (py "conda") = Some (py "pip"))) with false
          by reflexivity.
        rewrite (bool_decide_eq_true_2 (Some (py "conda") = Some (py "conda"))
                   eq_refl).
        cbn [run_bind ret emit app lift read_local snd]. eauto.
      * rewrite (bool_decide_eq_true_2 _ Hpip). fold plain frozen.
        destruct frozen eqn:Hfrozen.
        -- destruct (proj2 (Hparse eq_refl)) as (plog & include & Hp).
           { intros Hplain. apply Hreadable; [exact Hplain | reflexivity]. }
           rewrite Hp. cbn [run_bind ret emit app lift read_local snd]. eauto.
        -- destruct Hmanifest as [Hplain|]; [| discriminate]. rewrite Hplain.
           cbn [run_bind ret emit app lift read_local snd]. eauto.
Qed.

(** X11.  A pip project with both manifests, built with docker or kaniko,
    whose [requirements.txt] can be opened: every exception that the
    requirements parser raises is logged as a warning, in the order of the
    file, after the BuildX warning if there is one; nothing else is printed
    or logged, and the section is generated however many entries fail. *)
Theorem requirements_section_parse_warnings (host : Host)
    (launch_project : LaunchProject) (builder_type dir : str)
    (outcomes : list (Requirement + str)) :
  builder_type = py "docker" \/ builder_type = py "kaniko" ->
  deps_type launch_project = Some (py "pip") ->
  project_dir launch_project = Some dir ->
  path_exists host (os_path.join dir (py "requirements.txt")) = true ->
  path_exists host (os_path.join dir (py "requirements.frozen.txt")) = true ->
  read_requirements host (os_path.join dir (py "requirements.txt")) = Ok outcomes ->
  exists text,
    build.get_requirements_section host launch_project builder_type
    = (buildx_warning host builder_type
       ++ map (fun e => LoggerWarn (py "Unable to parse requirements.txt: " ++ e))
              (parse_failures outcomes),
       Ok text).
Proof.
  intros Hbuilder Hpip Hdir Hplain Hfrozen Hread.
  rewrite section_for_known_builder by exact Hbuilder.
  rewrite (bool_decide_eq_true_2 _ Hpip).
  unfold build.project_has. rewrite Hdir, Hplain, Hfrozen.
  pose proof (parse_existing_requirements_present host launch_project dir
                Hdir Hplain) as Hparse.
  rewrite Hread in Hparse. destruct Hparse as [line ->].
  cbn [run_bind ret emit app lift read_local snd fst].
  rewrite !app_nil_r. eauto.
Qed.

Lemma requirements_section_parse_warnings_witness :
  exists text,
    build.get_requirements_section
      (host_with false [py "/tmp/project/requirements.txt";
                        py "/tmp/project/requirements.frozen.txt"]
                 sample_requirements)
      sample_project (py "docker")
    = ([Termwarn build.BUILDX_WARNING;
        LoggerWarn (py "Unable to parse requirements.txt: "
                    ++ py "Parse error at: not a requirement")],
       Ok text).
Proof.
  apply (requirements_section_parse_warnings
           (host_with false [py "/tmp/project/requirements.txt";
                             py "/tmp/project/requirements.frozen.txt"]
                      sample_requirements)
           sample_project (py "docker") (py "/tmp/project") sample_requirements);
    first [left; reflexivity | reflexivity].
Defined.

(** X12.  A pip project that holds [requirements.frozen.txt] but no
    [requirements.txt], built with docker or kaniko: the section copies the
    frozen manifest and the bootstrap script, and installs with the bootstrap
    script without a [WANDB_ONLY_INCLUDE] filter.  Nothing is logged beyond
    the BuildX warning, and the section does not depend on what reading a
    requirements file would give. *)
Theorem requirements_section_frozen_only (host : Host)
    (launch_project : LaunchProject) (builder_type : str) :
  builder_type = py "docker" \/ builder_type = py "kaniko" ->
  deps_type launch_project = Some (py "pip") ->
  build.project_has host launch_project (py "requirements.txt") = false ->
  build.project_has host launch_project (py "requirements.frozen.txt") = true ->
  build.get_requirements_section host launch_project builder_type
  = (buildx_warning host builder_type,
     Ok (build.PIP_TEMPLATE
           (if cache_mount host builder_type
            then build.PIP_CACHE_MOUNT else build.CACHE_DISABLED)
           (py "src/requirements.frozen.txt _wandb_bootstrap.py")
           (py "python _wandb_bootstrap.py"))).
Proof.
  intros Hbuilder Hpip Hplain Hfrozen.
  rewrite section_for_known_builder by exact Hbuilder.
  rewrite (bool_decide_eq_true_2 _ Hpip), Hplain, Hfrozen.
  rewrite parse_existing_requirements_absent; [| exact Hplain |].
  - cbn [run_bind ret emit app lift read_local snd fst].
    rewrite !app_nil_r. reflexivity.
  - unfold build.project_has in Hfrozen.
    destruct (project_dir launch_project); congruence.
Qed.

Lemma requirements_section_frozen_only_witness :
  build.get_requirements_section
    (host_with true [py "/tmp/project/requirements.frozen.txt"] sample_requirements)
    sample_project (py "kaniko")
  = ([],
     Ok (build.PIP_TEMPLATE build.CACHE_DISABLED
           (py "src/requirements.frozen.txt _wandb_bootstrap.py")
           (py "python _wandb_bootstrap.py"))).
Proof.
  apply (requirements_section_frozen_only
           (host_with true [py "/tmp/project/requirements.frozen.txt"]
                      sample_requirements)
           sample_project (py "kaniko"));
    first [right; reflexivity | reflexivity].
Defined.

(** X13.  With the docker builder and BuildX installed the BuildX warning is
    not printed and the install step runs under a cache mount: the conda
    section is the conda template under the mount of [/opt/conda/pkgs], and
    every pip section that is generated is the pip template under the mount
    of [/root/.cache/pip].  The two mounts differ, and neither is the flag
    that disables the cache. *)
Theorem requirements_section_cache_mount (host : Host)
    (launch_project : LaunchProject) :
  is_buildx_installed host = true ->
  let section :=
    build.get_requirements_section host launch_project (py "docker") in
  (Termwarn build.BUILDX_WARNING ∉ fst section)
  /\ (deps_type launch_project = Some (py "conda") ->
      section = ([], Ok (build.CONDA_TEMPLATE build.CONDA_CACHE_MOUNT)))
  /\ (deps_type launch_project = Some (py "pip") ->
      forall text, snd section = Ok text ->
      exists requirements_files pip_install,
        text = build.PIP_TEMPLATE build.PIP_CACHE_MOUNT
                 requirements_files pip_install)
  /\ build.PIP_CACHE_MOUNT <> build.CONDA_CACHE_MOUNT
  /\ build.PIP_CACHE_MOUNT <> build.CACHE_DISABLED
  /\ build.CONDA_CACHE_MOUNT <> build.CACHE_DISABLED.
Proof.
  intros Hbuildx section. subst section.
  rewrite section_for_known_builder by (left; reflexivity).
  unfold cache_mount, buildx_warning. rewrite Hbuildx.
  rewrite (bool_decide_eq_true_2 (py "docker" = py "docker") eq_refl).
  cbn [negb andb run_bind app].
  split; [| split; [| split; [| repeat split; discriminate]]].
  - destruct (bool_decide (deps_type launch_project = Some (py "pip")));
      [| destruct (bool_decide (deps_type launch_project = Some (py "conda")))].
    + destruct (build.project_has host launch_project (py "requirements.txt"));
        destruct (build.project_has host launch_project
                    (py "requirements.frozen.txt"));
        cbn [run_bind ret emit app lift read_local snd fst];
        try (apply not_elem_of_nil).
      all: destruct (build._parse_existing_requirements host launch_project)
             as [plog [include|e]] eqn:Hparse;
        cbn [run_bind ret emit app lift read_local snd fst];
        rewrite ?app_nil_r.
      all: intros Hin.
      all: unfold build._parse_existing_requirements in Hparse.
      all: destruct (project_dir launch_project) as [dir|];
        [| injection Hparse as <- _; inversion Hin].
      all: destruct (path_exists host (os_path.join dir (py "requirements.txt")));
        [| injection Hparse as <- _; inversion Hin].
      all: destruct (read_requirements host
                       (os_path.join dir (py "requirements.txt")))
             as [outcomes|e'];
        [| injection Hparse as <- _; inversion Hin].
      all: unfold lift in Hparse; cbn [run_bind] in Hparse.
      all: pose proof (parse_loop_log host outcomes ∅) as Hlog.
      all: destruct (build.parse_loop host outcomes ∅) as [llog [s|e']];
        cbn [run_bind ret fst] in Hparse, Hlog;
        injection Hparse as <- _; rewrite ?app_nil_r in Hin;
        rewrite Hlog in Hin;
        apply list_elem_of_fmap in Hin as (e0 & [=] & _).
    + cbn [ret fst]. apply not_elem_of_nil.
    + cbn [run_bind ret emit app fst]. intros Hin.
      apply list_elem_of_singleton in Hin. discriminate.
  - intros Hconda. rewrite Hconda.
    replace (bool_decide (Some (py "conda") = Some (py "pip"))) with false
      by reflexivity.
    rewrite (bool_decide_eq_true_2 (Some (py "conda") = Some (py "conda")) eq_refl).
    reflexivity.
  - intros Hpip. rewrite (bool_decide_eq_true_2 _ Hpip).
    intros text.
    destruct (build.project_has host launch_project (py "requirements.txt"));
      destruct (build.project_has host launch_project (py "requirements.frozen.txt"));
      try destruct (build._parse_existing_requirements host launch_project)
            as [plog [include|e]];
      cbn [run_bind ret emit app lift read_local snd fst];
      intros [= <-]; eauto.
Qed.

Lemma requirements_section_cache_mount_witness :
  build.get_requirements_section sample_host
    (with_deps_type (Some (py "conda")) sample_project) (py "docker")
  = ([], Ok (build.CONDA_TEMPLATE build.CONDA_CACHE_MOUNT)).
Proof.
  apply (requirements_section_cache_mount sample_host
           (with_deps_type (Some (py "conda")) sample_project) eq_refl).
  reflexivity.
Defined.

(** ** More on the build context *)

(** The stager on a project directory that exists: only the write of
    [runtime.txt] can still fail. *)
Lemma create_docker_build_ctx_staged (host : Host) (launch_project : LaunchProject)
    (dockerfile_contents dir : str) (entries : list (str * node)) :
  project_dir launch_project = Some dir ->
  tree_at host dir = Some (Dir entries) ->
  build._create_docker_build_ctx host launch_project dockerfile_contents
  = let copied :=
      shutil.copytree (shutil.ignore_patterns [py "fsmonitor--daemon.ipc"]) entries in
    let* src :=
      match python_version launch_project with
      | Some (c :: version) =>
          write_text (os_path.join (mkdtemp host) (py "src")) (py "runtime.txt")
            (py "python-" ++ c :: version) copied
      | _ => Ok copied
      end in
    Ok (mkdtemp host,
        Dir [(py "src", Dir src);
             (py "_wandb_bootstrap.py", File (bootstrap_script host));
             (py "Dockerfile.wandb-autogenerated", File dockerfile_contents)]).
Proof.
  intros Hdir Htree. unfold build._create_docker_build_ctx.
  rewrite Hdir. cbn [bind]. rewrite Htree. cbn [bind].
  set (copied := shutil.copytree _ entries).
  change (write_text (mkdtemp host) (py "_wandb_bootstrap.py") (bootstrap_script host)
            ([] ++ [(py "src", Dir copied)]))
    with (Ok [(py "src", Dir copied);
              (py "_wandb_bootstrap.py", File (bootstrap_script host))]).
  cbn [bind].
  destruct (python_version launch_project) as [[|c version]|];
    [| destruct (write_text (os_path.join (mkdtemp host) (py "src"))
                   (py "runtime.txt") (py "python-" ++ c :: version) copied)
         as [src|e] |];
    cbn [bind]; rewrite ?stage_root_entries; reflexivity.
Qed.

(** X14.  A project whose source tree holds a directory named [runtime.txt]
    at its top.  When the descriptor pins a runtime version the stager raises
    [IsADirectoryError] for [src/runtime.txt] of the new directory, after
    the tree has been copied; when it pins none the stager returns, and the
    copy holds the directory. *)
Theorem build_ctx_runtime_is_directory (host : Host)
    (launch_project : LaunchProject) (dockerfile_contents dir : str)
    (entries children : list (str * node)) :
  project_dir launch_project = Some dir ->
  tree_at host dir = Some (Dir entries) ->
  dir_lookup (py "runtime.txt") entries = Some (Dir children) ->
  let staged :=
    build._create_docker_build_ctx host launch_project dockerfile_contents in
  (truthy_str (python_version launch_project) = true ->
   staged = Raise (IsADirectoryError
                     (os_path.join (os_path.join (mkdtemp host) (py "src"))
                        (py "runtime.txt"))))
  /\ (truthy_str (python_version launch_project) = false ->
      exists src copy,
        staged
        = Ok (mkdtemp host,
              Dir [(py "src", Dir src);
                   (py "_wandb_bootstrap.py", File (bootstrap_script host));
                   (py "Dockerfile.wandb-autogenerated", File dockerfile_contents)])
        /\ dir_lookup (py "runtime.txt") src = Some (Dir copy)).
Proof.
  intros Hdir Htree Hruntime staged. subst staged.
  rewrite (create_docker_build_ctx_staged host launch_project dockerfile_contents
             dir entries Hdir Htree).
  cbv zeta.
  assert (Hcopied :
    dir_lookup (py "runtime.txt")
      (shutil.copytree (shutil.ignore_patterns [py "fsmonitor--daemon.ipc"]) entries)
    = Some (shutil.copy_node (shutil.ignore_patterns [py "fsmonitor--daemon.ipc"])
              (Dir children))).
  { unfold shutil.copytree. rewrite dir_lookup_copy_entries.
    change (shutil.ignore_patterns [py "fsmonitor--daemon.ipc"] (py "runtime.txt"))
      with false.
    cbv iota. rewrite Hruntime. reflexivity. }
  destruct (python_version launch_project) as [[|c version]|]; (split; intros Hpin);
    try discriminate Hpin.
  - cbn [bind]. eexists _, _. split; [reflexivity | exact Hcopied].
  - unfold write_text. rewrite Hcopied. reflexivity.
  - cbn [bind]. eexists _, _. split; [reflexivity | exact Hcopied].
Qed.

Lemma build_ctx_runtime_is_directory_witness :
  build._create_docker_build_ctx
    (host_with_tree (py "/tmp/project") [(py "runtime.txt", Dir [])])
    (with_python_version (Some (py "3.9.7")) sample_project)
    (py "FROM python:3.9")
  = Raise (IsADirectoryError (py "/tmp/tmpq2f7/src/runtime.txt")).
Proof.
  apply (build_ctx_runtime_is_directory
           (host_with_tree (py "/tmp/project") [(py "runtime.txt", Dir [])])
           (with_python_version (Some (py "3.9.7")) sample_project)
           (py "FROM python:3.9") (py "/tmp/project")
           [(py "runtime.txt", Dir [])] [] eq_refl eq_refl eq_refl).
  reflexivity.
Defined.

(** ** [generate_dockerfile] *)

(** X15.  The recipe depends on a pinned Python version only through its
    first two components, and then not on the version of the running
    interpreter: two descriptors that differ only in pinned versions with
    the same major and minor component get the same result from
    [generate_dockerfile], under whatever interpreter. *)
Theorem generate_dockerfile_pinned_version (host : Host)
    (sys_version sys_version' : str) (launch_project : LaunchProject)
    (entry_point : EntryPoint) (runner_type builder_type : str)
    (version version' : str) :
  version <> [] -> version' <> [] ->
  take 2 (str_split 46 version) = take 2 (str_split 46 version') ->
  build.generate_dockerfile host sys_version
    (with_python_version (Some version) launch_project) entry_point
    runner_type builder_type
  = build.generate_dockerfile host sys_version'
      (with_python_version (Some version') launch_project) entry_point
      runner_type builder_type.
Proof.
  intros Hne Hne' Htake.
  destruct version as [|c version]; [congruence |].
  destruct version' as [|c' version']; [congruence |].
  unfold build.generate_dockerfile.
  cbn [python_version with_python_version]. rewrite Htake.
  reflexivity.
Qed.

Lemma generate_dockerfile_pinned_version_witness :
  build.generate_dockerfile sample_host (py "3.8.10 (default)")
    (with_python_version (Some (py "3.9.7")) sample_project)
    {| name := py "main"; command := [py "python"; py "train.py"] |}
    (py "local-container") (py "docker")
  = build.generate_dockerfile sample_host (py "3.11.4 (main)")
      (with_python_version (Some (py "3.9.12")) sample_project)
      {| name := py "main"; command := [py "python"; py "train.py"] |}
      (py "local-container") (py "docker").
Proof.
  apply generate_dockerfile_pinned_version; [discriminate | discriminate |].
  reflexivity.
Defined.





(** ** [get_current_python_version] *)

Lemma split_whitespace_from_nil (current s : str) :
  split_whitespace_from current s = []
  <-> current = [] /\ forallb is_space s = true.
Proof.
  revert current. induction s as [|c s IH]; intros current; cbn [split_whitespace_from forallb].
  - destruct current; split; [auto | intros [_ _]; reflexivity
                              | discriminate | intros [[=] _]].
  - destruct (is_space c); cbn [andb].
    + destruct current as [|x current].
      * apply IH.
      * split; [discriminate | intros [[=] _]].
    + rewrite IH. split; [intros [Hnil _] | intros [_ [=]]].
      destruct current; discriminate Hnil.
Qed.

(** X18.  [get_current_python_version] reads the first word of
    [sys.version].  A word without a dot is the major version and the version
    is the word followed by [.0]; otherwise the version is the word cut after
    its second component, and the major version is the first component.
    The call raises [IndexError] exactly when [sys.version] holds nothing but
    white space. *)
Theorem current_python_version_shape (sys_version : str) :
  match build.get_current_python_version sys_version with
  | Raise e =>
      e = IndexError (py "list index out of range")
      /\ forallb is_space sys_version = true
  | Ok (version, major) =>
      exists word,
        head (split_whitespace sys_version) = Some word
        /\ (46 ∉ major)
        /\ ((46 ∉ word) -> major = word /\ version = word ++ py ".0")
        /\ ((46 ∈ word) ->
            exists minor rest,
              word = major ++ py "." ++ minor ++ rest
              /\ version = major ++ py "." ++ minor
              /\ (46 ∉ minor)
              /\ (rest = [] \/ head rest = Some 46))
  end.
Proof.
  unfold build.get_current_python_version.
  destruct (split_whitespace sys_version) as [|word others] eqn:Hwords.
  - split; [reflexivity |].
    apply (split_whitespace_from_nil [] sys_version). exact Hwords.
  - exists word. split; [reflexivity |].
    pose proof (str_split_parts 46 word) as Hparts.
    pose proof (str_join_split 46 word) as Hjoin.
    destruct (str_split 46 word) as [|major [|minor more]] eqn:Hsplit.
    + exfalso. exact (str_split_nonempty 46 word Hsplit).
    + cbn [head default length Nat.leb] in *. cbn [str_join] in Hjoin. subst word.
      apply Forall_cons in Hparts as [Hmajor _].
      split; [exact Hmajor |]. split; [auto | contradiction].
    + cbn [head default length Nat.leb take] in *.
      apply Forall_cons in Hparts as [Hmajor Hrest].
      apply Forall_cons in Hrest as [Hminor Hmore].
      split; [exact Hmajor |]. split.
      * intros Hnot. exfalso. apply Hnot. rewrite <- Hjoin.
        cbn [str_join]. apply elem_of_app. right. left.
      * intros _. exists minor.
        destruct more as [|third more].
        -- exists []. rewrite <- Hjoin. cbn [str_join].
           rewrite app_nil_r. auto.
        -- exists (py "." ++ str_join (py ".") (third :: more)).
           rewrite <- Hjoin. cbn [str_join].
           split; [reflexivity |]. split; [reflexivity |].
           split; [exact Hminor | right; reflexivity].
Qed.

(** ** [construct_gcp_registry_uri] *)

(** X19.  The URI is registry, project and repository, in this order, with
    a slash between them.  When no component holds a slash, splitting the URI
    at the slashes gives the three components back, so that different
    triples get different URIs. *)
Theorem gcp_registry_uri_round_trip (gcp_repo gcp_project gcp_registry : str) :
  (47 ∉ gcp_repo) -> (47 ∉ gcp_project) -> (47 ∉ gcp_registry) ->
  str_split 47
    (build.construct_gcp_registry_uri gcp_repo gcp_project gcp_registry)
  = [gcp_registry; gcp_project; gcp_repo]
  /\ forall repo' project' registry',
       (47 ∉ repo') -> (47 ∉ project') -> (47 ∉ registry') ->
       build.construct_gcp_registry_uri repo' project' registry'
       = build.construct_gcp_registry_uri gcp_repo gcp_project gcp_registry ->
       repo' = gcp_repo /\ project' = gcp_project /\ registry' = gcp_registry.
Proof.
  intros Hrepo Hproject Hregistry.
  assert (Hsplit : forall repo project registry,
    (47 ∉ repo) -> (47 ∉ project) -> (47 ∉ registry) ->
    str_split 47 (build.construct_gcp_registry_uri repo project registry)
    = [registry; project; repo]).
  { intros repo project registry H1 H2 H3.
    unfold build.construct_gcp_registry_uri.
    apply (str_split_join 47 [registry; project; repo]); [discriminate |].
    constructor; [exact H3 |]. constructor; [exact H2 |].
    constructor; [exact H1 | constructor]. }
  split; [apply Hsplit; assumption |].
  intros repo' project' registry' H1 H2 H3 Heq.
  apply (f_equal (str_split 47)) in Heq.
  rewrite !Hsplit in Heq by assumption.
  injection Heq as -> -> ->. auto.
Qed.

Lemma gcp_registry_uri_round_trip_witness :
  str_split 47
    (build.construct_gcp_registry_uri (py "images") (py "my-project")
       (py "us-central1-docker.pkg.dev"))
  = [py "us-central1-docker.pkg.dev"; py "my-project"; py "images"].
Proof.
  apply (gcp_registry_uri_round_trip (py "images") (py "my-project")
           (py "us-central1-docker.pkg.dev"));
    intros Hin; vm_compute in Hin; repeat (apply elem_of_cons in Hin as [Hin|Hin];
      [discriminate Hin |]); inversion Hin.
Defined.
